(** * GoToSocial worker pipeline: notification surface, handlers, dispatch

    A shallow embedding of the side-effect engine in
    [internal/processing/workers]: the notification surface
    ([surfacenotify.go]), the client-origin handlers ([fromclientapi.go])
    and the federation-origin handlers ([fromfediapi.go]).

    Go code that talks to collaborators (storage, locks, queues, the
    federation transport, the streaming transport, the logger) is written
    in a small state monad over a [World]; every collaborator call is
    recorded in the world's [history], and whether a call fails is decided
    by an environment [Env] that sees the whole history so far. *)

From Stdlib Require Import String List Bool Arith Lia.
From stdpp Require Import base list.
Import ListNotations.
Local Open Scope string_scope.
Local Open Scope list_scope.

Infix "+:+" := String.append (at level 60, right associativity).

(** ** Errors *)

(** Go [error] values.  [ErrNoEntries] is [db.ErrNoEntries]; [ErrFault] is
    any other error handed back by a collaborator; [ErrNew] is
    [gtserror.Newf] without a wrapped cause and [ErrWrap] is
    [gtserror.Newf("...: %w", err)]. *)
Inductive error : Type :=
| ErrNoEntries
| ErrFault (why : string)
| ErrNew (msg : string)
| ErrWrap (msg : string) (cause : error).

(** [errors.Is(err, db.ErrNoEntries)]: follows the [%w] chain. *)
Fixpoint is_no_entries (e : error) : bool :=
  match e with
  | ErrNoEntries => true
  | ErrFault _ => false
  | ErrNew _ => false
  | ErrWrap _ c => is_no_entries c
  end.

(** The innermost cause of an error chain. *)
Fixpoint root_cause (e : error) : error :=
  match e with
  | ErrWrap _ c => root_cause c
  | _ => e
  end.

(** The text of an error, as [%v] prints it. *)
Fixpoint error_text (e : error) : string :=
  match e with
  | ErrNoEntries => "sql: no rows in result set"
  | ErrFault why => why
  | ErrNew msg => msg
  | ErrWrap msg c => msg +:+ ": " +:+ error_text c
  end.

(** [gtserror.MultiError.Combine]: nil when nothing was appended. *)
Definition Combine (errs : list error) : option error :=
  match errs with
  | [] => None
  | _ :: _ => Some (ErrNew (String.concat "; " (map error_text errs)))
  end.

Inductive result (A : Type) : Type :=
| Ok (a : A)
| Err (e : error).
Arguments Ok {A} a.
Arguments Err {A} e.

(** ** Data model (the fields of [gtsmodel] that the workers read) *)

Definition NotificationType := string.

(** Modelled from the spec: the names of the notification types, declared
    in [gtsmodel] (not part of the sources at hand). *)
Definition NotificationFollow : NotificationType := "follow".
Definition NotificationFollowRequest : NotificationType := "follow_request".
Definition NotificationMention : NotificationType := "mention".
Definition NotificationReblog : NotificationType := "reblog".
Definition NotificationFave : NotificationType := "favourite".

Record Move : Type := mkMove {
  move_ID : string;
  AttemptedAt : nat;
  SucceededAt : nat   (* 0 is Go's zero time: not set *)
}.

(** Modelled from the spec: [gtsmodel.Account]; [acct_Local] is the answer
    of [IsLocal()], and [IsRemote()] is its negation ("Remote (non-local)
    target accounts"). *)
Record Account : Type := mkAccount {
  acct_ID : string;
  acct_URI : string;
  acct_Username : string;
  acct_Local : bool;
  acct_Move : option Move
}.

Definition IsLocal (a : Account) : bool := acct_Local a.
Definition IsRemote (a : Account) : bool := negb (acct_Local a).

Record Notification : Type := mkNotification {
  notif_ID : string;
  notif_Type : NotificationType;
  notif_TargetAccountID : string;
  notif_OriginAccountID : string;
  notif_StatusID : string
}.

(** The four fields [GetNotification] selects on. *)
Record NotifKey : Type := mkKey {
  key_type : NotificationType;
  key_target : string;
  key_origin : string;
  key_status : string
}.

Definition key_eqb (a b : NotifKey) : bool :=
  String.eqb (key_type a) (key_type b)
  && String.eqb (key_target a) (key_target b)
  && String.eqb (key_origin a) (key_origin b)
  && String.eqb (key_status a) (key_status b).

Definition key_of (n : Notification) : NotifKey :=
  mkKey (notif_Type n) (notif_TargetAccountID n)
        (notif_OriginAccountID n) (notif_StatusID n).

Definition has_key (k : NotifKey) (n : Notification) : bool :=
  key_eqb k (key_of n).

(** Number of stored notifications with the given key. *)
Definition count_key (k : NotifKey) (ns : list Notification) : nat :=
  length (List.filter (has_key k) ns).

Record Mention : Type := mkMention {
  men_ID : string;
  men_StatusID : string;
  men_TargetAccountID : string;
  men_TargetAccount : Account;
  men_OriginAccount : Account
}.

(** A populated status, with the relations the surface reads.  Relational
    fields hold the row that the matching [Populate...] call loads. *)
Record Status : Type := mkStatus {
  st_ID : string;
  st_URI : string;
  st_AccountID : string;
  st_Account : Account;
  st_ThreadID : string;
  st_InReplyToID : string;
  st_BoostOfID : string;
  st_BoostOfAccountID : string;
  st_BoostOfAccount : Account;
  st_BoostOfThreadID : string;      (* status.BoostOf.ThreadID *)
  st_Local : bool;
  st_Mentions : list Mention
}.

Record Follow : Type := mkFollow {
  fol_ID : string;
  fol_AccountID : string;
  fol_Account : Account;
  fol_TargetAccountID : string;
  fol_TargetAccount : Account
}.

Record StatusFave : Type := mkFave {
  fave_ID : string;
  fave_AccountID : string;
  fave_Account : Account;
  fave_TargetAccountID : string;
  fave_TargetAccount : Account;
  fave_StatusID : string;
  fave_Status : Status
}.

Record Block : Type := mkBlock {
  blk_ID : string;
  blk_AccountID : string;
  blk_TargetAccountID : string
}.

Record PollVote : Type := mkPollVote {
  vote_ID : string;
  vote_PollID : string;
  vote_PollStatusID : string;       (* vote.Poll.StatusID *)
  vote_PollStatus : Status          (* vote.Poll.Status *)
}.

(** The [GTSModel] slot of a queue message: a closed set of model types,
    cast by each handler to the one it expects. *)
Inductive GTSModel : Type :=
| ModelNone
| ModelStatus (s : Status)
| ModelFave (f : StatusFave)
| ModelFollow (f : Follow)
| ModelBlock (b : Block)
| ModelPollVote (v : PollVote)
| ModelAccount (a : Account).

Record FromClientAPI : Type := mkClientMsg {
  c_APActivityType : string;
  c_APObjectType : string;
  c_GTSModel : GTSModel;
  c_Origin : Account;
  c_Target : Account
}.

Record FromFediAPI : Type := mkFediMsg {
  f_APActivityType : string;
  f_APObjectType : string;
  f_GTSModel : GTSModel;
  f_Requesting : Account;
  f_Receiving : Account
}.

(** ** Collaborator calls *)

Inductive WorkQueue : Type := DeliveryQueue | ClientQueue | FederatorQueue.
Inductive TimelineKind : Type := HomeTimelines | ListTimelines.

(** One constructor per call the workers make on a collaborator. *)
Inductive Event : Type :=
| DBPopulateMention (id : string)
| DBPopulateFollow (id : string)
| DBPopulateStatusFave (id : string)
| DBPopulateStatus (id : string)
| DBPopulatePollVote (id : string)
| DBPopulatePoll (id : string)
| DBPopulateMove (id : string)
| DBIsThreadMutedByAccount (thread account : string)
| DBGetNotification (k : NotifKey)
| DBPutNotification (n : Notification)
| DBDeleteNotificationByID (id : string)
| DBGetFiltersForAccountID (account : string)
| DBPutPollVote (id : string)
| DBUpdateMove (id : string) (column : string)
| DBDeleteFollow (account target : string)
| DBDeleteFollowRequest (account target : string)
| LockAcquire (uri : string)
| LockRelease (uri : string)
| ConvNotificationToAPI (id : string)
| StreamNotify (account notif : string)
| QueueDelete (q : WorkQueue) (field value : string)
| WipeItemsFromAccountID (t : TimelineKind) (timeline account : string)
| UtilWipeStatus (id : string) (deleteAttachments : bool)
| UtilDecrementStatusesCount (account : string)
| UtilRedirectFollowers (origin target : string)
| SurfaceInvalidateStatus (id : string)
| FedDeleteStatus (id : string)
| FedUpdateStatus (id : string)
| FedBlock (id : string)
| FedMoveAccount (account : string)
| LogInfo (msg : string)
| LogError (msg : string).

(** The state the collaborators hold.  [history] lists the calls made so
    far, newest first. *)
Record World : Type := mkWorld {
  notifications : list Notification;
  thread_mutes : list (string * string);      (* (thread, account) *)
  moves : list Move;
  home_items : list (string * string);        (* (timeline owner, author) *)
  list_items : list (string * string);
  follows : list (string * string);           (* (account, target) *)
  follow_requests : list (string * string);
  held_locks : list string;
  history : list Event
}.

(** What the program cannot decide: whether a collaborator call fails
    (with which text), given everything that was called before; whether a
    [Populate...] call finds the rows it looks for; and which identifier
    [id.NewULID] draws. *)
Record Env : Type := mkEnv {
  fails : list Event -> Event -> option string;
  no_rows : list Event -> Event -> bool;
  NewULID : list Event -> string
}.

(** An environment in which no collaborator ever fails. *)
Definition calm (ulid : string) : Env :=
  mkEnv (fun _ _ => None) (fun _ _ => false) (fun _ => ulid).

(** ** The worker monad *)

(** A computation reads and updates the world; [None] means the worker
    does not return: it waits for a processing lock somebody else holds,
    or it panics on a nil pointer. *)
Definition M (A : Type) : Type := World -> option (A * World).

Definition ret {A : Type} (a : A) : M A := fun w => Some (a, w).

Definition bind {A B : Type} (m : M A) (k : A -> M B) : M B :=
  fun w => match m w with
           | Some (a, w') => k a w'
           | None => None
           end.

Definition blocked {A : Type} : M A := fun _ => None.
Definition panic {A : Type} : M A := fun _ => None.

Declare Scope worker_scope.
Delimit Scope worker_scope with worker.
Notation "x <- c ;; k" := (bind c (fun x => k))
  (at level 100, c at next level, right associativity) : worker_scope.
Notation "c ;;; k" := (bind c (fun _ => k))
  (at level 100, right associativity) : worker_scope.
Local Open Scope worker_scope.

(** World updates. *)
Definition record_call (e : Event) (w : World) : World :=
  mkWorld (notifications w) (thread_mutes w) (moves w) (home_items w)
          (list_items w) (follows w) (follow_requests w) (held_locks w)
          (e :: history w).

Definition set_notifications (ns : list Notification) (w : World) : World :=
  mkWorld ns (thread_mutes w) (moves w) (home_items w)
          (list_items w) (follows w) (follow_requests w) (held_locks w)
          (history w).

Definition set_moves (ms : list Move) (w : World) : World :=
  mkWorld (notifications w) (thread_mutes w) ms (home_items w)
          (list_items w) (follows w) (follow_requests w) (held_locks w)
          (history w).

Definition set_home_items (l : list (string * string)) (w : World) : World :=
  mkWorld (notifications w) (thread_mutes w) (moves w) l
          (list_items w) (follows w) (follow_requests w) (held_locks w)
          (history w).

Definition set_list_items (l : list (string * string)) (w : World) : World :=
  mkWorld (notifications w) (thread_mutes w) (moves w) (home_items w)
          l (follows w) (follow_requests w) (held_locks w)
          (history w).

Definition set_follows (l : list (string * string)) (w : World) : World :=
  mkWorld (notifications w) (thread_mutes w) (moves w) (home_items w)
          (list_items w) l (follow_requests w) (held_locks w)
          (history w).

Definition set_follow_requests (l : list (string * string)) (w : World) : World :=
  mkWorld (notifications w) (thread_mutes w) (moves w) (home_items w)
          (list_items w) (follows w) l (held_locks w)
          (history w).

Definition set_held_locks (l : list string) (w : World) : World :=
  mkWorld (notifications w) (thread_mutes w) (moves w) (home_items w)
          (list_items w) (follows w) (follow_requests w) l
          (history w).

Definition pair_eqb (p q : string * string) : bool :=
  String.eqb (fst p) (fst q) && String.eqb (snd p) (snd q).

Definition drop_pair (p : string * string) (l : list (string * string))
  : list (string * string) :=
  List.filter (fun q => negb (pair_eqb p q)) l.

Definition has_pair (p : string * string) (l : list (string * string)) : bool :=
  existsb (pair_eqb p) l.

Definition release (uri : string) (locks : list string) : list string :=
  List.filter (fun u => negb (String.eqb uri u)) locks.

Definition is_held (uri : string) (locks : list string) : bool :=
  existsb (String.eqb uri) locks.

(** * The read side *)

(** A call on a collaborator of the read side (storage, visibility
    filter, converter, logger): it answers, and reads and updates
    whatever state [St] the collaborators hold. *)
Definition R (St A : Type) : Type := St -> A * St.

Definition unit_R {St A : Type} (a : A) : R St A := fun s => (a, s).

Definition bind_R {St A B : Type} (m : R St A) (k : A -> R St B) : R St B :=
  fun s => let (a, s') := m s in k a s'.

Declare Scope read_scope.
Delimit Scope read_scope with read.
Notation "x <- c ;; k" := (bind_R c (fun x => k))
  (at level 100, c at next level, right associativity) : read_scope.
Notation "c ;;; k" := (bind_R c (fun _ => k))
  (at level 100, right associativity) : read_scope.

(** Go's [time.Time], counted from the zero instant. *)
Definition Time : Type := nat.
Definition IsZero (t : Time) : bool := Nat.eqb t 0.
Definition Before (t u : Time) : bool := Nat.ltb t u.

(** [util.PtrValueOr]. *)
Definition PtrValueOr {A : Type} (p : option A) (default : A) : A :=
  match p with
  | Some a => a
  | None => default
  end.

(** ** The converter's filters (internal/typeutils/internaltofrontend.go) *)

Module Typeutils.

(** The fields of [gtsmodel.Filter] and its rows that the converter
    reads. *)
Record FilterKeyword : Type := mkFilterKeyword {
  fk_ID : string;
  fk_Keyword : string;
  fk_WholeWord : option bool
}.

Record FilterStatus : Type := mkFilterStatus {
  fs_ID : string;
  fs_StatusID : string
}.

(** [gtsmodel.FilterAction]: warn, hide, or any other value. *)
Inductive FilterAction : Type :=
| FilterActionNone
| FilterActionWarn
| FilterActionHide.

Record Filter : Type := mkFilter {
  flt_ID : string;
  flt_Title : string;
  flt_Action : FilterAction;
  flt_ExpiresAt : Time;
  flt_Keywords : list FilterKeyword;
  flt_Statuses : list FilterStatus;
  flt_ContextHome : option bool;
  flt_ContextNotifications : option bool;
  flt_ContextPublic : option bool;
  flt_ContextThread : option bool;
  flt_ContextAccount : option bool
}.

(** [statusfilter.FilterContext], a string type declared outside the
    sources at hand.  The converter compares it with the empty string
    ([FilterContextNone]) and with five named constants only, so a context
    is one of these six or some other string. *)
Inductive FilterContext : Type :=
| FilterContextNone
| FilterContextHome
| FilterContextNotifications
| FilterContextPublic
| FilterContextThread
| FilterContextAccount
| FilterContextOther.

(** The API model ([apimodel]) of a filter. *)
Inductive APIFilterContext : Type :=
| APIFilterContextHome
| APIFilterContextNotifications
| APIFilterContextPublic
| APIFilterContextThread
| APIFilterContextAccount.

Inductive APIFilterAction : Type :=
| APIFilterActionNone
| APIFilterActionWarn
| APIFilterActionHide.

Record APIFilterKeyword : Type := mkAPIFilterKeyword {
  afk_ID : string;
  afk_Keyword : string;
  afk_WholeWord : bool
}.

Record APIFilterStatus : Type := mkAPIFilterStatus {
  afs_ID : string;
  afs_StatusID : string
}.

Record FilterV2 : Type := mkFilterV2 {
  v2_ID : string;
  v2_Title : string;
  v2_Context : list APIFilterContext;
  v2_ExpiresAt : option string;
  v2_FilterAction : APIFilterAction;
  v2_Keywords : list APIFilterKeyword;
  v2_Statuses : list APIFilterStatus
}.

Record FilterResult : Type := mkFilterResult {
  fr_Filter : FilterV2;
  fr_KeywordMatches : list string;
  fr_StatusMatches : list string
}.

(** The fields of [gtsmodel.Status] that the filters and the notification
    converter read.  [s_Account] is a pointer that may be nil. *)
Record MediaAttachment : Type := mkAttachment {
  att_Description : string
}.

Record Poll : Type := mkPoll {
  poll_Options : list string
}.

Record Status : Type := mkStatus {
  s_ID : string;
  s_AccountID : string;
  s_Account : option Account;
  s_Content : string;
  s_ContentWarning : string;
  s_Attachments : list MediaAttachment;
  s_Poll : option Poll
}.

(** The text functions the converter calls: [regexp.QuoteMeta],
    [regexp.Compile], [Regexp.MatchString], [text.SanitizeToPlaintext] and
    [util.FormatISO8601]. *)
Record TextTools : Type := mkTextTools {
  Regexp : Type;
  QuoteMeta : string -> string;
  Compile : string -> result Regexp;
  MatchString : Regexp -> string -> bool;
  SanitizeToPlaintext : string -> string;
  FormatISO8601 : Time -> string
}.

(** What a Go function returning [(value, error)] can do when it can also
    dereference a nil pointer. *)
Inductive Outcome (A : Type) : Type :=
| Returns (a : A)
| Fails (err : error)
| ErrHideStatus            (* [statusfilter.ErrHideStatus] *)
| Panics.
Arguments Returns {A} a.
Arguments Fails {A} err.
Arguments ErrHideStatus {A}.
Arguments Panics {A}.

(** [filterAppliesInContext]. *)
Definition filterAppliesInContext (filter : Filter)
    (filterContext : FilterContext) : bool :=
  match filterContext with
  | FilterContextHome => PtrValueOr (flt_ContextHome filter) false
  | FilterContextNotifications =>
      PtrValueOr (flt_ContextNotifications filter) false
  | FilterContextPublic => PtrValueOr (flt_ContextPublic filter) false
  | FilterContextThread => PtrValueOr (flt_ContextThread filter) false
  | FilterContextAccount => PtrValueOr (flt_ContextAccount filter) false
  | _ => false
  end.

(** [filterToAPIFilterContexts]. *)
Definition filterToAPIFilterContexts (filter : Filter)
  : list APIFilterContext :=
  let apiContexts := [] in
  let apiContexts :=
    if PtrValueOr (flt_ContextHome filter) false
    then apiContexts ++ [APIFilterContextHome] else apiContexts in
  let apiContexts :=
    if PtrValueOr (flt_ContextNotifications filter) false
    then apiContexts ++ [APIFilterContextNotifications] else apiContexts in
  let apiContexts :=
    if PtrValueOr (flt_ContextPublic filter) false
    then apiContexts ++ [APIFilterContextPublic] else apiContexts in
  let apiContexts :=
    if PtrValueOr (flt_ContextThread filter) false
    then apiContexts ++ [APIFilterContextThread] else apiContexts in
  let apiContexts :=
    if PtrValueOr (flt_ContextAccount filter) false
    then apiContexts ++ [APIFilterContextAccount] else apiContexts in
  apiContexts.

(** [filterActionToAPIFilterAction]. *)
Definition filterActionToAPIFilterAction (m : FilterAction)
  : APIFilterAction :=
  match m with
  | FilterActionWarn => APIFilterActionWarn
  | FilterActionHide => APIFilterActionHide
  | _ => APIFilterActionNone
  end.

(** [filterExpiresAtToAPIFilterExpiresAt]. *)
Definition filterExpiresAtToAPIFilterExpiresAt (t : TextTools)
    (expiresAt : Time) : option string :=
  if IsZero expiresAt then None else Some (FormatISO8601 t expiresAt).

(** [FilterToAPIFilterV2]. *)
Definition FilterToAPIFilterV2 (t : TextTools) (filter : Filter)
  : result FilterV2 :=
  let apiFilterKeywords :=
    map (fun filterKeyword =>
           mkAPIFilterKeyword (fk_ID filterKeyword) (fk_Keyword filterKeyword)
                              (PtrValueOr (fk_WholeWord filterKeyword) false))
        (flt_Keywords filter) in
  let apiFilterStatuses :=
    map (fun filterStatus =>
           mkAPIFilterStatus (fs_ID filterStatus) (fs_StatusID filterStatus))
        (flt_Statuses filter) in
  Ok (mkFilterV2 (flt_ID filter) (flt_Title filter)
                 (filterToAPIFilterContexts filter)
                 (filterExpiresAtToAPIFilterExpiresAt t (flt_ExpiresAt filter))
                 (filterActionToAPIFilterAction (flt_Action filter))
                 apiFilterKeywords apiFilterStatuses).

(** The capacity [filterableTextFields] asks for. *)
Definition fieldCount (s : Status) : nat :=
  let fieldCount := 2 + length (s_Attachments s) in
  match s_Poll s with
  | Some poll => fieldCount + length (poll_Options poll)
  | None => fieldCount
  end.

(** [filterableTextFields]: content, content warning, media
    descriptions, poll options. *)
Definition filterableTextFields (t : TextTools) (s : Status) : list string :=
  let fields := [] in
  let fields :=
    if negb (String.eqb (s_Content s) "")
    then fields ++ [SanitizeToPlaintext t (s_Content s)] else fields in
  let fields :=
    if negb (String.eqb (s_ContentWarning s) "")
    then fields ++ [s_ContentWarning s] else fields in
  let fields :=
    fold_left (fun fields attachment =>
                 if negb (String.eqb (att_Description attachment) "")
                 then fields ++ [att_Description attachment] else fields)
              (s_Attachments s) fields in
  let fields :=
    match s_Poll s with
    | Some poll =>
        fold_left (fun fields option =>
                     if negb (String.eqb option "")
                     then fields ++ [option] else fields)
                  (poll_Options poll) fields
    | None => fields
    end in
  fields.

(** The regular expression compiled for a keyword. *)
Definition keyword_expr (t : TextTools) (filterKeyword : FilterKeyword)
  : string :=
  let wholeWord := PtrValueOr (fk_WholeWord filterKeyword) false in
  let wordBreak := if wholeWord then "\b" else "" in
  (("(?i)" +:+ wordBreak) +:+ QuoteMeta t (fk_Keyword filterKeyword))
    +:+ wordBreak.

(** The loop over [filter.Keywords]: lists all matching keywords. *)
Fixpoint keywordMatches (t : TextTools) (fields : list string)
    (keywords : list FilterKeyword) (found : list string)
  : result (list string) :=
  match keywords with
  | [] => Ok found
  | filterKeyword :: rest =>
      match Compile t (keyword_expr t filterKeyword) with
      | Err err => Err err
      | Ok re =>
          let isMatch := existsb (MatchString t re) fields in
          keywordMatches t fields rest
            (if isMatch then found ++ [fk_Keyword filterKeyword] else found)
      end
  end.

(** The loop over [filter.Statuses]: a status has only one ID. *)
Definition statusMatches (s : Status) (statuses : list FilterStatus)
  : list string :=
  match List.find (fun filterStatus =>
                     String.eqb (s_ID s) (fs_StatusID filterStatus)) statuses with
  | Some filterStatus => [fs_StatusID filterStatus]
  | None => []
  end.

(** [!filter.ExpiresAt.IsZero() && filter.ExpiresAt.Before(now)]. *)
Definition is_expired (now : Time) (filter : Filter) : bool :=
  negb (IsZero (flt_ExpiresAt filter)) && Before (flt_ExpiresAt filter) now.

(** The loop over [filters] of [statusToAPIFilterResults]. *)
Fixpoint filter_loop (t : TextTools) (now : Time) (s : Status)
    (filterContext : FilterContext) (filters : list Filter)
    (filterResults : list FilterResult) : Outcome (list FilterResult) :=
  match filters with
  | [] => Returns filterResults
  | filter :: rest =>
      if negb (filterAppliesInContext filter filterContext) then
        (* Filter doesn't apply to this context. *)
        filter_loop t now s filterContext rest filterResults
      else if is_expired now filter then
        (* Filter is expired. *)
        filter_loop t now s filterContext rest filterResults
      else
        match keywordMatches t (filterableTextFields t s)
                             (flt_Keywords filter) [] with
        | Err err => Fails err
        | Ok keywordMatches =>
            let statusMatches := statusMatches s (flt_Statuses filter) in
            if Nat.ltb 0 (length keywordMatches)
               || Nat.ltb 0 (length statusMatches) then
              match flt_Action filter with
              | FilterActionWarn =>
                  (* Record what matched. *)
                  match FilterToAPIFilterV2 t filter with
                  | Err err => Fails err
                  | Ok apiFilter =>
                      filter_loop t now s filterContext rest
                        (filterResults
                           ++ [mkFilterResult apiFilter keywordMatches
                                              statusMatches])
                  end
              | FilterActionHide =>
                  (* Don't show this status. Immediate return. *)
                  ErrHideStatus
              | _ => filter_loop t now s filterContext rest filterResults
              end
            else filter_loop t now s filterContext rest filterResults
        end
  end.

(** [statusToAPIFilterResults]; [now] is what [time.Now()] answers, and
    a result of [None] is Go's nil slice. *)
Definition statusToAPIFilterResults (t : TextTools) (now : Time) (s : Status)
    (requestingAccount : option Account) (filterContext : FilterContext)
    (filters : list Filter) : Outcome (option (list FilterResult)) :=
  match filterContext with
  | FilterContextNone => Returns None
  | _ =>
      if Nat.eqb (length filters) 0 then Returns None
      else
        match requestingAccount with
        | None => Panics
        | Some requestingAccount =>
            if String.eqb (s_AccountID s) (acct_ID requestingAccount) then
              Returns None
            else
              match filter_loop t now s filterContext filters [] with
              | Returns filterResults => Returns (Some filterResults)
              | Fails err => Fails err
              | ErrHideStatus => ErrHideStatus
              | Panics => Panics
              end
        end
  end.

(** *** NotificationToAPINotification *)

(** The fields of [gtsmodel.Notification] the read side uses; the three
    relations are pointers that may be nil. *)
Record Notification : Type := mkNotification {
  n_ID : string;
  n_NotificationType : NotificationType;
  n_CreatedAt : Time;
  n_TargetAccountID : string;
  n_TargetAccount : option Account;
  n_OriginAccountID : string;
  n_OriginAccount : option Account;
  n_StatusID : string;
  n_Status : option Status
}.

Record APIAccount : Type := mkAPIAccount {
  aa_ID : string
}.

(** [apimodel.Status]: a status of its own, or a boost wrapping the
    boosted status ([Reblog] not nil); [as_Reblog] is [Reblog.Status]. *)
Inductive APIStatus : Type :=
| APIStatusOwn (id : string)
| APIStatusBoost (id : string) (reblog : APIStatus).

Definition as_Reblog (a : APIStatus) : option APIStatus :=
  match a with
  | APIStatusOwn _ => None
  | APIStatusBoost _ reblog => Some reblog
  end.

Record APINotification : Type := mkAPINotification {
  an_ID : string;
  an_Type : string;
  an_CreatedAt : string;
  an_Account : APIAccount;
  an_Status : option APIStatus
}.

(** The calls [NotificationToAPINotification] makes on storage and on
    other converter methods. *)
Record Backend (St : Type) : Type := mkBackend {
  GetAccountByID : string -> R St (result Account);
  GetStatusByID : string -> R St (result Status);
  AccountToAPIAccountPublic : Account -> R St (result APIAccount);
  StatusToAPIStatus :
    Status -> option Account -> FilterContext -> list Filter
    -> R St (result APIStatus)
}.
Arguments GetAccountByID {St} _ _ _.
Arguments GetStatusByID {St} _ _ _.
Arguments AccountToAPIAccountPublic {St} _ _ _.
Arguments StatusToAPIStatus {St} _ _ _ _ _ _.

Local Open Scope read_scope.

(** [if n.Status.Account == nil { ... }]. *)
Definition with_known_account (status : Status)
    (targetAccount originAccount : Account) : Status :=
  match s_Account status with
  | Some _ => status
  | None =>
      let set account :=
        mkStatus (s_ID status) (s_AccountID status) (Some account)
                 (s_Content status) (s_ContentWarning status)
                 (s_Attachments status) (s_Poll status) in
      if String.eqb (s_AccountID status) (acct_ID targetAccount) then
        set targetAccount
      else if String.eqb (s_AccountID status) (acct_ID originAccount) then
        set originAccount
      else status
  end.

Definition NotificationToAPINotification {St : Type} (c : Backend St)
    (t : TextTools) (n : Notification) (filters : list Filter)
  : R St (result APINotification) :=
  (* The statements from [apiAccount, err := ...] on. *)
  let convert (targetAccount originAccount : Account)
    : R St (result APINotification) :=
    r <- AccountToAPIAccountPublic c originAccount ;;
    match r with
    | Err err =>
        unit_R (Err (ErrNew
          ("NotificationToapi: error converting account to api: "
             +:+ error_text err)))
    | Ok apiAccount =>
        let finish (apiStatus : option APIStatus) : result APINotification :=
          let apiStatus :=
            match apiStatus with
            | Some status =>
                match as_Reblog status with
                | Some reblog =>
                    (* use the actual reblog status for the notifications
                       endpoint *)
                    Some reblog
                | None => apiStatus
                end
            | None => apiStatus
            end in
          Ok (mkAPINotification (n_ID n) (n_NotificationType n)
                                (FormatISO8601 t (n_CreatedAt n))
                                apiAccount apiStatus) in
        if negb (String.eqb (n_StatusID n) "") then
          let convert_status (status : Status) : R St (result APINotification) :=
            let status := with_known_account status targetAccount originAccount in
            r <- StatusToAPIStatus c status (Some targetAccount)
                                   FilterContextNotifications filters ;;
            match r with
            | Err err =>
                unit_R (Err (ErrNew
                  ("NotificationToapi: error converting status to api: "
                     +:+ error_text err)))
            | Ok apiStatus => unit_R (finish (Some apiStatus))
            end in
          match n_Status n with
          | Some status => convert_status status
          | None =>
              r <- GetStatusByID c (n_StatusID n) ;;
              match r with
              | Err err =>
                  unit_R (Err (ErrNew
                    ((("NotificationToapi: error getting status with id "
                         +:+ n_StatusID n) +:+ " from the db: ")
                       +:+ error_text err)))
              | Ok status => convert_status status
              end
          end
        else unit_R (finish None)
    end in
  (* The statements from [if n.OriginAccount == nil] on. *)
  let with_target (targetAccount : Account) : R St (result APINotification) :=
    match n_OriginAccount n with
    | Some originAccount => convert targetAccount originAccount
    | None =>
        r <- GetAccountByID c (n_OriginAccountID n) ;;
        match r with
        | Err err =>
            unit_R (Err (ErrNew
              ((("NotificationToapi: error getting origin account with id "
                   +:+ n_OriginAccountID n) +:+ " from the db: ")
                 +:+ error_text err)))
        | Ok ogAccount => convert targetAccount ogAccount
        end
    end in
  match n_TargetAccount n with
  | Some targetAccount => with_target targetAccount
  | None =>
      r <- GetAccountByID c (n_TargetAccountID n) ;;
      match r with
      | Err err =>
          unit_R (Err (ErrNew
            ((("NotificationToapi: error getting target account with id "
                 +:+ n_TargetAccountID n) +:+ " from the db: ")
               +:+ error_text err)))
      | Ok tAccount => with_target tAccount
      end
  end.

End Typeutils.

(** ** The notifications read API (internal/processing/timeline/notification.go) *)

Module Timeline.

Import Typeutils.
Local Open Scope read_scope.

(** Modelled from the spec: the notification type of "brand-new local
    sign-up notifications", declared in [gtsmodel]. *)
Definition NotificationSignup : NotificationType := "admin.sign_up".

(** [gtserror.WithCode]. *)
Inductive WithCode : Type :=
| NewErrorInternalError (err : error)
| NewErrorNotFound (err : error).

(** [util.PageableResponseParams], as far as [NotificationsGet] fills
    it.  [Limit] is the caller's [limit], which the function only passes
    on. *)
Record PageableResponseParams : Type := mkParams {
  Items : list APINotification;
  Path : string;
  NextMaxIDValue : string;
  PrevMinIDValue : string;
  Limit : nat
}.

(** What [NotificationsGet] returns: an error, or the answer of one of
    the two [util] constructors it ends with. *)
Inductive Page : Type :=
| PageError (err : WithCode)
| EmptyPageableResponse
| PackagePageableResponse (params : PageableResponseParams).

(** The collaborators of the processor: storage, the visibility filter,
    the logger, and the converter's own collaborators. *)
Record Services (St : Type) : Type := mkServices {
  converter : Backend St;
  GetAccountNotifications :
    string -> string -> string -> string -> nat -> list string
    -> R St (list Notification * option error);
  GetFiltersForAccountID : string -> R St (result (list Filter));
  GetNotificationByID : string -> R St (result Notification);
  DeleteNotifications : list string -> string -> string -> R St (option error);
  AccountVisible : Account -> Account -> R St (result bool);
  StatusVisible : Account -> Status -> R St (result bool);
  log_Debugf : string -> R St unit
}.
Arguments converter {St} _.
Arguments GetAccountNotifications {St} _ _ _ _ _ _ _ _.
Arguments GetFiltersForAccountID {St} _ _ _.
Arguments GetNotificationByID {St} _ _ _.
Arguments DeleteNotifications {St} _ _ _ _ _.
Arguments AccountVisible {St} _ _ _ _.
Arguments StatusVisible {St} _ _ _ _.
Arguments log_Debugf {St} _ _ _.

(** [notifVisible]; Go's [(false, err)] is [Err err]. *)
Definition notifVisible {St : Type} (p : Services St) (n : Notification)
    (acct : Account) : R St (result bool) :=
  (* If status is set, ensure it's visible to notif target. *)
  let check_status : R St (result bool) :=
    match n_Status n with
    | Some status =>
        r <- StatusVisible p acct status ;;
        match r with
        | Err err => unit_R (Err err)
        | Ok visible => if negb visible then unit_R (Ok false)
                        else unit_R (Ok true)
        end
    | None => unit_R (Ok true)
    end in
  (* If account is set, ensure it's visible to notif target. *)
  match n_OriginAccount n with
  | Some originAccount =>
      (* If this is a new local account sign-up, skip normal visibility
         checking because origin account won't be confirmed yet. *)
      if String.eqb (n_NotificationType n) NotificationSignup then
        unit_R (Ok true)
      else
        r <- AccountVisible p acct originAccount ;;
        match r with
        | Err err => unit_R (Err err)
        | Ok visible => if negb visible then unit_R (Ok false)
                        else check_status
        end
  | None => check_status
  end.

(** The loop of [NotificationsGet] from index [i] on. *)
Fixpoint notifs_loop {St : Type} (p : Services St) (t : TextTools)
    (acct : Account) (filters : list Filter) (count i : nat)
    (notifs : list Notification)
    (items : list APINotification) (nextMaxIDValue prevMinIDValue : string)
  : R St (list APINotification * string * string) :=
  match notifs with
  | [] => unit_R (items, nextMaxIDValue, prevMinIDValue)
  | n :: rest =>
      (* Set next + prev values before filtering and API converting, so
         caller can still page properly. *)
      let nextMaxIDValue :=
        if Nat.eqb i (count - 1) then n_ID n else nextMaxIDValue in
      let prevMinIDValue :=
        if Nat.eqb i 0 then n_ID n else prevMinIDValue in
      r <- notifVisible p n acct ;;
      match r with
      | Err err =>
          log_Debugf p
            ((("skipping notification " +:+ n_ID n)
                +:+ " because of an error checking notification visibility: ")
               +:+ error_text err) ;;;
          notifs_loop p t acct filters count (S i) rest
                      items nextMaxIDValue prevMinIDValue
      | Ok visible =>
          if negb visible then
            notifs_loop p t acct filters count (S i) rest
                        items nextMaxIDValue prevMinIDValue
          else
            r <- NotificationToAPINotification (converter p) t n filters ;;
            match r with
            | Err err =>
                log_Debugf p
                  ((("skipping notification " +:+ n_ID n)
                      +:+ " because it couldn't be converted to its api representation: ")
                     +:+ error_text err) ;;;
                notifs_loop p t acct filters count (S i) rest
                            items nextMaxIDValue prevMinIDValue
            | Ok item =>
                notifs_loop p t acct filters count (S i) rest
                            (items ++ [item]) nextMaxIDValue prevMinIDValue
            end
      end
  end.

(** [NotificationsGet]; [account] is [authed.Account]. *)
Definition NotificationsGet {St : Type} (p : Services St) (t : TextTools)
    (account : Account) (maxID sinceID minID : string) (limit : nat)
    (excludeTypes : list string) : R St Page :=
  r <- GetAccountNotifications p (acct_ID account) maxID sinceID minID
                               limit excludeTypes ;;
  let (notifs, err) := r in
  match (match err with
         | Some err => if negb (is_no_entries err) then Some err else None
         | None => None
         end) with
  | Some err =>
      unit_R (PageError (NewErrorInternalError
        (ErrWrap "NotificationsGet: db error getting notifications" err)))
  | None =>
      let count := length notifs in
      if Nat.eqb count 0 then unit_R EmptyPageableResponse
      else
        r <- GetFiltersForAccountID p (acct_ID account) ;;
        match r with
        | Err err =>
            unit_R (PageError (NewErrorInternalError
              (ErrWrap ("couldn't retrieve filters for account "
                          +:+ acct_ID account) err)))
        | Ok filters =>
            r <- notifs_loop p t account filters count 0 notifs [] "" "" ;;
            let '(items, nextMaxIDValue, prevMinIDValue) := r in
            unit_R (PackagePageableResponse
                      (mkParams items "api/v1/notifications"
                                nextMaxIDValue prevMinIDValue limit))
        end
  end.

(** [NotificationGet]. *)
Definition NotificationGet {St : Type} (p : Services St) (t : TextTools)
    (account : Account) (targetNotifID : string)
  : R St (APINotification + WithCode) :=
  r <- GetNotificationByID p targetNotifID ;;
  match r with
  | Err err =>
      if is_no_entries err then unit_R (inr (NewErrorNotFound err))
      else
        (* Real error. *)
        unit_R (inr (NewErrorInternalError err))
  | Ok notif =>
      let notifTargetAccountID := n_TargetAccountID notif in
      if negb (String.eqb notifTargetAccountID (acct_ID account)) then
        unit_R (inr (NewErrorNotFound (ErrNew
          ((("account " +:+ acct_ID account)
              +:+ " does not have permission to view notification belong to account ")
             +:+ notifTargetAccountID))))
      else
        r <- GetFiltersForAccountID p (acct_ID account) ;;
        match r with
        | Err err =>
            unit_R (inr (NewErrorInternalError
              (ErrWrap ("couldn't retrieve filters for account "
                          +:+ acct_ID account) err)))
        | Ok filters =>
            r <- NotificationToAPINotification (converter p) t notif filters ;;
            match r with
            | Err err =>
                if is_no_entries err then unit_R (inr (NewErrorNotFound err))
                else
                  (* Real error. *)
                  unit_R (inr (NewErrorInternalError err))
            | Ok apiNotif => unit_R (inl apiNotif)
            end
        end
  end.

(** [NotificationsClear]: nil types, empty origin. *)
Definition NotificationsClear {St : Type} (p : Services St) (account : Account)
  : R St (option WithCode) :=
  (* Delete all notifications of all types that target the authorized
     account. *)
  r <- DeleteNotifications p [] (acct_ID account) "" ;;
  match r with
  | Some err =>
      if negb (is_no_entries err) then
        unit_R (Some (NewErrorInternalError err))
      else unit_R None
  | None => unit_R None
  end.

End Timeline.
Section Workers.

Variable env : Env.

(** A call that cannot fail (logging, streaming, queue purges). *)
Definition emit (e : Event) : M unit :=
  fun w => Some (tt, record_call e w).

(** A call that can fail: records it, asks the environment, and on
    success applies [effect] to the world. *)
Definition call (e : Event) (effect : World -> World) : M (option error) :=
  fun w => match fails env (history w) e with
           | Some why => Some (Some (ErrFault why), record_call e w)
           | None => Some (None, effect (record_call e w))
           end.

(** A call with no effect on the modelled state. *)
Definition call_ e := call e (fun w => w).

(** Modelled from the spec: a [Populate...] call of the storage
    collaborator ("ensure required relational fields of that model are
    populated from storage"): it fails, or finds no rows, or succeeds. *)
Definition Populate (e : Event) : M (option error) :=
  fun w => match fails env (history w) e with
           | Some why => Some (Some (ErrFault why), record_call e w)
           | None => if no_rows env (history w) e
                     then Some (Some ErrNoEntries, record_call e w)
                     else Some (None, record_call e w)
           end.

Definition log_Errorf (msg : string) (err : error) : M unit :=
  emit (LogError (msg +:+ ": " +:+ error_text err)).

(** *** Storage *)

(** Modelled from the spec: the storage collaborator ([db.DB], not part
    of the sources at hand) with its "create/read/update/delete" rows and
    its "distinguished no rows condition".  [GetNotification] selects on
    (type, target, origin, status). *)
Definition GetNotification (k : NotifKey) : M (result Notification) :=
  fun w =>
    let w' := record_call (DBGetNotification k) w in
    match fails env (history w) (DBGetNotification k) with
    | Some why => Some (Err (ErrFault why), w')
    | None =>
        match List.find (has_key k) (notifications w) with
        | Some n => Some (Ok n, w')
        | None => Some (Err ErrNoEntries, w')
        end
    end.

(** Modelled from the spec: [PutNotification] adds the row. *)
Definition PutNotification (n : Notification) : M (option error) :=
  call (DBPutNotification n)
       (fun w => set_notifications (n :: notifications w) w).

(** Modelled from the spec: [DeleteNotificationByID] removes the rows with
    that ID, and reports "no rows" when it finds none: because the table
    holds none, or because they were removed by somebody else after the
    caller had looked them up (the environment's [no_rows] answer:
    [notifyFollow] holds no lock between its lookup and its delete).  No
    row with that ID is left either way. *)
Definition DeleteNotificationByID (id : string) : M (option error) :=
  fun w =>
    let e := DBDeleteNotificationByID id in
    let left :=
      set_notifications
        (List.filter (fun n => negb (String.eqb id (notif_ID n)))
                     (notifications w)) (record_call e w) in
    match fails env (history w) e with
    | Some why => Some (Some (ErrFault why), record_call e w)
    | None =>
        if existsb (fun n => String.eqb id (notif_ID n)) (notifications w)
           && negb (no_rows env (history w) e)
        then Some (None, left)
        else Some (Some ErrNoEntries, left)
    end.

(** Modelled from the spec: [IsThreadMutedByAccount] tells whether the
    account has a mute stored for the thread. *)
Definition IsThreadMutedByAccount (thread account : string) : M (result bool) :=
  fun w =>
    let e := DBIsThreadMutedByAccount thread account in
    match fails env (history w) e with
    | Some why => Some (Err (ErrFault why), record_call e w)
    | None => Some (Ok (has_pair (thread, account) (thread_mutes w)),
                    record_call e w)
    end.

(** Modelled from the spec: [DeleteFollow] and [DeleteFollowRequest]
    remove the relation from [account] to [target]. *)
Definition DeleteFollow (account target : string) : M (option error) :=
  call (DBDeleteFollow account target)
       (fun w => set_follows (drop_pair (account, target) (follows w)) w).

Definition DeleteFollowRequest (account target : string) : M (option error) :=
  call (DBDeleteFollowRequest account target)
       (fun w => set_follow_requests
                   (drop_pair (account, target) (follow_requests w)) w).

(** Modelled from the spec: [UpdateMove(ctx, move, "succeeded_at")]
    writes that column of the row with the move's ID. *)
Definition UpdateMove (m : Move) : M (option error) :=
  call (DBUpdateMove (move_ID m) "succeeded_at")
       (fun w => set_moves
                   (map (fun r => if String.eqb (move_ID r) (move_ID m)
                                  then mkMove (move_ID r) (AttemptedAt r) (SucceededAt m)
                                  else r) (moves w)) w).

(** *** Timelines *)

(** Modelled from the spec: [Timelines.Home/List.WipeItemsFromAccountID]
    (timeline manager, not part of the sources at hand) removes from the
    timeline(s) of [timeline] the entries authored by [account]. *)
Definition WipeItems (t : TimelineKind) (timeline account : string)
  : M (option error) :=
  call (WipeItemsFromAccountID t timeline account)
       (fun w => match t with
                 | HomeTimelines =>
                     set_home_items (drop_pair (timeline, account) (home_items w)) w
                 | ListTimelines =>
                     set_list_items (drop_pair (timeline, account) (list_items w)) w
                 end).

(** *** Processing locks *)

Definition Unlock (uri : string) : M unit :=
  fun w => Some (tt, set_held_locks (release uri (held_locks w))
                                    (record_call (LockRelease uri) w)).

(** *** Surface.Notify, statement by statement *)

Record NotifyArgs : Type := mkArgs {
  arg_type : NotificationType;
  arg_target : Account;
  arg_origin : Account;
  arg_status : string
}.

(** [getNotifyLockURI]. *)
Definition getNotifyLockURI (notificationType : NotificationType)
    (targetAccount originAccount : Account) (statusID : string) : string :=
  let builder := "" in
  let builder := builder +:+ "notification:?" in
  let builder := builder +:+ ("type=" +:+ notificationType) in
  let builder := builder +:+ ("&target=" +:+ acct_URI targetAccount) in
  let builder := builder +:+ ("&origin=" +:+ acct_URI originAccount) in
  let builder := if negb (String.eqb statusID "")
                 then builder +:+ ("&statusID=" +:+ statusID)
                 else builder in
  builder.

Definition lock_of (a : NotifyArgs) : string :=
  getNotifyLockURI (arg_type a) (arg_target a) (arg_origin a) (arg_status a).

(** The parameters [Notify] hands to [GetNotification]. *)
Definition db_key (a : NotifyArgs) : NotifKey :=
  mkKey (arg_type a) (acct_ID (arg_target a)) (acct_ID (arg_origin a))
        (arg_status a).

(** Where a call of [Notify] stands.  Between two points lies exactly one
    collaborator call, so that concurrent calls can be interleaved at the
    grain at which Go can interleave them. *)
Inductive NotifyPC : Type :=
| AtEntry                        (* before [ProcessingLocks.Lock] *)
| HoldingLock                    (* lock taken, before [GetNotification] *)
| MustCreate                     (* lookup answered [ErrNoEntries] *)
| Persisted (n : Notification)   (* [PutNotification] succeeded *)
| Released (n : Notification)    (* explicit [unlock()] done *)
| HaveFilters (n : Notification) (* [GetFiltersForAccountID] succeeded *)
| Converted (n : Notification)   (* API notification built *)
| Returned (r : option error).

(** A [return] while the deferred [unlock] is still armed. *)
Definition return_unlocking (a : NotifyArgs) (r : option error) : M NotifyPC :=
  Unlock (lock_of a) ;;; ret (Returned r).

(** One statement of [Surface.Notify]. *)
Definition notify_step (a : NotifyArgs) (pc : NotifyPC) : M NotifyPC :=
  match pc with
  | AtEntry =>
      if IsRemote (arg_target a) then
        (* nothing to do. *)
        ret (Returned None)
      else
        fun w =>
          if is_held (lock_of a) (held_locks w) then None
          else Some (HoldingLock,
                     set_held_locks (lock_of a :: held_locks w)
                                    (record_call (LockAcquire (lock_of a)) w))
  | HoldingLock =>
      r <- GetNotification (db_key a) ;;
      match r with
      | Ok _ =>
          (* Notification exists; nothing to do. *)
          return_unlocking a None
      | Err err =>
          if negb (is_no_entries err) then
            (* Real error. *)
            return_unlocking a
              (Some (ErrWrap "error checking existence of notification" err))
          else ret MustCreate
      end
  | MustCreate =>
      fun w =>
        let notif := mkNotification (NewULID env (history w))
                       (arg_type a) (acct_ID (arg_target a))
                       (acct_ID (arg_origin a)) (arg_status a) in
        (r <- PutNotification notif ;;
         match r with
         | Some err =>
             return_unlocking a
               (Some (ErrWrap "error putting notification in database" err))
         | None => ret (Persisted notif)
         end) w
  | Persisted n =>
      (* Unlock already, we're done with the state-y stuff. *)
      Unlock (lock_of a) ;;; ret (Released n)
  | Released n =>
      r <- call_ (DBGetFiltersForAccountID (acct_ID (arg_target a))) ;;
      match r with
      | Some err =>
          ret (Returned (Some (ErrWrap
                 ("couldn't retrieve filters for account " +:+ acct_ID (arg_target a))
                 err)))
      | None => ret (HaveFilters n)
      end
  | HaveFilters n =>
      r <- call_ (ConvNotificationToAPI (notif_ID n)) ;;
      match r with
      | Some err =>
          ret (Returned (Some (ErrWrap
                 "error converting notification to api representation" err)))
      | None => ret (Converted n)
      end
  | Converted n =>
      emit (StreamNotify (acct_ID (arg_target a)) (notif_ID n)) ;;;
      ret (Returned None)
  | Returned r => ret (Returned r)
  end.

(** Runs a call from [pc] to its [return]. *)
Fixpoint notify_from (fuel : nat) (a : NotifyArgs) (pc : NotifyPC)
  : M (option error) :=
  match pc with
  | Returned r => ret r
  | _ =>
      match fuel with
      | O => blocked
      | S fuel' => pc' <- notify_step a pc ;; notify_from fuel' a pc'
      end
  end.

(** [Surface.Notify]: at most seven statements lie between entry and
    return. *)
Definition Notify (notificationType : NotificationType)
    (targetAccount originAccount : Account) (statusID : string)
  : M (option error) :=
  notify_from 7 (mkArgs notificationType targetAccount originAccount statusID)
              AtEntry.

(** *** Concurrent calls of Notify *)

(** A pool of workers, each inside (or before, or after) one call. *)
Definition Pool : Type := list (NotifyArgs * NotifyPC).

(** Worker [i] executes its next statement; a worker that waits for its
    lock, or an index outside the pool, leaves everything as it is. *)
Definition pool_step (σ : Pool * World) (i : nat) : Pool * World :=
  match fst σ !! i with
  | Some (a, pc) =>
      match notify_step a pc (snd σ) with
      | Some (pc', w') => (<[i := (a, pc')]> (fst σ), w')
      | None => σ
      end
  | None => σ
  end.

Definition run_pool (schedule : list nat) (σ : Pool * World) : Pool * World :=
  fold_left pool_step schedule σ.

Definition fresh_pool (calls : list NotifyArgs) : Pool :=
  map (fun a => (a, AtEntry)) calls.

(** *** Surface: event reactions (surfacenotify.go) *)

(** The body of the loop of [notifyMentions]; answers the error the
    iteration appends to [errs], if any. *)
Definition notifyMentions_body (status : Status) (mention : Mention)
  : M (option error) :=
  (* Beforehand, ensure the passed mention is fully populated. *)
  r <- Populate (DBPopulateMention (men_ID mention)) ;;
  match r with
  | Some err =>
      ret (Some (ErrWrap ("error populating mention " +:+ men_ID mention) err))
  | None =>
      if IsRemote (men_TargetAccount mention) then
        (* no need to notify remote accounts. *)
        ret None
      else
        (* Ensure thread not muted by mentioned account. *)
        r <- IsThreadMutedByAccount (st_ThreadID status)
                                    (men_TargetAccountID mention) ;;
        match r with
        | Err err =>
            ret (Some (ErrWrap
                   ("error checking status thread mute " +:+ st_ThreadID status) err))
        | Ok muted =>
            if muted then
              (* This mentioned account has muted the thread. *)
              ret None
            else
              r <- Notify NotificationMention
                          (men_TargetAccount mention)
                          (men_OriginAccount mention)
                          (men_StatusID mention) ;;
              match r with
              | Some err =>
                  ret (Some (ErrWrap
                         ("error notifying mention target "
                            +:+ men_TargetAccountID mention) err))
              | None => ret None
              end
        end
  end.

Fixpoint notifyMentions_loop (status : Status) (mentions : list Mention)
    (errs : list error) : M (list error) :=
  match mentions with
  | [] => ret errs
  | mention :: rest =>
      r <- notifyMentions_body status mention ;;
      notifyMentions_loop status rest
        (match r with Some e => errs ++ [e] | None => errs end)
  end.

Definition notifyMentions (status : Status) : M (option error) :=
  errs <- notifyMentions_loop status (st_Mentions status) [] ;;
  ret (Combine errs).

Definition notifyFollow (follow : Follow) : M (option error) :=
  (* The statements after the [if prevNotif != nil] block. *)
  let notify_the_follow : M (option error) :=
    r <- Notify NotificationFollow (fol_TargetAccount follow)
                (fol_Account follow) "" ;;
    match r with
    | Some err =>
        ret (Some (ErrWrap ("error notifying follow target "
                              +:+ fol_TargetAccountID follow) err))
    | None => ret None
    end in
  (* Beforehand, ensure the passed follow is fully populated. *)
  r <- Populate (DBPopulateFollow (fol_ID follow)) ;;
  match r with
  | Some err =>
      ret (Some (ErrWrap ("error populating follow " +:+ fol_ID follow) err))
  | None =>
      if IsRemote (fol_TargetAccount follow) then
        (* no need to notify remote accounts. *)
        ret None
      else
        (* Check if previous follow req notif exists. *)
        r <- GetNotification
               (mkKey NotificationFollowRequest
                      (fol_TargetAccountID follow) (fol_AccountID follow) "") ;;
        match r with
        | Err err =>
            if negb (is_no_entries err) then
              ret (Some (ErrWrap "error getting notification" err))
            else
              (* prevNotif == nil *)
              notify_the_follow
        | Ok prevNotif =>
            (* Previous follow request notif existed, delete it before
               creating new. *)
            d <- DeleteNotificationByID (notif_ID prevNotif) ;;
            match d with
            | Some err =>
                if negb (is_no_entries err) then
                  ret (Some (ErrWrap ("error deleting notification "
                                        +:+ notif_ID prevNotif) err))
                else notify_the_follow
            | None => notify_the_follow
            end
        end
  end.

Definition notifyFave (fave : StatusFave) : M (option error) :=
  if String.eqb (fave_TargetAccountID fave) (fave_AccountID fave) then
    (* Self-fave, nothing to do. *)
    ret None
  else
    r <- Populate (DBPopulateStatusFave (fave_ID fave)) ;;
    match r with
    | Some err =>
        ret (Some (ErrWrap ("error populating fave " +:+ fave_ID fave) err))
    | None =>
        if IsRemote (fave_TargetAccount fave) then
          ret None
        else
          (* Ensure favee hasn't muted the thread. *)
          r <- IsThreadMutedByAccount (st_ThreadID (fave_Status fave))
                                      (fave_TargetAccountID fave) ;;
          match r with
          | Err err =>
              ret (Some (ErrWrap ("error checking status thread mute "
                                    +:+ fave_StatusID fave) err))
          | Ok muted =>
              if muted then
                (* Favee doesn't want notifs for this thread. *)
                ret None
              else
                r <- Notify NotificationFave (fave_TargetAccount fave)
                            (fave_Account fave) (fave_StatusID fave) ;;
                match r with
                | Some err =>
                    ret (Some (ErrWrap ("error notifying status author "
                                          +:+ fave_TargetAccountID fave) err))
                | None => ret None
                end
          end
    end.

Definition notifyAnnounce (status : Status) : M (option error) :=
  if String.eqb (st_BoostOfID status) "" then
    (* Not a boost, nothing to do. *)
    ret None
  else if String.eqb (st_BoostOfAccountID status) (st_AccountID status) then
    (* Self-boost, nothing to do. *)
    ret None
  else
    r <- Populate (DBPopulateStatus (st_ID status)) ;;
    match r with
    | Some err =>
        ret (Some (ErrWrap ("error populating status " +:+ st_ID status) err))
    | None =>
        if IsRemote (st_BoostOfAccount status) then
          ret None
        else
          (* Ensure boostee hasn't muted the thread. *)
          r <- IsThreadMutedByAccount (st_BoostOfThreadID status)
                                      (st_BoostOfAccountID status) ;;
          match r with
          | Err err =>
              ret (Some (ErrWrap ("error checking status thread mute "
                                    +:+ st_BoostOfID status) err))
          | Ok muted =>
              if muted then
                (* Boostee doesn't want notifs for this thread. *)
                ret None
              else
                r <- Notify NotificationReblog (st_BoostOfAccount status)
                            (st_Account status) (st_ID status) ;;
                match r with
                | Some err =>
                    ret (Some (ErrWrap ("error notifying status author "
                                          +:+ st_BoostOfAccountID status) err))
                | None => ret None
                end
          end
    end.

(** *** Handlers *)

(** [if err := m; err != nil { log.Errorf(ctx, msg, err) }]. *)
Definition logging (msg : string) (m : M (option error)) : M unit :=
  r <- m ;;
  match r with
  | Some err => log_Errorf msg err
  | None => ret tt
  end.

(** [err != nil && !errors.Is(err, db.ErrNoEntries)]. *)
Definition real_error (r : option error) : option error :=
  match r with
  | Some err => if negb (is_no_entries err) then Some err else None
  | None => None
  end.

(** **** Client-origin (fromclientapi.go) *)

Definition clientAPI_CreateBlock (cMsg : FromClientAPI) : M (option error) :=
  match c_GTSModel cMsg with
  | ModelBlock block =>
      (* Remove blockee's statuses from blocker's timeline. *)
      r <- WipeItems HomeTimelines (blk_AccountID block)
                     (blk_TargetAccountID block) ;;
      match r with
      | Some err =>
          ret (Some (ErrWrap "error wiping timeline items for block" err))
      | None =>
          (* Remove blocker's statuses from blockee's timeline. *)
          r <- WipeItems HomeTimelines (blk_TargetAccountID block)
                         (blk_AccountID block) ;;
          match r with
          | Some err =>
              ret (Some (ErrWrap "error wiping timeline items for block" err))
          | None =>
              logging "error federating block" (call_ (FedBlock (blk_ID block))) ;;;
              ret None
          end
      end
  | _ => ret (Some (ErrNew "not parseable as *gtsmodel.Block"))
  end.

Definition clientAPI_DeleteStatus (cMsg : FromClientAPI) : M (option error) :=
  (* Don't delete attachments, just unattach them. *)
  let deleteAttachments := false in
  match c_GTSModel cMsg with
  | ModelStatus status =>
      (* Try to Populate status structs if possible. *)
      r <- Populate (DBPopulateStatus (st_ID status)) ;;
      match real_error r with
      | Some err => ret (Some (ErrWrap "db error populating status" err))
      | None =>
          (* Drop any outgoing queued AP requests about / targeting
             this status. *)
          emit (QueueDelete DeliveryQueue "ObjectID" (st_URI status)) ;;;
          emit (QueueDelete DeliveryQueue "TargetID" (st_URI status)) ;;;
          (* Drop any incoming queued client messages about / targeting
             status. *)
          emit (QueueDelete ClientQueue "TargetURI" (st_URI status)) ;;;
          (* Drop any incoming queued federator messages targeting status. *)
          emit (QueueDelete FederatorQueue "TargetURI" (st_URI status)) ;;;
          (* First perform the actual status deletion. *)
          logging "error wiping status"
                  (call_ (UtilWipeStatus (st_ID status) deleteAttachments)) ;;;
          (* Update stats for the origin account. *)
          logging "error updating account stats"
                  (call_ (UtilDecrementStatusesCount (acct_ID (c_Origin cMsg)))) ;;;
          (if negb (String.eqb (st_InReplyToID status) "") then
             emit (SurfaceInvalidateStatus (st_InReplyToID status))
           else ret tt) ;;;
          logging "error federating status delete"
                  (call_ (FedDeleteStatus (st_ID status))) ;;;
          ret None
      end
  | _ => ret (Some (ErrNew "not parseable as *gtsmodel.Status"))
  end.

(** [MoveAccount] writes [SucceededAt] through the pointer
    [cMsg.Origin.Move]; the model answers the move as it stands in memory
    when the handler returns, next to the handler's error. *)
Definition clientAPI_MoveAccount_mem (cMsg : FromClientAPI)
  : M (Move * option error) :=
  (* Redirect each local follower of OriginAccount to follow move target. *)
  emit (UtilRedirectFollowers (acct_ID (c_Origin cMsg))
                              (acct_ID (c_Target cMsg))) ;;;
  match acct_Move (c_Origin cMsg) with
  | None => panic
  | Some move =>
      (* At this point, we know OriginAccount has the Move set on it.
         Just make sure it's populated. *)
      r <- Populate (DBPopulateMove (move_ID move)) ;;
      match r with
      | Some err => ret (move, Some (ErrWrap "error populating Move" err))
      | None =>
          (* Now send the Move message out to OriginAccount's (remote)
             followers. *)
          r <- call_ (FedMoveAccount (acct_ID (c_Origin cMsg))) ;;
          match r with
          | Some err =>
              ret (move, Some (ErrWrap "error federating account move" err))
          | None =>
              (* Mark the move attempt as successful. *)
              let move := mkMove (move_ID move) (AttemptedAt move)
                                 (AttemptedAt move) in
              r <- UpdateMove move ;;
              match r with
              | Some err =>
                  ret (move, Some (ErrWrap "error marking move as successful" err))
              | None => ret (move, None)
              end
          end
      end
  end.

Definition clientAPI_MoveAccount (cMsg : FromClientAPI) : M (option error) :=
  r <- clientAPI_MoveAccount_mem cMsg ;; ret (snd r).

(** **** Federation-origin (fromfediapi.go) *)

Definition fediAPI_CreatePollVote (fMsg : FromFediAPI) : M (option error) :=
  (* Cast poll vote type from the worker message. *)
  match f_GTSModel fMsg with
  | ModelPollVote vote =>
      (* Insert the new poll vote in the database. *)
      r <- call_ (DBPutPollVote (vote_ID vote)) ;;
      match r with
      | Some err => ret (Some (ErrWrap "error inserting poll vote in db" err))
      | None =>
          (* Ensure the poll vote is fully populated at this point. *)
          r <- Populate (DBPopulatePollVote (vote_ID vote)) ;;
          match r with
          | Some err =>
              ret (Some (ErrWrap "error populating poll vote from db" err))
          | None =>
              (* Ensure the poll on the vote is fully populated to get
                 origin status. *)
              r <- Populate (DBPopulatePoll (vote_PollID vote)) ;;
              match r with
              | Some err =>
                  ret (Some (ErrWrap "error populating poll from db" err))
              | None =>
                  let status := vote_PollStatus vote in
                  (* Interaction counts changed on the source status,
                     uncache from timelines. *)
                  emit (SurfaceInvalidateStatus (vote_PollStatusID vote)) ;;;
                  (if st_Local status then
                     (* (the vote counts of the in-memory copy are
                        incremented here) *)
                     logging "error federating status update"
                             (call_ (FedUpdateStatus (st_ID status)))
                   else ret tt) ;;;
                  ret None
              end
          end
      end
  | _ => ret (Some (ErrNew "cannot cast -> *gtsmodel.PollVote"))
  end.


Definition fediAPI_DeleteStatus (fMsg : FromFediAPI) : M (option error) :=
  (* Delete attachments from this status, since this request comes from
     the federating API. *)
  let deleteAttachments := true in
  match f_GTSModel fMsg with
  | ModelStatus status =>
      (* Try to Populate status structs if possible. *)
      r <- Populate (DBPopulateStatus (st_ID status)) ;;
      match real_error r with
      | Some err => ret (Some (ErrWrap "db error populating status" err))
      | None =>
          (* Drop any outgoing queued AP requests about / targeting
             this status. *)
          emit (QueueDelete DeliveryQueue "ObjectID" (st_URI status)) ;;;
          emit (QueueDelete DeliveryQueue "TargetID" (st_URI status)) ;;;
          (* Drop any incoming queued client messages about / targeting
             status. *)
          emit (QueueDelete ClientQueue "TargetURI" (st_URI status)) ;;;
          (* Drop any incoming queued federator messages targeting status. *)
          emit (QueueDelete FederatorQueue "TargetURI" (st_URI status)) ;;;
          (* First perform the actual status deletion. *)
          logging "error wiping status"
                  (call_ (UtilWipeStatus (st_ID status) deleteAttachments)) ;;;
          (* Update stats for the remote account. *)
          logging "error updating account stats"
                  (call_ (UtilDecrementStatusesCount
                            (acct_ID (f_Requesting fMsg)))) ;;;
          (if negb (String.eqb (st_InReplyToID status) "") then
             emit (SurfaceInvalidateStatus (st_InReplyToID status))
           else ret tt) ;;;
          ret None
      end
  | _ => ret (Some (ErrNew "not parseable as *gtsmodel.Status"))
  end.

(** *** Dispatch *)

(** Modelled from the spec: the ActivityStreams names of the [ap] package
    (not part of the sources at hand), the "(Verb, ObjectType)" pairs an
    envelope carries. *)
Definition ActivityCreate := "Create".
Definition ActivityUpdate := "Update".
Definition ActivityAccept := "Accept".
Definition ActivityReject := "Reject".
Definition ActivityUndo := "Undo".
Definition ActivityDelete := "Delete".
Definition ActivityFlag := "Flag".
Definition ActivityMove := "Move".
Definition ActivityFollow := "Follow".
Definition ActivityLike := "Like".
Definition ActivityAnnounce := "Announce".
Definition ActivityBlock := "Block".
Definition ActivityQuestion := "Question".
Definition ObjectNote := "Note".
Definition ObjectProfile := "Profile".
Definition ActorPerson := "Person".

(** The methods of [p.clientAPI]. *)
Record ClientHandlers : Type := mkClientHandlers {
  cCreateAccount : FromClientAPI -> M (option error);
  cCreateStatus : FromClientAPI -> M (option error);
  cCreatePollVote : FromClientAPI -> M (option error);
  cCreateFollowReq : FromClientAPI -> M (option error);
  cCreateLike : FromClientAPI -> M (option error);
  cCreateAnnounce : FromClientAPI -> M (option error);
  cCreateBlock : FromClientAPI -> M (option error);
  cUpdateStatus : FromClientAPI -> M (option error);
  cUpdateAccount : FromClientAPI -> M (option error);
  cUpdateReport : FromClientAPI -> M (option error);
  cAcceptFollow : FromClientAPI -> M (option error);
  cAcceptAccount : FromClientAPI -> M (option error);
  cRejectFollowRequest : FromClientAPI -> M (option error);
  cRejectAccount : FromClientAPI -> M (option error);
  cUndoFollow : FromClientAPI -> M (option error);
  cUndoBlock : FromClientAPI -> M (option error);
  cUndoFave : FromClientAPI -> M (option error);
  cUndoAnnounce : FromClientAPI -> M (option error);
  cDeleteStatus : FromClientAPI -> M (option error);
  cDeleteAccount : FromClientAPI -> M (option error);
  cReportAccount : FromClientAPI -> M (option error);
  cMoveAccount : FromClientAPI -> M (option error)
}.

(** The methods of [p.fediAPI]. *)
Record FediHandlers : Type := mkFediHandlers {
  fCreateStatus : FromFediAPI -> M (option error);
  fCreateFollowReq : FromFediAPI -> M (option error);
  fCreateLike : FromFediAPI -> M (option error);
  fCreateAnnounce : FromFediAPI -> M (option error);
  fCreateBlock : FromFediAPI -> M (option error);
  fCreateFlag : FromFediAPI -> M (option error);
  fCreatePollVote : FromFediAPI -> M (option error);
  fUpdateStatus : FromFediAPI -> M (option error);
  fUpdateAccount : FromFediAPI -> M (option error);
  fAcceptFollow : FromFediAPI -> M (option error);
  fDeleteStatus : FromFediAPI -> M (option error);
  fDeleteAccount : FromFediAPI -> M (option error);
  fMoveAccount : FromFediAPI -> M (option error)
}.

(** [gtserror.Newf("unhandled: %s %s", activityType, objectType)]. *)
Definition unhandled (activityType objectType : string) : error :=
  ErrNew ("unhandled: " +:+ activityType +:+ " " +:+ objectType).

Definition ProcessFromClientAPI (p : ClientHandlers) (cMsg : FromClientAPI)
  : M (option error) :=
  let a := c_APActivityType cMsg in
  let o := c_APObjectType cMsg in
  let fall_through := ret (Some (unhandled a o)) in
  emit (LogInfo "processing from client API") ;;;
  if String.eqb a ActivityCreate then
    (* CREATE SOMETHING *)
    if String.eqb o ObjectProfile || String.eqb o ActorPerson then
      cCreateAccount p cMsg
    else if String.eqb o ObjectNote then cCreateStatus p cMsg
    else if String.eqb o ActivityQuestion then cCreatePollVote p cMsg
    else if String.eqb o ActivityFollow then cCreateFollowReq p cMsg
    else if String.eqb o ActivityLike then cCreateLike p cMsg
    else if String.eqb o ActivityAnnounce then cCreateAnnounce p cMsg
    else if String.eqb o ActivityBlock then cCreateBlock p cMsg
    else fall_through
  else if String.eqb a ActivityUpdate then
    (* UPDATE SOMETHING *)
    if String.eqb o ObjectNote then cUpdateStatus p cMsg
    else if String.eqb o ObjectProfile || String.eqb o ActorPerson then
      cUpdateAccount p cMsg
    else if String.eqb o ActivityFlag then cUpdateReport p cMsg
    else fall_through
  else if String.eqb a ActivityAccept then
    (* ACCEPT SOMETHING *)
    if String.eqb o ActivityFollow then cAcceptFollow p cMsg
    else if String.eqb o ObjectProfile || String.eqb o ActorPerson then
      cAcceptAccount p cMsg
    else fall_through
  else if String.eqb a ActivityReject then
    (* REJECT SOMETHING *)
    if String.eqb o ActivityFollow then cRejectFollowRequest p cMsg
    else if String.eqb o ObjectProfile || String.eqb o ActorPerson then
      cRejectAccount p cMsg
    else fall_through
  else if String.eqb a ActivityUndo then
    (* UNDO SOMETHING *)
    if String.eqb o ActivityFollow then cUndoFollow p cMsg
    else if String.eqb o ActivityBlock then cUndoBlock p cMsg
    else if String.eqb o ActivityLike then cUndoFave p cMsg
    else if String.eqb o ActivityAnnounce then cUndoAnnounce p cMsg
    else fall_through
  else if String.eqb a ActivityDelete then
    (* DELETE SOMETHING *)
    if String.eqb o ObjectNote then cDeleteStatus p cMsg
    else if String.eqb o ObjectProfile || String.eqb o ActorPerson then
      cDeleteAccount p cMsg
    else fall_through
  else if String.eqb a ActivityFlag then
    (* FLAG/REPORT SOMETHING *)
    if String.eqb o ObjectProfile then cReportAccount p cMsg
    else fall_through
  else if String.eqb a ActivityMove then
    (* MOVE SOMETHING *)
    if String.eqb o ObjectProfile || String.eqb o ActorPerson then
      cMoveAccount p cMsg
    else fall_through
  else fall_through.

Definition ProcessFromFediAPI (p : FediHandlers) (fMsg : FromFediAPI)
  : M (option error) :=
  let a := f_APActivityType fMsg in
  let o := f_APObjectType fMsg in
  let fall_through := ret (Some (unhandled a o)) in
  emit (LogInfo "processing from fedi API") ;;;
  if String.eqb a ActivityCreate then
    (* CREATE SOMETHING *)
    if String.eqb o ObjectNote then fCreateStatus p fMsg
    else if String.eqb o ActivityFollow then fCreateFollowReq p fMsg
    else if String.eqb o ActivityLike then fCreateLike p fMsg
    else if String.eqb o ActivityAnnounce then fCreateAnnounce p fMsg
    else if String.eqb o ActivityBlock then fCreateBlock p fMsg
    else if String.eqb o ActivityFlag then fCreateFlag p fMsg
    else if String.eqb o ActivityQuestion then fCreatePollVote p fMsg
    else fall_through
  else if String.eqb a ActivityUpdate then
    (* UPDATE SOMETHING *)
    if String.eqb o ObjectNote then fUpdateStatus p fMsg
    else if String.eqb o ObjectProfile then fUpdateAccount p fMsg
    else fall_through
  else if String.eqb a ActivityAccept then
    (* ACCEPT SOMETHING *)
    if String.eqb o ActivityFollow then fAcceptFollow p fMsg
    else fall_through
  else if String.eqb a ActivityDelete then
    (* DELETE SOMETHING *)
    if String.eqb o ObjectNote then fDeleteStatus p fMsg
    else if String.eqb o ObjectProfile then fDeleteAccount p fMsg
    else fall_through
  else if String.eqb a ActivityMove then
    (* MOVE SOMETHING *)
    if String.eqb o ObjectProfile then fMoveAccount p fMsg
    else fall_through
  else fall_through.

(** The (activity type, object type) pairs for which the client-origin
    switch has a case. *)
Definition client_registered : list (string * string) :=
  [ (ActivityCreate, ObjectProfile); (ActivityCreate, ActorPerson);
    (ActivityCreate, ObjectNote); (ActivityCreate, ActivityQuestion);
    (ActivityCreate, ActivityFollow); (ActivityCreate, ActivityLike);
    (ActivityCreate, ActivityAnnounce); (ActivityCreate, ActivityBlock);
    (ActivityUpdate, ObjectNote); (ActivityUpdate, ObjectProfile);
    (ActivityUpdate, ActorPerson); (ActivityUpdate, ActivityFlag);
    (ActivityAccept, ActivityFollow); (ActivityAccept, ObjectProfile);
    (ActivityAccept, ActorPerson);
    (ActivityReject, ActivityFollow); (ActivityReject, ObjectProfile);
    (ActivityReject, ActorPerson);
    (ActivityUndo, ActivityFollow); (ActivityUndo, ActivityBlock);
    (ActivityUndo, ActivityLike); (ActivityUndo, ActivityAnnounce);
    (ActivityDelete, ObjectNote); (ActivityDelete, ObjectProfile);
    (ActivityDelete, ActorPerson);
    (ActivityFlag, ObjectProfile);
    (ActivityMove, ObjectProfile); (ActivityMove, ActorPerson) ].

(** The pairs for which the federation-origin switch has a case. *)
Definition fedi_registered : list (string * string) :=
  [ (ActivityCreate, ObjectNote); (ActivityCreate, ActivityFollow);
    (ActivityCreate, ActivityLike); (ActivityCreate, ActivityAnnounce);
    (ActivityCreate, ActivityBlock); (ActivityCreate, ActivityFlag);
    (ActivityCreate, ActivityQuestion);
    (ActivityUpdate, ObjectNote); (ActivityUpdate, ObjectProfile);
    (ActivityAccept, ActivityFollow);
    (ActivityDelete, ObjectNote); (ActivityDelete, ObjectProfile);
    (ActivityMove, ObjectProfile) ].

(** [a] was called before [b]: in a history (newest first), every
    occurrence of [b] has an [a] further down. *)
Definition called_before (a b : Event) (h : list Event) : Prop :=
  forall newer older, h = newer ++ b :: older -> In a older.

(** Whether a string occurs inside another. *)
Fixpoint occurs_in (needle hay : string) : bool :=
  String.prefix needle hay
  || match hay with
     | EmptyString => false
     | String _ rest => occurs_in needle rest
     end.

(** An inbound envelope, from either queue. *)
Inductive Envelope : Type :=
| ClientOrigin (cMsg : FromClientAPI)
| FediOrigin (fMsg : FromFediAPI).

Definition activity_type (e : Envelope) : string :=
  match e with
  | ClientOrigin m => c_APActivityType m
  | FediOrigin m => f_APActivityType m
  end.

Definition object_type (e : Envelope) : string :=
  match e with
  | ClientOrigin m => c_APObjectType m
  | FediOrigin m => f_APObjectType m
  end.

(** Whether the relevant switch has a case for the envelope's pair. *)
Definition registered (e : Envelope) : bool :=
  match e with
  | ClientOrigin m =>
      has_pair (c_APActivityType m, c_APObjectType m) client_registered
  | FediOrigin m =>
      has_pair (f_APActivityType m, f_APObjectType m) fedi_registered
  end.

(** The two entry points of the dispatcher. *)
Definition Process (pc : ClientHandlers) (pf : FediHandlers) (e : Envelope)
  : M (option error) :=
  match e with
  | ClientOrigin m => ProcessFromClientAPI pc m
  | FediOrigin m => ProcessFromFediAPI pf m
  end.

Definition entry_log (e : Envelope) : Event :=
  match e with
  | ClientOrigin _ => LogInfo "processing from client API"
  | FediOrigin _ => LogInfo "processing from fedi API"
  end.

(** *** Properties of runs *)

(** The queue purges of a Delete Status handler, all keyed on the
    status's URI. *)
Definition status_purges (status : Status) : list Event :=
  [ QueueDelete DeliveryQueue "ObjectID" (st_URI status);
    QueueDelete DeliveryQueue "TargetID" (st_URI status);
    QueueDelete ClientQueue "TargetURI" (st_URI status);
    QueueDelete FederatorQueue "TargetURI" (st_URI status) ].

(** Every [wipeStatus] among the calls a run [added] is for the status of
    the message, and each purge was called before it. *)
Definition purges_precede_wipe (model : GTSModel) (added : list Event) : Prop :=
  forall id da,
    In (UtilWipeStatus id da) added ->
    exists status,
      model = ModelStatus status /\ id = st_ID status
      /\ Forall (fun q => called_before q (UtilWipeStatus id da) added)
                (status_purges status).

(** A handler aborts when its primary effect fails: whenever the call
    [primary msg] was made and the environment failed it, nothing was
    called afterwards and the handler returned an error whose cause is
    that failure. *)
Definition aborts_when_primary_fails {Msg : Type}
    (handler : Msg -> M (option error)) (primary : Msg -> option Event) : Prop :=
  forall msg w r w' e newer before why,
    handler msg w = Some (r, w') ->
    primary msg = Some e ->
    history w' = newer ++ e :: before ->
    (exists older, before = older ++ history w) ->
    fails env before e = Some why ->
    newer = [] /\ exists err, r = Some err /\ root_cause err = ErrFault why.

Definition wipe_of_client (cMsg : FromClientAPI) : option Event :=
  match c_GTSModel cMsg with
  | ModelStatus status => Some (UtilWipeStatus (st_ID status) false)
  | _ => None
  end.

Definition wipe_of_fedi (fMsg : FromFediAPI) : option Event :=
  match f_GTSModel fMsg with
  | ModelStatus status => Some (UtilWipeStatus (st_ID status) true)
  | _ => None
  end.

Definition put_vote_of (fMsg : FromFediAPI) : option Event :=
  match f_GTSModel fMsg with
  | ModelPollVote vote => Some (DBPutPollVote (vote_ID vote))
  | _ => None
  end.



(** The eight clean-up calls of a block: timelines, then relations. *)
Definition block_cleanup (block : Block) : list Event :=
  let a := blk_AccountID block in
  let t := blk_TargetAccountID block in
  [ WipeItemsFromAccountID HomeTimelines a t;
    WipeItemsFromAccountID HomeTimelines t a;
    WipeItemsFromAccountID ListTimelines a t;
    WipeItemsFromAccountID ListTimelines t a;
    DBDeleteFollow a t;
    DBDeleteFollow t a;
    DBDeleteFollowRequest a t;
    DBDeleteFollowRequest t a ].

Definition is_relation_removal (e : Event) : bool :=
  match e with
  | DBDeleteFollow _ _ | DBDeleteFollowRequest _ _ => true
  | _ => false
  end.

(** Nothing links the two accounts any more, in either direction. *)
Definition unlinked (a t : string) (l : list (string * string)) : Prop :=
  has_pair (a, t) l = false /\ has_pair (t, a) l = false.

(** The environment never fails a call and always finds the rows. *)
Definition never_fails : Prop :=
  (forall h e, fails env h e = None) /\ (forall h e, no_rows env h e = false).

(** The calls of the push path of Notify that can fail. *)
Definition is_push_call (e : Event) : bool :=
  match e with
  | DBGetFiltersForAccountID _ | ConvNotificationToAPI _ => true
  | _ => false
  end.

(** Storage works: outside the push path no call fails, and the rows a
    [Populate...] call looks for are there. *)
Definition storage_works : Prop :=
  (forall h e, is_push_call e = false -> fails env h e = None)
  /\ (forall h e, no_rows env h e = false).

(** The push path works. *)
Definition push_works : Prop :=
  forall h e, is_push_call e = true -> fails env h e = None.

(** A run that creates no notification: it neither takes a notification
    lock nor stores a notification. *)
Definition is_notify_call (e : Event) : bool :=
  match e with
  | LockAcquire _ | DBPutNotification _ => true
  | _ => false
  end.

Definition quiet (added : list Event) : Prop :=
  forallb (fun e => negb (is_notify_call e)) added = true.

(** The notifications addressed to one account. *)
Definition notifications_for (account : string) (ns : list Notification)
  : list Notification :=
  List.filter (fun n => String.eqb account (notif_TargetAccountID n)) ns.

(** A mention whose loaded target account is the one its ID names. *)
Definition mention_populated (m : Mention) : Prop :=
  acct_ID (men_TargetAccount m) = men_TargetAccountID m.

(** A follow whose loaded accounts are the ones its IDs name. *)
Definition follow_populated (f : Follow) : Prop :=
  acct_ID (fol_TargetAccount f) = fol_TargetAccountID f
  /\ acct_ID (fol_Account f) = fol_AccountID f.

(** Calls with the same storage key take the same lock. *)
Definition same_key_same_lock (calls : list NotifyArgs) : Prop :=
  forall a b, In a calls -> In b calls ->
              db_key a = db_key b -> lock_of a = lock_of b.

(** *** Sample data *)

Definition alice : Account :=
  mkAccount "01ALICE" "https://example.org/users/alice" "alice" true None.
Definition bob : Account :=
  mkAccount "01BOB" "https://example.org/users/bob" "bob" true None.

Definition empty_world : World := mkWorld [] [] [] [] [] [] [] [] [].

Definition sample_status : Status :=
  mkStatus "01STATUS" "https://example.org/statuses/01STATUS"
           "01ALICE" alice "01THREAD" "" "" "" alice "" true [].

(** An environment that fails exactly the calls [bad] accepts. *)
Definition failing (bad : Event -> bool) : Env :=
  mkEnv (fun _ e => if bad e then Some "boom" else None)
        (fun _ _ => false) (fun _ => "01NOTIF").

(** An environment in which nothing fails, and the rows the calls [gone]
    look for are not there. *)
Definition losing (gone : Event -> bool) : Env :=
  mkEnv (fun _ _ => None) (fun _ e => gone e) (fun _ => "01NOTIF").

Definition is_get_notification (e : Event) : bool :=
  match e with DBGetNotification _ => true | _ => false end.
Definition is_delete_notification (e : Event) : bool :=
  match e with DBDeleteNotificationByID _ => true | _ => false end.
Definition is_wipe (e : Event) : bool :=
  match e with UtilWipeStatus _ _ => true | _ => false end.
Definition is_get_filters (e : Event) : bool :=
  match e with DBGetFiltersForAccountID _ => true | _ => false end.
Definition is_fed_move (e : Event) : bool :=
  match e with FedMoveAccount _ => true | _ => false end.

(** A handler logs the failure of a call and carries on: whenever the
    call [step msg] was made and the environment failed it, the failure
    was logged under [logline], the call [next msg] was made afterwards,
    and the handler returned success. *)
Definition logs_and_continues {Msg : Type}
    (handler : Msg -> M (option error)) (step : Msg -> option Event)
    (logline : string) (next : Msg -> Event) : Prop :=
  forall msg w r w' e newer before why,
    handler msg w = Some (r, w') ->
    step msg = Some e ->
    history w' = newer ++ e :: before ->
    (exists older, before = older ++ history w) ->
    fails env before e = Some why ->
    r = None
    /\ In (LogError (logline +:+ ": " +:+ why)) newer
    /\ In (next msg) newer.

Definition is_put_vote (e : Event) : bool :=
  match e with DBPutPollVote _ => true | _ => false end.

Definition sample_vote : PollVote :=
  mkPollVote "01VOTE" "01POLL" "01STATUS" sample_status.

Definition delete_status_from_client : FromClientAPI :=
  mkClientMsg ActivityDelete ObjectNote (ModelStatus sample_status) alice alice.

Definition poll_vote_from_fedi : FromFediAPI :=
  mkFediMsg ActivityCreate ActivityQuestion (ModelPollVote sample_vote) bob alice.

Definition sample_block : Block := mkBlock "01BLOCK" "01ALICE" "01BOB".

Definition block_from_client : FromClientAPI :=
  mkClientMsg ActivityCreate ActivityBlock (ModelBlock sample_block) alice bob.


(** Alice and Bob follow each other and see each other's posts, in home
    and in list timelines; Bob has also asked to follow Alice. *)
Definition befriended_world : World :=
  mkWorld [] [] []
          [("01ALICE", "01BOB"); ("01BOB", "01ALICE")]
          [("01ALICE", "01BOB"); ("01BOB", "01ALICE")]
          [("01ALICE", "01BOB"); ("01BOB", "01ALICE")]
          [("01BOB", "01ALICE")]
          [] [].

Definition sample_move : Move := mkMove "01MOVE" 42 0.

Definition moving_alice : Account :=
  mkAccount "01ALICE" "https://example.org/users/alice" "alice" true
            (Some sample_move).

Definition move_from_client : FromClientAPI :=
  mkClientMsg ActivityMove ObjectProfile ModelNone moving_alice bob.

Definition moving_world : World :=
  mkWorld [] [] [sample_move] [] [] [] [] [] [].

(** *** Concurrent calls: what a statement of Notify does to the pool *)

(** The points at which a call holds its lock. *)
Definition holds_lock (pc : NotifyPC) : bool :=
  match pc with
  | HoldingLock | MustCreate | Persisted _ => true
  | _ => false
  end.

(** The five kinds of statement, seen from the locks and the
    notifications table. *)
Inductive notify_effect (a : NotifyArgs)
  : NotifyPC -> World -> NotifyPC -> World -> Prop :=
| eff_acquire w w' :
    is_held (lock_of a) (held_locks w) = false ->
    held_locks w' = lock_of a :: held_locks w ->
    notifications w' = notifications w ->
    notify_effect a AtEntry w HoldingLock w'
| eff_release pc w pc' w' :
    holds_lock pc = true -> holds_lock pc' = false ->
    held_locks w' = release (lock_of a) (held_locks w) ->
    notifications w' = notifications w ->
    notify_effect a pc w pc' w'
| eff_absent w w' :
    List.find (has_key (db_key a)) (notifications w) = None ->
    held_locks w' = held_locks w ->
    notifications w' = notifications w ->
    notify_effect a HoldingLock w MustCreate w'
| eff_create w n w' :
    key_of n = db_key a ->
    held_locks w' = held_locks w ->
    notifications w' = n :: notifications w ->
    notify_effect a MustCreate w (Persisted n) w'
| eff_idle pc w pc' w' :
    holds_lock pc = false -> holds_lock pc' = false ->
    held_locks w' = held_locks w ->
    notifications w' = notifications w ->
    notify_effect a pc w pc' w'.

(** What holds of a pool of calls drawn from [calls], for the key [k]. *)
Record pool_inv (calls : list NotifyArgs) (k : NotifKey) (σ : Pool * World)
  : Prop := mkPoolInv {
  inv_unique : count_key k (notifications (snd σ)) <= 1;
  inv_args : forall i a pc, fst σ !! i = Some (a, pc) -> In a calls;
  inv_held : forall i a pc,
      fst σ !! i = Some (a, pc) -> holds_lock pc = true ->
      is_held (lock_of a) (held_locks (snd σ)) = true;
  inv_excl : forall i j ai pci aj pcj,
      i <> j ->
      fst σ !! i = Some (ai, pci) -> fst σ !! j = Some (aj, pcj) ->
      holds_lock pci = true -> holds_lock pcj = true ->
      lock_of ai <> lock_of aj;
  inv_absent : forall i a,
      fst σ !! i = Some (a, MustCreate) -> db_key a = k ->
      count_key k (notifications (snd σ)) = 0
}.

Definition fave_args : NotifyArgs := mkArgs NotificationFave alice bob "01STATUS".

Definition fave_notification : Notification :=
  mkNotification "01OLD" NotificationFave "01ALICE" "01BOB" "01STATUS".

Definition notified_world : World :=
  mkWorld [fave_notification] [] [] [] [] [] [] [] [].

(** *** Worlds along a call of Notify *)

Definition is_returned (pc : NotifyPC) : bool :=
  match pc with Returned _ => true | _ => false end.

Definition after_lock (a : NotifyArgs) (w : World) : World :=
  set_held_locks (lock_of a :: held_locks w)
                 (record_call (LockAcquire (lock_of a)) w).

Definition after_unlock (a : NotifyArgs) (w : World) : World :=
  set_held_locks (release (lock_of a) (held_locks w))
                 (record_call (LockRelease (lock_of a)) w).

Definition new_notification (a : NotifyArgs) (w : World) : Notification :=
  mkNotification (NewULID env (history w)) (arg_type a)
                 (acct_ID (arg_target a)) (acct_ID (arg_origin a))
                 (arg_status a).


(** The history once a call of Notify has stored [n] and given its lock
    back. *)
Definition stored_and_unlocked (a : NotifyArgs) (n : Notification)
    (w : World) : list Event :=
  [ LockRelease (lock_of a);
    DBPutNotification n;
    DBGetNotification (db_key a);
    LockAcquire (lock_of a) ] ++ history w.

(** The three ways the push path of Notify can end, after the
    notification [n] was stored and the lock given back. *)
Definition push_outcome (a : NotifyArgs) (n : Notification) (w : World)
    (push : list Event) (r : option error) : Prop :=
  let base := stored_and_unlocked a n w in
  let filters := DBGetFiltersForAccountID (acct_ID (arg_target a)) in
  let convert := ConvNotificationToAPI (notif_ID n) in
  let stream := StreamNotify (acct_ID (arg_target a)) (notif_ID n) in
  (exists why,
      fails env base filters = Some why
      /\ push = [filters]
      /\ r = Some (ErrWrap ("couldn't retrieve filters for account "
                              +:+ acct_ID (arg_target a)) (ErrFault why)))
  \/ (exists why,
      fails env base filters = None
      /\ fails env (filters :: base) convert = Some why
      /\ push = [convert; filters]
      /\ r = Some (ErrWrap
                     "error converting notification to api representation"
                     (ErrFault why)))
  \/ (fails env base filters = None
      /\ fails env (filters :: base) convert = None
      /\ push = [stream; convert; filters]
      /\ r = None).

(** "A failure in the push path is not a creation failure": whenever a
    call of Notify has stored a notification, it returns success. *)
Definition stored_means_success : Prop :=
  forall a w r w',
    Notify (arg_type a) (arg_target a) (arg_origin a) (arg_status a) w
      = Some (r, w') ->
    length (notifications w) < length (notifications w') ->
    r = None.

Definition follow_of_bob : Follow :=
  mkFollow "01FOLLOW" "01BOB" bob "01ALICE" alice.

Definition follow_request_notification : Notification :=
  mkNotification "01ASKED" NotificationFollowRequest "01ALICE" "01BOB" "".

(** Alice has been notified of Bob's follow request. *)
Definition asked_world : World :=
  mkWorld [follow_request_notification] [] [] [] [] [] [] [] [].

(** The two notifications [notifyFollow] deals with. *)
Definition asked_key (follow : Follow) : NotifKey :=
  mkKey NotificationFollowRequest
        (fol_TargetAccountID follow) (fol_AccountID follow) "".
Definition followed_key (follow : Follow) : NotifKey :=
  mkKey NotificationFollow
        (fol_TargetAccountID follow) (fol_AccountID follow) "".

(** The storage calls Notify itself makes for the key [k] do not fail:
    its lookup and its store. *)
Definition notify_storage_works (k : NotifKey) : Prop :=
  (forall h, fails env h (DBGetNotification k) = None)
  /\ (forall h n, fails env h (DBPutNotification n) = None).

(** The follow request notification is replaced: [notifyFollow] returns,
    no follow request notification and exactly one follow notification
    are left for the pair, the return is success when the push path
    works, and the calls made are the populate, the lookup, the calls
    [deleted], and then those of Notify, which start with its lock and
    its own lookup. *)
Definition follow_replaced (follow : Follow) (w : World)
    (deleted : list Event) : Prop :=
  exists r w' later,
    notifyFollow follow w = Some (r, w')
    /\ count_key (asked_key follow) (notifications w') = 0
    /\ count_key (followed_key follow) (notifications w') = 1
    /\ (push_works -> r = None)
    /\ history w'
       = later
           ++ [ DBGetNotification (followed_key follow);
                LockAcquire (getNotifyLockURI NotificationFollow
                               (fol_TargetAccount follow)
                               (fol_Account follow) "") ]
           ++ deleted
           ++ [ DBGetNotification (asked_key follow);
                DBPopulateFollow (fol_ID follow) ]
           ++ history w.

(** "Accepting a Follow Request always results in zero follow request
    notifications and exactly one follow notification for the same
    (target, origin) pair": what every returning run of [notifyFollow]
    for a local target would have to leave behind. *)
Definition follow_always_replaces : Prop :=
  forall follow w r w',
    IsLocal (fol_TargetAccount follow) = true ->
    follow_populated follow ->
    notifyFollow follow w = Some (r, w') ->
    count_key (asked_key follow) (notifications w') = 0
    /\ count_key (followed_key follow) (notifications w') = 1.

(** *** Reactions to interactions *)

(** A mention, fave or boost event the surface reacts to. *)
Inductive Reaction : Type :=
| OnMention (status : Status) (mention : Mention)
| OnFave (fave : StatusFave)
| OnAnnounce (status : Status).

Definition react (x : Reaction) : M (option error) :=
  match x with
  | OnMention status mention => notifyMentions_body status mention
  | OnFave fave => notifyFave fave
  | OnAnnounce status => notifyAnnounce status
  end.

(** Whether the account the event would notify has muted the thread of
    the status concerned. *)
Definition muted_by_target (w : World) (x : Reaction) : bool :=
  match x with
  | OnMention status mention =>
      has_pair (st_ThreadID status, men_TargetAccountID mention)
               (thread_mutes w)
  | OnFave fave =>
      has_pair (st_ThreadID (fave_Status fave), fave_TargetAccountID fave)
               (thread_mutes w)
  | OnAnnounce status =>
      has_pair (st_BoostOfThreadID status, st_BoostOfAccountID status)
               (thread_mutes w)
  end.

Definition fave_by_bob : StatusFave :=
  mkFave "01FAVE" "01BOB" bob "01ALICE" alice "01STATUS" sample_status.

Definition self_fave : StatusFave :=
  mkFave "01SELF" "01ALICE" alice "01ALICE" alice "01STATUS" sample_status.

Definition plain_status : Status := sample_status.

(** Alice has muted the thread of her status. *)
Definition muted_world : World :=
  mkWorld [] [("01THREAD", "01ALICE")] [] [] [] [] [] [] [].

(** "When a local account blocks another local account, timeline entries
    are removed and Follow/FollowRequest relations are deleted": what the
    client-origin handler would have to do, already when nothing fails. *)
Definition client_block_cleans_up : Prop :=
  forall cMsg block w r w',
    c_GTSModel cMsg = ModelBlock block ->
    clientAPI_CreateBlock cMsg w = Some (r, w') ->
    never_fails ->
    exists added,
      history w' = added ++ history w
      /\ (forall e, In e (block_cleanup block) ->
                    is_relation_removal e = true -> In e added)
      /\ unlinked (blk_AccountID block) (blk_TargetAccountID block) (follows w')
      /\ unlinked (blk_AccountID block) (blk_TargetAccountID block)
                  (follow_requests w').

(** Three workers, scheduled round-robin and then in bursts. *)
Definition sample_schedule : list nat :=
  [0; 1; 2; 0; 1; 2; 0; 0; 1; 1; 2; 2; 0; 1; 2; 0; 1; 2; 0; 1; 2; 0; 1; 2].

Definition idle : forall Msg : Type, Msg -> M (option error) :=
  fun _ _ => ret None.

Definition idle_client_handlers : ClientHandlers :=
  mkClientHandlers (idle _) (idle _) (idle _) (idle _) (idle _) (idle _)
                   (idle _) (idle _) (idle _) (idle _) (idle _) (idle _)
                   (idle _) (idle _) (idle _) (idle _) (idle _) (idle _)
                   (idle _) (idle _) (idle _) (idle _).

Definition idle_fedi_handlers : FediHandlers :=
  mkFediHandlers (idle _) (idle _) (idle _) (idle _) (idle _) (idle _)
                 (idle _) (idle _) (idle _) (idle _) (idle _) (idle _)
                 (idle _).

(** A federation-origin Undo of a Follow: the switch has no case for it. *)
Definition undo_follow_from_fedi : Envelope :=
  FediOrigin (mkFediMsg ActivityUndo ActivityFollow ModelNone bob alice).

(** ** More of the workers: definitions *)

(** *** Dispatch as a table *)

(** The cases of the client-origin switch, each with the method it calls. *)
Definition client_routes
  : list ((string * string)
          * (ClientHandlers -> FromClientAPI -> M (option error))) :=
  [ ((ActivityCreate, ObjectProfile), cCreateAccount);
    ((ActivityCreate, ActorPerson), cCreateAccount);
    ((ActivityCreate, ObjectNote), cCreateStatus);
    ((ActivityCreate, ActivityQuestion), cCreatePollVote);
    ((ActivityCreate, ActivityFollow), cCreateFollowReq);
    ((ActivityCreate, ActivityLike), cCreateLike);
    ((ActivityCreate, ActivityAnnounce), cCreateAnnounce);
    ((ActivityCreate, ActivityBlock), cCreateBlock);
    ((ActivityUpdate, ObjectNote), cUpdateStatus);
    ((ActivityUpdate, ObjectProfile), cUpdateAccount);
    ((ActivityUpdate, ActorPerson), cUpdateAccount);
    ((ActivityUpdate, ActivityFlag), cUpdateReport);
    ((ActivityAccept, ActivityFollow), cAcceptFollow);
    ((ActivityAccept, ObjectProfile), cAcceptAccount);
    ((ActivityAccept, ActorPerson), cAcceptAccount);
    ((ActivityReject, ActivityFollow), cRejectFollowRequest);
    ((ActivityReject, ObjectProfile), cRejectAccount);
    ((ActivityReject, ActorPerson), cRejectAccount);
    ((ActivityUndo, ActivityFollow), cUndoFollow);
    ((ActivityUndo, ActivityBlock), cUndoBlock);
    ((ActivityUndo, ActivityLike), cUndoFave);
    ((ActivityUndo, ActivityAnnounce), cUndoAnnounce);
    ((ActivityDelete, ObjectNote), cDeleteStatus);
    ((ActivityDelete, ObjectProfile), cDeleteAccount);
    ((ActivityDelete, ActorPerson), cDeleteAccount);
    ((ActivityFlag, ObjectProfile), cReportAccount);
    ((ActivityMove, ObjectProfile), cMoveAccount);
    ((ActivityMove, ActorPerson), cMoveAccount) ].

(** The cases of the federation-origin switch. *)
Definition fedi_routes
  : list ((string * string)
          * (FediHandlers -> FromFediAPI -> M (option error))) :=
  [ ((ActivityCreate, ObjectNote), fCreateStatus);
    ((ActivityCreate, ActivityFollow), fCreateFollowReq);
    ((ActivityCreate, ActivityLike), fCreateLike);
    ((ActivityCreate, ActivityAnnounce), fCreateAnnounce);
    ((ActivityCreate, ActivityBlock), fCreateBlock);
    ((ActivityCreate, ActivityFlag), fCreateFlag);
    ((ActivityCreate, ActivityQuestion), fCreatePollVote);
    ((ActivityUpdate, ObjectNote), fUpdateStatus);
    ((ActivityUpdate, ObjectProfile), fUpdateAccount);
    ((ActivityAccept, ActivityFollow), fAcceptFollow);
    ((ActivityDelete, ObjectNote), fDeleteStatus);
    ((ActivityDelete, ObjectProfile), fDeleteAccount);
    ((ActivityMove, ObjectProfile), fMoveAccount) ].

(** The first entry of a table for a pair. *)
Fixpoint route {H : Type} (table : list ((string * string) * H))
    (a o : string) : option H :=
  match table with
  | [] => None
  | (k, h) :: rest => if pair_eqb (a, o) k then Some h else route rest a o
  end.

(** *** Notify: steps and locks *)

(** How many statements a call has left at most. *)
Definition steps_left (pc : NotifyPC) : nat :=
  match pc with
  | AtEntry => 7
  | HoldingLock => 6
  | MustCreate => 5
  | Persisted _ => 4
  | Released _ => 3
  | HaveFilters _ => 2
  | Converted _ => 1
  | Returned _ => 0
  end.

(** The locks held while a call that found [before] stands at [pc]. *)
Definition locks_at (a : NotifyArgs) (before : list string) (pc : NotifyPC)
  : list string :=
  if holds_lock pc then lock_of a :: before else before.

(** The calls Notify makes. *)
Definition is_notify_event (a : NotifyArgs) (e : Event) : Prop :=
  e = LockAcquire (lock_of a)
  \/ e = LockRelease (lock_of a)
  \/ e = DBGetNotification (db_key a)
  \/ (exists n, e = DBPutNotification n /\ key_of n = db_key a)
  \/ e = DBGetFiltersForAccountID (acct_ID (arg_target a))
  \/ (exists id, e = ConvNotificationToAPI id)
  \/ (exists id, e = StreamNotify (acct_ID (arg_target a)) id).

Definition is_populate_mention (e : Event) : bool :=
  match e with DBPopulateMention _ => true | _ => false end.

(** The account a reaction would notify. *)
Definition notified_account (x : Reaction) : Account :=
  match x with
  | OnMention _ mention => men_TargetAccount mention
  | OnFave fave => fave_TargetAccount fave
  | OnAnnounce status => st_BoostOfAccount status
  end.

Definition remote_bob : Account :=
  mkAccount "01BOB" "https://elsewhere.example/users/bob" "bob" false None.

Definition fave_of_remote_status : StatusFave :=
  mkFave "01FAVE2" "01ALICE" alice "01BOB" remote_bob "01STATUS" sample_status.

Definition two_mentions : Status :=
  mkStatus "01NOTE" "https://example.org/statuses/01NOTE"
           "01BOB" bob "01THREAD" "" "" "" bob "" true
           [ mkMention "01M1" "01NOTE" "01ALICE" alice bob;
             mkMention "01M2" "01NOTE" "01BOB" remote_bob bob ].

Definition is_populate (e : Event) : bool :=
  match e with
  | DBPopulateMention _ | DBPopulateFollow _ | DBPopulateStatusFave _
  | DBPopulateStatus _ | DBPopulatePollVote _ | DBPopulatePoll _
  | DBPopulateMove _ => true
  | _ => false
  end.

(** An environment in which the rows a [Populate...] call looks for are
    never there. *)
Definition rowless : Env :=
  mkEnv (fun _ _ => None) (fun _ _ => true) (fun _ => "01NOTIF").

Definition remote_status : Status :=
  mkStatus "01REMOTE" "https://elsewhere.example/statuses/01REMOTE"
           "01BOB" remote_bob "01THREAD2" "" "" "" remote_bob "" false [].

Definition remote_vote : PollVote :=
  mkPollVote "01VOTE2" "01POLL2" "01REMOTE" remote_status.

(** The notifications table while a call that found [before] stands at
    [pc]: untouched until the store, one row longer after it, and at the
    return either of the two. *)
Definition table_at (a : NotifyArgs) (before : list Notification)
    (pc : NotifyPC) (now : list Notification) : Prop :=
  match pc with
  | AtEntry | HoldingLock => now = before
  | MustCreate => now = before /\ count_key (db_key a) before = 0
  | Persisted n | Released n | HaveFilters n | Converted n =>
      now = n :: before /\ key_of n = db_key a
      /\ count_key (db_key a) before = 0
  | Returned _ =>
      now = before
      \/ (count_key (db_key a) before = 0
          /\ exists n, key_of n = db_key a /\ now = n :: before)
  end.

Definition is_prerequisite_of_vote (e : Event) : bool :=
  match e with
  | DBPutPollVote _ | DBPopulatePollVote _ | DBPopulatePoll _ => true
  | _ => false
  end.

(** *** The read side: properties and sample data *)

(** The API name of a filter context. *)
Definition api_context_of (c : Typeutils.FilterContext)
  : option Typeutils.APIFilterContext :=
  match c with
  | Typeutils.FilterContextHome => Some Typeutils.APIFilterContextHome
  | Typeutils.FilterContextNotifications =>
      Some Typeutils.APIFilterContextNotifications
  | Typeutils.FilterContextPublic => Some Typeutils.APIFilterContextPublic
  | Typeutils.FilterContextThread => Some Typeutils.APIFilterContextThread
  | Typeutils.FilterContextAccount => Some Typeutils.APIFilterContextAccount
  | _ => None
  end.

(** A keyword whose expression compiles and matches one of the fields. *)
Definition keyword_hit (t : Typeutils.TextTools) (fields : list string)
    (k : Typeutils.FilterKeyword) : bool :=
  match Typeutils.Compile t (Typeutils.keyword_expr t k) with
  | Ok re => existsb (Typeutils.MatchString t re) fields
  | Err _ => false
  end.

(** A filter that matches the status: by one of its keywords, or by
    listing the status. *)
Definition filter_hits (t : Typeutils.TextTools) (s : Typeutils.Status)
    (filter : Typeutils.Filter) : bool :=
  existsb (keyword_hit t (Typeutils.filterableTextFields t s))
          (Typeutils.flt_Keywords filter)
  || existsb (fun fs => String.eqb (Typeutils.s_ID s) (Typeutils.fs_StatusID fs))
             (Typeutils.flt_Statuses filter).

(** A filter that applies in the context and has not expired. *)
Definition in_force (now : Time) (c : Typeutils.FilterContext)
    (filter : Typeutils.Filter) : bool :=
  Typeutils.filterAppliesInContext filter c
  && negb (Typeutils.is_expired now filter).

(** Sample data: text tools in which a keyword matches the fields that
    contain it, and collaborators that keep a log of the calls made. *)
Definition contains (needle hay : string) : bool :=
  match String.index 0 needle hay with
  | Some _ => true
  | None => false
  end.

Definition plain_tools : Typeutils.TextTools :=
  Typeutils.mkTextTools string (fun s => s) (fun e => Ok e)
    (fun re field => contains (String.substring 4 (String.length re - 4) re) field)
    (fun s => s) (fun _ => "2024-01-01T00:00:00.000Z").

Definition hide_spoilers : Typeutils.Filter :=
  Typeutils.mkFilter "01FILTER" "spoilers" Typeutils.FilterActionHide 0
    [Typeutils.mkFilterKeyword "01KW" "finale" None] []
    None (Some true) None None None.

Definition old_warning : Typeutils.Filter :=
  Typeutils.mkFilter "01OLD" "old" Typeutils.FilterActionWarn 5
    [Typeutils.mkFilterKeyword "01KW2" "finale" None] []
    None (Some true) None None None.

Definition spoiler_status : Typeutils.Status :=
  Typeutils.mkStatus "01SPOILER" "01BOB" None "the finale was great" ""
    [Typeutils.mkAttachment "a screenshot"; Typeutils.mkAttachment ""]
    (Some (Typeutils.mkPoll ["yes"; ""; "no"])).

Definition logged {A : Type} (name : string) (a : A) : R (list string) A :=
  fun log => (a, name :: log).

Definition mention_of_spoiler : Typeutils.Notification :=
  Typeutils.mkNotification "01N2" NotificationMention 7
    "01ALICE" (Some alice) "01BOB" (Some bob) "01SPOILER" (Some spoiler_status).

Definition follow_by_bob : Typeutils.Notification :=
  Typeutils.mkNotification "01N1" NotificationFollow 8
    "01ALICE" (Some alice) "01BOB" (Some bob) "" None.

Definition notification_for_bob : Typeutils.Notification :=
  Typeutils.mkNotification "01N3" NotificationFollow 9
    "01BOB" (Some bob) "01ALICE" (Some alice) "" None.

(** The converter's collaborators: every status converts, unless
    [hidden] says it is hidden. *)
Definition sample_backend (hidden : string -> bool)
  : Typeutils.Backend (list string) :=
  Typeutils.mkBackend (list string)
    (fun id => logged "GetAccountByID" (Ok alice))
    (fun id => logged "GetStatusByID" (Ok spoiler_status))
    (fun a => logged "AccountToAPIAccountPublic"
                     (Ok (Typeutils.mkAPIAccount (acct_ID a))))
    (fun s _ _ _ =>
       logged "StatusToAPIStatus"
              (if hidden (Typeutils.s_ID s)
               then Err (ErrNew "status hidden")
               else Ok (Typeutils.APIStatusOwn (Typeutils.s_ID s)))).

(** Storage holds [stored]; nothing fails. *)
Definition sample_services (stored : list Typeutils.Notification)
    (hidden : string -> bool) : Timeline.Services (list string) :=
  Timeline.mkServices (list string) (sample_backend hidden)
    (fun _ _ _ _ _ _ => logged "GetAccountNotifications" (stored, None))
    (fun _ => logged "GetFiltersForAccountID" (Ok [hide_spoilers]))
    (fun id =>
       logged "GetNotificationByID"
              (match List.find (fun n => String.eqb id (Typeutils.n_ID n)) stored with
               | Some n => Ok n
               | None => Err ErrNoEntries
               end))
    (fun _ _ _ => logged "DeleteNotifications" (Some ErrNoEntries))
    (fun _ _ => logged "AccountVisible" (Ok true))
    (fun _ _ => logged "StatusVisible" (Ok true))
    (fun msg => logged "Debugf" tt).

(** *** The remaining reactions and handlers *)

(** The handlers below call collaborators and read models that the
    ones above do not.  Their calls are kept in a journal of their own,
    each with the history of the other calls as it stood when the call
    was made. *)

(** Modelled from the spec: the notification type for a closed poll,
    declared in [gtsmodel] like the other type names. *)
Definition NotificationPoll : NotificationType := "poll".

Record User : Type := mkUser {
  user_ID : string;
  user_Account : Account
}.

Record FollowRequest : Type := mkFollowRequest {
  freq_ID : string;
  freq_AccountID : string;
  freq_Account : Account;
  freq_TargetAccountID : string;
  freq_TargetAccount : Account;
  freq_TargetLocked : bool            (* *followRequest.TargetAccount.Locked *)
}.

Record Report : Type := mkReport {
  rep_ID : string;
  rep_Account : Account;
  rep_Forwarded : bool
}.

Record DeniedUser : Type := mkDeniedUser {
  den_ID : string;
  den_SendEmail : bool
}.

Record DomainBlock : Type := mkDomainBlock {
  dom_ID : string
}.

(** A vote as [GetPollVotes] loads it. *)
Record Voter : Type := mkVoter {
  voter_AccountID : string;
  voter_Account : Account
}.

(** A status together with its poll fields. *)
Record PollOf : Type := mkPollOf {
  poll_Closing : bool
}.

Record PolledStatus : Type := mkPolled {
  the_status : Status;
  PollID : string;
  Poll : option PollOf
}.

(** The models a handler casts [GTSModel] to. *)
Inductive Model : Type :=
| NoModel
| AUser (u : User)
| AStatus (s : PolledStatus)
| APollVote (v : PollVote)
| AFollowRequest (f : FollowRequest)
| AStatusFave (f : StatusFave)
| ABlock (b : Block)
| AnAccount (a : Account)
| AReport (r : Report)
| AFollow (f : Follow)
| ADeniedUser (d : DeniedUser)
| ADomainBlock (d : DomainBlock).

(** [fMsg.APObject]: what it can be cast to. *)
Inductive APObject : Type :=
| Statusable (uri : string)
| Accountable (uri : string)
| Unrecognised.

Record ClientMessage : Type := mkClientMessage {
  cm_GTSModel : Model;
  cm_Origin : Account;
  cm_Target : Account
}.

Record FediMessage : Type := mkFediMessage {
  fm_GTSModel : Model;
  fm_APObject : option APObject;
  fm_APIRI : option string;
  fm_Requesting : Account;
  fm_Receiving : Account
}.

(** The further collaborator calls. *)
Inductive Call : Type :=
| DBPopulateFollowRequest (id : string)
| DBGetPollVotes (poll : string)
| DBGetInstanceModerators
| DBPopulateUser (id : string)
| DBPopulateAccount (id : string)
| DBAcceptFollowRequest (account target : string)
| DBDeleteStatusByID (id : string)
| DBUpdateUser (id : string) (columns : list string)
| DBDeleteAccount (id : string)
| DBDeleteUserByID (id : string)
| DBPutDeniedUser (id : string)
| EmailAdminNewSignup (user : string)
| EmailUserPleaseConfirm (user : string)
| EmailUserReportClosed (report : string)
| EmailAdminReportOpened (report : string)
| EmailUserSignupApproved (user : string)
| EmailUserSignupRejected (denied : string)
| UtilIncrementStatusesCount (account status : string)
| UtilIncrementFollowRequestsCount (account : string)
| UtilDecrementFollowRequestsCount (account : string)
| UtilIncrementFollowersCount (account : string)
| UtilDecrementFollowersCount (account : string)
| UtilIncrementFollowingCount (account : string)
| UtilDecrementFollowingCount (account : string)
| SurfaceTimelineAndNotifyStatus (id : string)
| SurfaceTimelineStatusUpdate (id : string)
| SurfaceDeleteStatusFromTimelines (id : string)
| FedCreateStatus (id : string)
| FedCreatePollVote (poll vote : string)
| FedFollow (id : string)
| FedLike (id : string)
| FedAnnounce (id : string)
| FedUpdateAccount (id : string)
| FedAcceptFollow (id : string)
| FedRejectFollow (id : string)
| FedUndoFollow (id : string)
| FedUndoBlock (id : string)
| FedUndoLike (id : string)
| FedUndoAnnounce (id : string)
| FedDeleteAccount (id : string)
| FedFlag (id : string)
| FedRefreshStatus (username uri : string)
| FedGetStatusByURI (username iri : string)
| FedEnrichAnnounce (id username : string)
| FedRefreshAccount (username id : string)
| AccountDelete (account origin : string)
| LogDebug (msg : string).

(** A call that was made, with the history of the other calls before
    it. *)
Record Made : Type := mkMade {
  made_call : Call;
  made_after : list Event
}.

Record Wide : Type := mkWide {
  inner : World;
  journal : list Made               (* newest first *)
}.

(** What the program cannot decide about the further calls, given
    everything called before: the error a call answers, if any, and the
    rows and models the storage and the federator hand back. *)
Record More : Type := mkMore {
  answers : list Event -> list Made -> Call -> option error;
  poll_votes : list Event -> list Made -> list Voter;
  moderators : list Event -> list Made -> list Account;
  accepted_follow : list Event -> list Made -> Follow;
  fetched_status : list Event -> list Made -> PolledStatus * bool;
  enriched_boost : list Event -> list Made -> Status;
  unretrievable : list Event -> list Made -> bool
}.

Variable further : More.

Definition W (A : Type) : Type := Wide -> option (A * Wide).

Definition ret_W {A : Type} (a : A) : W A := fun s => Some (a, s).

Definition bind_W {A B : Type} (m : W A) (k : A -> W B) : W B :=
  fun s => match m s with
           | Some (a, s') => k a s'
           | None => None
           end.

Declare Scope wide_scope.
Delimit Scope wide_scope with wide.
Notation "x <- c ;; k" := (bind_W c (fun x => k))
  (at level 100, c at next level, right associativity) : wide_scope.
Notation "c ;;; k" := (bind_W c (fun _ => k))
  (at level 100, right associativity) : wide_scope.
Local Open Scope wide_scope.

(** A computation of the handlers above, run on the inner world. *)
Definition lift {A : Type} (m : M A) : W A :=
  fun s => match m (inner s) with
           | Some (a, w') => Some (a, mkWide w' (journal s))
           | None => None
           end.

Definition record_made (c : Call) (s : Wide) : Wide :=
  mkWide (inner s) (mkMade c (history (inner s)) :: journal s).

(** A further call: records it and asks the environment. *)
Definition ask (c : Call) : W (option error) :=
  fun s => Some (answers further (history (inner s)) (journal s) c,
                 record_made c s).

(** A further call that hands back a model. *)
Definition ask_for {A : Type}
    (c : Call) (given : list Event -> list Made -> A) : W (result A) :=
  fun s =>
    Some (match answers further (history (inner s)) (journal s) c with
          | Some err => Err err
          | None => Ok (given (history (inner s)) (journal s))
          end,
          record_made c s).

(** The calls made so far, for what the environment says about the
    answer of the next one. *)
Definition before_call : W Wide := fun s => Some (s, s).

(** [if err := m; err != nil { log.Errorf(ctx, msg, err) }]. *)
Definition logging_W (msg : string) (m : W (option error)) : W unit :=
  r <- m ;;
  match r with
  | Some err => lift (log_Errorf msg err)
  | None => ret_W tt
  end.

Definition invalidateStatusFromTimelines (id : string) : W unit :=
  lift (emit (SurfaceInvalidateStatus id)).

(** **** surfacenotify.go, continued *)

Definition notifyFollowRequest (followReq : FollowRequest) : W (option error) :=
  (* Beforehand, ensure the passed follow request is fully populated. *)
  r <- ask (DBPopulateFollowRequest (freq_ID followReq)) ;;
  match r with
  | Some err =>
      ret_W (Some (ErrWrap ("error populating follow request "
                              +:+ freq_ID followReq) err))
  | None =>
      if IsRemote (freq_TargetAccount followReq) then
        (* no need to notify remote accounts. *)
        ret_W None
      else
        (* Now notify the follow request itself. *)
        r <- lift (Notify NotificationFollowRequest
                          (freq_TargetAccount followReq)
                          (freq_Account followReq) "") ;;
        match r with
        | Some err =>
            ret_W (Some (ErrWrap ("error notifying follow target "
                                    +:+ freq_TargetAccountID followReq) err))
        | None => ret_W None
        end
  end.

(** The loop over [votes] of [notifyPollClose]. *)
Fixpoint notify_voters (status : Status) (votes : list Voter)
    (errs : list error) : W (list error) :=
  match votes with
  | [] => ret_W errs
  | vote :: rest =>
      if IsRemote (voter_Account vote) then
        (* no need to notify remote accounts. *)
        notify_voters status rest errs
      else
        (* notify voter that poll has been closed. *)
        r <- lift (Notify NotificationPoll (voter_Account vote)
                          (st_Account status) (st_ID status)) ;;
        notify_voters status rest
          (match r with
           | Some err =>
               errs ++ [ErrWrap ("error notifying poll voter "
                                   +:+ voter_AccountID vote) err]
           | None => errs
           end)
  end.

Definition notifyPollClose (polled : PolledStatus) : W (option error) :=
  let status := the_status polled in
  (* Beforehand, ensure the passed status is fully populated. *)
  r <- lift (Populate (DBPopulateStatus (st_ID status))) ;;
  match r with
  | Some err =>
      ret_W (Some (ErrWrap ("error populating status " +:+ st_ID status) err))
  | None =>
      (* Fetch all votes in the attached status poll. *)
      r <- ask_for (DBGetPollVotes (PollID polled)) (poll_votes further) ;;
      match r with
      | Err err =>
          ret_W (Some (ErrWrap (("error getting poll " +:+ PollID polled)
                                  +:+ " votes") err))
      | Ok votes =>
          errs <- (if IsLocal (st_Account status) then
                     (* Send a notification to the status author that
                        their poll has closed! *)
                     r <- lift (Notify NotificationPoll (st_Account status)
                                       (st_Account status) (st_ID status)) ;;
                     match r with
                     | Some err =>
                         ret_W [ErrWrap "error notifying poll author" err]
                     | None => ret_W []
                     end
                   else ret_W []) ;;
          errs <- notify_voters status votes errs ;;
          ret_W (Combine errs)
      end
  end.

(** The loop over [modAccounts] of [notifySignup]. *)
Fixpoint notify_moderators (newUser : User) (modAccounts : list Account)
    (errs : list error) : W (list error) :=
  match modAccounts with
  | [] => ret_W errs
  | moderator :: rest =>
      r <- lift (Notify Timeline.NotificationSignup moderator
                        (user_Account newUser) "") ;;
      notify_moderators newUser rest
        (match r with
         | Some err =>
             errs ++ [ErrWrap ("error notifying moderator "
                                 +:+ acct_ID moderator) err]
         | None => errs
         end)
  end.

Definition notifySignup (newUser : User) : W (option error) :=
  r <- ask_for DBGetInstanceModerators (moderators further) ;;
  match r with
  | Err err =>
      if is_no_entries err then
        (* No registered mod accounts. *)
        ret_W None
      else
        (* Real error. *)
        ret_W (Some (ErrWrap "error getting instance moderator accounts" err))
  | Ok modAccounts =>
      (* Ensure user + account populated. *)
      r <- ask (DBPopulateUser (user_ID newUser)) ;;
      match r with
      | Some err => ret_W (Some (ErrWrap "db error populating new user" err))
      | None =>
          r <- ask (DBPopulateAccount (acct_ID (user_Account newUser))) ;;
          match r with
          | Some err =>
              ret_W (Some (ErrWrap "db error populating new user's account" err))
          | None =>
              (* Notify each moderator. *)
              errs <- notify_moderators newUser modAccounts [] ;;
              ret_W (Combine errs)
          end
      end
  end.

(** **** fromclientapi.go, continued *)

Definition clientAPI_CreateAccount (cMsg : ClientMessage) : W (option error) :=
  match cm_GTSModel cMsg with
  | AUser newUser =>
      (* Notify mods of the new signup. *)
      logging_W "error notifying mods of new sign-up" (notifySignup newUser) ;;;
      (* Send "new sign up" email to mods. *)
      logging_W "error emailing new signup"
                (ask (EmailAdminNewSignup (user_ID newUser))) ;;;
      (* Send "please confirm your address" email to the new user. *)
      logging_W "error emailing confirm"
                (ask (EmailUserPleaseConfirm (user_ID newUser))) ;;;
      ret_W None
  | _ => ret_W (Some (ErrNew "not parseable as *gtsmodel.User"))
  end.

Definition clientAPI_CreateStatus (cMsg : ClientMessage) : W (option error) :=
  match cm_GTSModel cMsg with
  | AStatus polled =>
      let status := the_status polled in
      (* Update stats for the actor account. *)
      logging_W "error updating account stats"
        (ask (UtilIncrementStatusesCount (acct_ID (cm_Origin cMsg))
                                         (st_ID status))) ;;;
      logging_W "error timelining and notifying status"
        (ask (SurfaceTimelineAndNotifyStatus (st_ID status))) ;;;
      (if negb (String.eqb (st_InReplyToID status) "") then
         (* Interaction counts changed on the replied status; uncache the
            prepared version from all timelines. *)
         invalidateStatusFromTimelines (st_InReplyToID status)
       else ret_W tt) ;;;
      logging_W "error federating status"
        (ask (FedCreateStatus (st_ID status))) ;;;
      ret_W None
  | _ => ret_W (Some (ErrNew "not parseable as *gtsmodel.Status"))
  end.

Definition clientAPI_CreatePollVote (cMsg : ClientMessage) : W (option error) :=
  (* Cast the create poll vote attached to message. *)
  match cm_GTSModel cMsg with
  | APollVote vote =>
      (* Ensure the vote is fully populated in order to get original
         poll. *)
      r <- lift (Populate (DBPopulatePollVote (vote_ID vote))) ;;
      match r with
      | Some err =>
          ret_W (Some (ErrWrap "error populating poll vote from db" err))
      | None =>
          (* Ensure the poll on the vote is fully populated to get origin
             status. *)
          r <- lift (Populate (DBPopulatePoll (vote_PollID vote))) ;;
          match r with
          | Some err =>
              ret_W (Some (ErrWrap "error populating poll from db" err))
          | None =>
              (* Get the origin status. *)
              let status := vote_PollStatus vote in
              (* Interaction counts changed on the source status, uncache
                 from timelines. *)
              invalidateStatusFromTimelines (vote_PollStatusID vote) ;;;
              (if st_Local status then
                 (* These are poll votes in a local status, we only need
                    to federate the updated status model with latest vote
                    counts. *)
                 logging_W "error federating status update"
                   (lift (call_ (FedUpdateStatus (st_ID status))))
               else
                 (* These are votes in a remote poll, federate to origin
                    the new poll vote(s). *)
                 logging_W "error federating poll vote"
                   (ask (FedCreatePollVote (vote_PollID vote) (vote_ID vote)))) ;;;
              ret_W None
          end
      end
  | _ => ret_W (Some (ErrNew "cannot cast -> *gtsmodel.Pollvote"))
  end.

Definition clientAPI_CreateFollowReq (cMsg : ClientMessage) : W (option error) :=
  match cm_GTSModel cMsg with
  | AFollowRequest followRequest =>
      (* Update stats for the target account. *)
      logging_W "error updating account stats"
        (ask (UtilIncrementFollowRequestsCount (acct_ID (cm_Target cMsg)))) ;;;
      logging_W "error notifying follow request"
        (notifyFollowRequest followRequest) ;;;
      (* Convert the follow request to follow model (requests are sent as
         follows). *)
      logging_W "error federating follow request"
        (ask (FedFollow (freq_ID followRequest))) ;;;
      ret_W None
  | _ => ret_W (Some (ErrNew "not parseable as *gtsmodel.FollowRequest"))
  end.

Definition clientAPI_CreateLike (cMsg : ClientMessage) : W (option error) :=
  match cm_GTSModel cMsg with
  | AStatusFave fave =>
      (* Ensure fave populated. *)
      r <- lift (Populate (DBPopulateStatusFave (fave_ID fave))) ;;
      match r with
      | Some err => ret_W (Some (ErrWrap "error populating status fave" err))
      | None =>
          logging_W "error notifying fave" (lift (notifyFave fave)) ;;;
          (* Interaction counts changed on the faved status; uncache the
             prepared version from all timelines. *)
          invalidateStatusFromTimelines (fave_StatusID fave) ;;;
          logging_W "error federating like" (ask (FedLike (fave_ID fave))) ;;;
          ret_W None
      end
  | _ => ret_W (Some (ErrNew "not parseable as *gtsmodel.StatusFave"))
  end.

Definition clientAPI_CreateAnnounce (cMsg : ClientMessage) : W (option error) :=
  match cm_GTSModel cMsg with
  | AStatus polled =>
      let boost := the_status polled in
      (* Update stats for the actor account. *)
      logging_W "error updating account stats"
        (ask (UtilIncrementStatusesCount (acct_ID (cm_Origin cMsg))
                                         (st_ID boost))) ;;;
      (* Timeline and notify the boost wrapper status. *)
      logging_W "error timelining and notifying status"
        (ask (SurfaceTimelineAndNotifyStatus (st_ID boost))) ;;;
      (* Notify the boost target account. *)
      logging_W "error notifying boost" (lift (notifyAnnounce boost)) ;;;
      (* Interaction counts changed on the boosted status; uncache the
         prepared version from all timelines. *)
      invalidateStatusFromTimelines (st_BoostOfID boost) ;;;
      logging_W "error federating announce"
        (ask (FedAnnounce (st_ID boost))) ;;;
      ret_W None
  | _ => ret_W (Some (ErrNew "not parseable as *gtsmodel.Status"))
  end.

Definition clientAPI_UpdateStatus (cMsg : ClientMessage) : W (option error) :=
  (* Cast the updated Status model attached to msg. *)
  match cm_GTSModel cMsg with
  | AStatus polled =>
      let status := the_status polled in
      (* Federate the updated status changes out remotely. *)
      logging_W "error federating status update"
        (lift (call_ (FedUpdateStatus (st_ID status)))) ;;;
      (* Status representation has changed, invalidate from timelines. *)
      invalidateStatusFromTimelines (st_ID status) ;;;
      (match Poll polled with
       | Some poll =>
           if poll_Closing poll then
             (* If the latest status has a newly closed poll, at least
                compared to the existing version, then notify poll close
                to all voters. *)
             logging_W "error notifying poll close" (notifyPollClose polled)
           else ret_W tt
       | None => ret_W tt
       end) ;;;
      (* Push message that the status has been edited to streams. *)
      logging_W "error streaming status edit"
        (ask (SurfaceTimelineStatusUpdate (st_ID status))) ;;;
      ret_W None
  | _ => ret_W (Some (ErrNew "cannot cast -> *gtsmodel.Status"))
  end.

Definition clientAPI_UpdateAccount (cMsg : ClientMessage) : W (option error) :=
  match cm_GTSModel cMsg with
  | AnAccount account =>
      logging_W "error federating account update"
        (ask (FedUpdateAccount (acct_ID account))) ;;;
      ret_W None
  | _ => ret_W (Some (ErrNew "cannot cast -> *gtsmodel.Account"))
  end.

Definition clientAPI_UpdateReport (cMsg : ClientMessage) : W (option error) :=
  match cm_GTSModel cMsg with
  | AReport report =>
      if IsRemote (rep_Account report) then
        (* Report creator is a remote account, we shouldn't try to email
           them! *)
        ret_W None
      else
        logging_W "error emailing report closed"
          (ask (EmailUserReportClosed (rep_ID report))) ;;;
        ret_W None
  | _ => ret_W (Some (ErrNew "not parseable as *gtsmodel.Report"))
  end.

Definition clientAPI_AcceptFollow (cMsg : ClientMessage) : W (option error) :=
  match cm_GTSModel cMsg with
  | AFollow follow =>
      (* Update stats for the target account. *)
      logging_W "error updating account stats"
        (ask (UtilDecrementFollowRequestsCount (acct_ID (cm_Target cMsg)))) ;;;
      logging_W "error updating account stats"
        (ask (UtilIncrementFollowersCount (acct_ID (cm_Target cMsg)))) ;;;
      (* Update stats for the origin account. *)
      logging_W "error updating account stats"
        (ask (UtilIncrementFollowingCount (acct_ID (cm_Origin cMsg)))) ;;;
      logging_W "error notifying follow" (lift (notifyFollow follow)) ;;;
      logging_W "error federating follow accept"
        (ask (FedAcceptFollow (fol_ID follow))) ;;;
      ret_W None
  | _ => ret_W (Some (ErrNew "not parseable as *gtsmodel.Follow"))
  end.

Definition clientAPI_RejectFollowRequest (cMsg : ClientMessage)
  : W (option error) :=
  match cm_GTSModel cMsg with
  | AFollowRequest followReq =>
      (* Update stats for the target account. *)
      logging_W "error updating account stats"
        (ask (UtilDecrementFollowRequestsCount (acct_ID (cm_Target cMsg)))) ;;;
      logging_W "error federating follow reject"
        (ask (FedRejectFollow (freq_ID followReq))) ;;;
      ret_W None
  | _ => ret_W (Some (ErrNew "not parseable as *gtsmodel.FollowRequest"))
  end.

Definition clientAPI_UndoFollow (cMsg : ClientMessage) : W (option error) :=
  match cm_GTSModel cMsg with
  | AFollow follow =>
      (* Update stats for the origin account. *)
      logging_W "error updating account stats"
        (ask (UtilDecrementFollowingCount (acct_ID (cm_Origin cMsg)))) ;;;
      (* Update stats for the target account. *)
      logging_W "error updating account stats"
        (ask (UtilDecrementFollowersCount (acct_ID (cm_Target cMsg)))) ;;;
      logging_W "error federating follow undo"
        (ask (FedUndoFollow (fol_ID follow))) ;;;
      ret_W None
  | _ => ret_W (Some (ErrNew "not parseable as *gtsmodel.Follow"))
  end.

Definition clientAPI_UndoBlock (cMsg : ClientMessage) : W (option error) :=
  match cm_GTSModel cMsg with
  | ABlock block =>
      logging_W "error federating block undo"
        (ask (FedUndoBlock (blk_ID block))) ;;;
      ret_W None
  | _ => ret_W (Some (ErrNew "not parseable as *gtsmodel.Block"))
  end.

Definition clientAPI_UndoFave (cMsg : ClientMessage) : W (option error) :=
  match cm_GTSModel cMsg with
  | AStatusFave statusFave =>
      (* Interaction counts changed on the faved status; uncache the
         prepared version from all timelines. *)
      invalidateStatusFromTimelines (fave_StatusID statusFave) ;;;
      logging_W "error federating like undo"
        (ask (FedUndoLike (fave_ID statusFave))) ;;;
      ret_W None
  | _ => ret_W (Some (ErrNew "not parseable as *gtsmodel.StatusFave"))
  end.

Definition clientAPI_UndoAnnounce (cMsg : ClientMessage) : W (option error) :=
  match cm_GTSModel cMsg with
  | AStatus polled =>
      let status := the_status polled in
      r <- ask (DBDeleteStatusByID (st_ID status)) ;;
      match r with
      | Some err => ret_W (Some (ErrWrap "db error deleting status" err))
      | None =>
          (* Update stats for the origin account. *)
          logging_W "error updating account stats"
            (lift (call_ (UtilDecrementStatusesCount
                            (acct_ID (cm_Origin cMsg))))) ;;;
          logging_W "error removing timelined status"
            (ask (SurfaceDeleteStatusFromTimelines (st_ID status))) ;;;
          (* Interaction counts changed on the boosted status; uncache the
             prepared version from all timelines. *)
          invalidateStatusFromTimelines (st_BoostOfID status) ;;;
          logging_W "error federating announce undo"
            (ask (FedUndoAnnounce (st_ID status))) ;;;
          ret_W None
      end
  | _ => ret_W (Some (ErrNew "not parseable as *gtsmodel.Status"))
  end.

(** The queue purges of the client-origin [DeleteAccount]. *)
Definition client_account_purges (account : Account) : list Event :=
  [ QueueDelete DeliveryQueue "ActorID" (acct_URI account);
    QueueDelete DeliveryQueue "ObjectID" (acct_URI account);
    QueueDelete DeliveryQueue "TargetID" (acct_URI account);
    QueueDelete ClientQueue "Origin.ID" (acct_ID account);
    QueueDelete ClientQueue "Target.ID" (acct_ID account);
    QueueDelete ClientQueue "TargetURI" (acct_URI account);
    QueueDelete FederatorQueue "Receiving.ID" (acct_ID account);
    QueueDelete FederatorQueue "TargetURI" (acct_URI account) ].

(** The queue purges of the federation-origin [DeleteAccount]. *)
Definition fedi_account_purges (account : Account) : list Event :=
  [ QueueDelete DeliveryQueue "ObjectID" (acct_URI account);
    QueueDelete DeliveryQueue "TargetID" (acct_URI account);
    QueueDelete ClientQueue "Target.ID" (acct_ID account);
    QueueDelete ClientQueue "TargetURI" (acct_URI account);
    QueueDelete FederatorQueue "Requesting.ID" (acct_ID account);
    QueueDelete FederatorQueue "TargetURI" (acct_URI account) ].

(** Issues the purges in list order. *)
Fixpoint purge_all (purges : list Event) : W unit :=
  match purges with
  | [] => ret_W tt
  | e :: rest => lift (emit e) ;;; purge_all rest
  end.

Definition clientAPI_DeleteAccount (cMsg : ClientMessage) : W (option error) :=
  (* The originID of the delete, one of: ID of a domain block, for which
     this account delete is a side effect; ID of the deleted account
     itself (self delete); ID of an admin account (account suspension). *)
  let originID :=
    match cm_GTSModel cMsg with
    | ADomainBlock domainBlock =>
        (* Origin is a domain block. *)
        dom_ID domainBlock
    | _ =>
        (* Origin is whichever account originated this message. *)
        acct_ID (cm_Origin cMsg)
    end in
  (* Extract target account. *)
  let account := cm_Target cMsg in
  purge_all (client_account_purges account) ;;;
  logging_W "error federating account delete"
    (ask (FedDeleteAccount (acct_ID (cm_Target cMsg)))) ;;;
  logging_W "error deleting account"
    (ask (AccountDelete (acct_ID (cm_Target cMsg)) originID)) ;;;
  ret_W None.

Definition clientAPI_ReportAccount (cMsg : ClientMessage) : W (option error) :=
  match cm_GTSModel cMsg with
  | AReport report =>
      (* Federate this report to the remote instance if desired. *)
      (if rep_Forwarded report then
         logging_W "error federating flag" (ask (FedFlag (rep_ID report)))
       else ret_W tt) ;;;
      logging_W "error emailing report opened"
        (ask (EmailAdminReportOpened (rep_ID report))) ;;;
      ret_W None
  | _ => ret_W (Some (ErrNew "not parseable as *gtsmodel.Report"))
  end.

Definition clientAPI_AcceptAccount (cMsg : ClientMessage) : W (option error) :=
  match cm_GTSModel cMsg with
  | AUser newUser =>
      (* Mark user as approved + clear sign-up IP. *)
      r <- ask (DBUpdateUser (user_ID newUser) ["approved"; "sign_up_ip"]) ;;
      match r with
      | Some err =>
          (* Error now means we should return without sending email + let
             admin try to approve again. *)
          ret_W (Some (ErrWrap ("db error updating user " +:+ user_ID newUser)
                               err))
      | None =>
          (* Send "your sign-up has been approved" email to the new
             user. *)
          logging_W "error emailing"
            (ask (EmailUserSignupApproved (user_ID newUser))) ;;;
          ret_W None
      end
  | _ => ret_W (Some (ErrNew "not parseable as *gtsmodel.User"))
  end.

Definition clientAPI_RejectAccount (cMsg : ClientMessage) : W (option error) :=
  match cm_GTSModel cMsg with
  | ADeniedUser deniedUser =>
      (* Remove the account. *)
      logging_W ("db error deleting account " +:+ acct_ID (cm_Target cMsg))
        (ask (DBDeleteAccount (acct_ID (cm_Target cMsg)))) ;;;
      (* Remove the user. *)
      logging_W ("db error deleting user " +:+ den_ID deniedUser)
        (ask (DBDeleteUserByID (den_ID deniedUser))) ;;;
      (* Store the deniedUser entry. *)
      logging_W ("db error putting denied user " +:+ den_ID deniedUser)
        (ask (DBPutDeniedUser (den_ID deniedUser))) ;;;
      (if den_SendEmail deniedUser then
         (* Send "your sign-up has been rejected" email to the denied
            user. *)
         logging_W "error emailing"
           (ask (EmailUserSignupRejected (den_ID deniedUser)))
       else ret_W tt) ;;;
      ret_W None
  | _ => ret_W (Some (ErrNew "not parseable as *gtsmodel.DeniedUser"))
  end.

(** **** fromfediapi.go, continued *)

Definition fediAPI_CreateStatus (fMsg : FediMessage) : W (option error) :=
  (* The statements after the [switch]. *)
  let go_on (fetched : PolledStatus * bool) : W (option error) :=
    let (polled, statusable) := fetched in
    let status := the_status polled in
    if negb statusable then
      (* Another thread beat us to creating this status! Return here and
         let the other thread handle timelining + notifying. *)
      ret_W None
    else
      (* Update stats for the remote account. *)
      logging_W "error updating account stats"
        (ask (UtilIncrementStatusesCount (acct_ID (fm_Requesting fMsg))
                                         (st_ID status))) ;;;
      (if negb (String.eqb (st_InReplyToID status) "") then
         (* Interaction counts changed on the replied status; uncache the
            prepared version from all timelines. *)
         invalidateStatusFromTimelines (st_InReplyToID status)
       else ret_W tt) ;;;
      logging_W "error timelining and notifying status"
        (ask (SurfaceTimelineAndNotifyStatus (st_ID status))) ;;;
      ret_W None in
  match fm_APObject fMsg with
  | Some object =>
      (* A model was provided, extract this from message. *)
      match object with
      | Statusable uri =>
          (* Call RefreshStatus() to parse and process the provided
             statusable model. *)
          r <- ask_for (FedRefreshStatus (acct_Username (fm_Receiving fMsg)) uri)
                       (fetched_status further) ;;
          match r with
          | Err err =>
              ret_W (Some (ErrWrap ("error processing new status " +:+ uri) err))
          | Ok fetched => go_on fetched
          end
      | _ => ret_W (Some (ErrNew "cannot cast -> ap.Statusable"))
      end
  | None =>
      match fm_APIRI fMsg with
      | Some iri =>
          (* Model was not set, deref with IRI (this is a forward). *)
          r <- ask_for (FedGetStatusByURI (acct_Username (fm_Receiving fMsg)) iri)
                       (fetched_status further) ;;
          match r with
          | Err err =>
              ret_W (Some (ErrWrap ("error dereferencing forwarded status "
                                      +:+ iri) err))
          | Ok fetched => go_on fetched
          end
      | None => ret_W (Some (ErrNew "neither APObjectModel nor APIri set"))
      end
  end.

Definition fediAPI_CreateFollowReq (fMsg : FediMessage) : W (option error) :=
  match fm_GTSModel fMsg with
  | AFollowRequest followRequest =>
      r <- ask (DBPopulateFollowRequest (freq_ID followRequest)) ;;
      match r with
      | Some err => ret_W (Some (ErrWrap "error populating follow request" err))
      | None =>
          if freq_TargetLocked followRequest then
            (* Local account is locked: just notify the follow request. *)
            logging_W "error notifying follow request"
              (notifyFollowRequest followRequest) ;;;
            (* And update stats for the local account. *)
            logging_W "error updating account stats"
              (ask (UtilIncrementFollowRequestsCount
                      (acct_ID (fm_Receiving fMsg)))) ;;;
            ret_W None
          else
            (* Local account is not locked: Automatically accept the
               follow request and notify about the new follower. *)
            r <- ask_for (DBAcceptFollowRequest
                            (freq_AccountID followRequest)
                            (freq_TargetAccountID followRequest))
                         (accepted_follow further) ;;
            match r with
            | Err err =>
                ret_W (Some (ErrWrap "error accepting follow request" err))
            | Ok follow =>
                (* Update stats for the local account. *)
                logging_W "error updating account stats"
                  (ask (UtilIncrementFollowersCount
                          (acct_ID (fm_Receiving fMsg)))) ;;;
                (* Update stats for the remote account. *)
                logging_W "error updating account stats"
                  (ask (UtilIncrementFollowingCount
                          (acct_ID (fm_Requesting fMsg)))) ;;;
                logging_W "error federating follow request accept"
                  (ask (FedAcceptFollow (fol_ID follow))) ;;;
                logging_W "error notifying follow"
                  (lift (notifyFollow follow)) ;;;
                ret_W None
            end
      end
  | _ => ret_W (Some (ErrNew "not parseable as *gtsmodel.FollowRequest"))
  end.

Definition fediAPI_CreateLike (fMsg : FediMessage) : W (option error) :=
  match fm_GTSModel fMsg with
  | AStatusFave fave =>
      (* Ensure fave populated. *)
      r <- lift (Populate (DBPopulateStatusFave (fave_ID fave))) ;;
      match r with
      | Some err => ret_W (Some (ErrWrap "error populating status fave" err))
      | None =>
          logging_W "error notifying fave" (lift (notifyFave fave)) ;;;
          (* Interaction counts changed on the faved status; uncache the
             prepared version from all timelines. *)
          invalidateStatusFromTimelines (fave_StatusID fave) ;;;
          ret_W None
      end
  | _ => ret_W (Some (ErrNew "not parseable as *gtsmodel.StatusFave"))
  end.

Definition fediAPI_CreateAnnounce (fMsg : FediMessage) : W (option error) :=
  match fm_GTSModel fMsg with
  | AStatus polled =>
      (* Dereference status that this boosts. *)
      s <- before_call ;;
      r <- ask_for (FedEnrichAnnounce (st_ID (the_status polled))
                                      (acct_Username (fm_Receiving fMsg)))
                   (enriched_boost further) ;;
      match r with
      | Err err =>
          if unretrievable further (history (inner s)) (journal s) then
            (* Boosted status domain blocked, nothing to do. *)
            ask (LogDebug ("skipping announce: " +:+ error_text err)) ;;;
            ret_W None
          else
            (* Actual error. *)
            ret_W (Some (ErrWrap "error dereferencing announce" err))
      | Ok boost =>
          (* Update stats for the remote account. *)
          logging_W "error updating account stats"
            (ask (UtilIncrementStatusesCount (acct_ID (fm_Requesting fMsg))
                                             (st_ID boost))) ;;;
          (* Timeline and notify the announce. *)
          logging_W "error timelining and notifying status"
            (ask (SurfaceTimelineAndNotifyStatus (st_ID boost))) ;;;
          logging_W "error notifying announce" (lift (notifyAnnounce boost)) ;;;
          (* Interaction counts changed on the original status; uncache
             the prepared version from all timelines. *)
          invalidateStatusFromTimelines (st_BoostOfID boost) ;;;
          ret_W None
      end
  | _ => ret_W (Some (ErrNew "not parseable as *gtsmodel.Status"))
  end.

Definition fediAPI_CreateFlag (fMsg : FediMessage) : W (option error) :=
  match fm_GTSModel fMsg with
  | AReport incomingReport =>
      logging_W "error emailing report opened"
        (ask (EmailAdminReportOpened (rep_ID incomingReport))) ;;;
      ret_W None
  | _ => ret_W (Some (ErrNew "not parseable as *gtsmodel.Report"))
  end.

Definition fediAPI_UpdateAccount (fMsg : FediMessage) : W (option error) :=
  (* Parse the old/existing account model. *)
  match fm_GTSModel fMsg with
  | AnAccount account =>
      (* Because this was an Update, the new Accountable should be set on
         the message. *)
      match fm_APObject fMsg with
      | Some (Accountable _) =>
          (* Fetch up-to-date bio, avatar, header, etc. *)
          logging_W "error refreshing account"
            (ask (FedRefreshAccount (acct_Username (fm_Receiving fMsg))
                                    (acct_ID account))) ;;;
          ret_W None
      | _ => ret_W (Some (ErrNew "cannot cast -> ap.Accountable"))
      end
  | _ => ret_W (Some (ErrNew "cannot cast -> *gtsmodel.Account"))
  end.

Definition fediAPI_AcceptFollow (fMsg : FediMessage) : W (option error) :=
  (* Update stats for the remote account. *)
  logging_W "error updating account stats"
    (ask (UtilDecrementFollowRequestsCount (acct_ID (fm_Requesting fMsg)))) ;;;
  logging_W "error updating account stats"
    (ask (UtilIncrementFollowersCount (acct_ID (fm_Requesting fMsg)))) ;;;
  (* Update stats for the local account. *)
  logging_W "error updating account stats"
    (ask (UtilIncrementFollowingCount (acct_ID (fm_Receiving fMsg)))) ;;;
  ret_W None.

Definition fediAPI_DeleteAccount (fMsg : FediMessage) : W (option error) :=
  match fm_GTSModel fMsg with
  | AnAccount account =>
      purge_all (fedi_account_purges account) ;;;
      (* First perform the actual account deletion. *)
      logging_W "error deleting account"
        (ask (AccountDelete (acct_ID account) (acct_ID account))) ;;;
      ret_W None
  | _ => ret_W (Some (ErrNew "not parseable as *gtsmodel.Account"))
  end.

Local Close Scope wide_scope.

(** *** Properties of the remaining handlers *)

(** No notification lock is held. *)
Definition free (s : Wide) : Prop := held_locks (inner s) = [].

(** Started while no lock is held, the computation returns, with no lock
    held and a result that satisfies [P]. *)
Definition settles {A : Type} (m : W A) (P : A -> Prop) : Prop :=
  forall s, free s -> exists a s', m s = Some (a, s') /\ free s' /\ P a.

(** The same for the computations on the inner world. *)
Definition calm_run {A : Type} (m : M A) : Prop :=
  forall w, held_locks w = [] ->
            exists a w', m w = Some (a, w') /\ held_locks w' = [].

(** The world after [log.Errorf] of the error, if there is one. *)
Definition with_log (msg : string) (r : option error) (w : World) : World :=
  match r with
  | Some err => record_call (LogError (msg +:+ ": " +:+ error_text err)) w
  | None => w
  end.

(** The state after a further call whose failure is only logged. *)
Definition asked_and_logged (msg : string) (c : Call) (s : Wide) : Wide :=
  mkWide (with_log msg (answers further (history (inner s)) (journal s) c)
                 (inner s))
         (journal (record_made c s)).

Definition is_user (m : Model) : bool :=
  match m with AUser _ => true | _ => false end.
Definition is_status (m : Model) : bool :=
  match m with AStatus _ => true | _ => false end.
Definition is_follow_request (m : Model) : bool :=
  match m with AFollowRequest _ => true | _ => false end.
Definition is_fave (m : Model) : bool :=
  match m with AStatusFave _ => true | _ => false end.
Definition is_block (m : Model) : bool :=
  match m with ABlock _ => true | _ => false end.
Definition is_account (m : Model) : bool :=
  match m with AnAccount _ => true | _ => false end.
Definition is_report (m : Model) : bool :=
  match m with AReport _ => true | _ => false end.
Definition is_follow (m : Model) : bool :=
  match m with AFollow _ => true | _ => false end.
Definition is_denied_user (m : Model) : bool :=
  match m with ADeniedUser _ => true | _ => false end.
Definition is_accountable (o : option APObject) : bool :=
  match o with Some (Accountable _) => true | _ => false end.

(** A handler whose side effects are all best effort: given the model
    it expects it returns nil whatever fails, and given anything else it
    returns a cast error without having called anything. *)
Definition best_effort {Msg : Type} (handler : Msg -> W (option error))
    (expected : Msg -> bool) : Prop :=
  forall msg,
    if expected msg then settles (handler msg) (fun r => r = None)
    else forall s, exists text, handler msg s = Some (Some (ErrNew text), s).

Definition client_best_effort
  : list ((ClientMessage -> W (option error)) * (ClientMessage -> bool)) :=
  [ (clientAPI_CreateAccount, fun m => is_user (cm_GTSModel m));
    (clientAPI_CreateStatus, fun m => is_status (cm_GTSModel m));
    (clientAPI_CreateFollowReq, fun m => is_follow_request (cm_GTSModel m));
    (clientAPI_CreateAnnounce, fun m => is_status (cm_GTSModel m));
    (clientAPI_UpdateStatus, fun m => is_status (cm_GTSModel m));
    (clientAPI_UpdateAccount, fun m => is_account (cm_GTSModel m));
    (clientAPI_UpdateReport, fun m => is_report (cm_GTSModel m));
    (clientAPI_AcceptFollow, fun m => is_follow (cm_GTSModel m));
    (clientAPI_RejectFollowRequest,
       fun m => is_follow_request (cm_GTSModel m));
    (clientAPI_UndoFollow, fun m => is_follow (cm_GTSModel m));
    (clientAPI_UndoBlock, fun m => is_block (cm_GTSModel m));
    (clientAPI_UndoFave, fun m => is_fave (cm_GTSModel m));
    (clientAPI_DeleteAccount, fun _ => true);
    (clientAPI_ReportAccount, fun m => is_report (cm_GTSModel m));
    (clientAPI_RejectAccount, fun m => is_denied_user (cm_GTSModel m)) ].

Definition fedi_best_effort
  : list ((FediMessage -> W (option error)) * (FediMessage -> bool)) :=
  [ (fediAPI_CreateFlag, fun m => is_report (fm_GTSModel m));
    (fediAPI_UpdateAccount,
       fun m => is_account (fm_GTSModel m) && is_accountable (fm_APObject m));
    (fediAPI_AcceptFollow, fun _ => true);
    (fediAPI_DeleteAccount, fun m => is_account (fm_GTSModel m)) ].

(** The origin recorded for a client-origin account deletion. *)
Definition delete_origin (cMsg : ClientMessage) : string :=
  match cm_GTSModel cMsg with
  | ADomainBlock domainBlock => dom_ID domainBlock
  | _ => acct_ID (cm_Origin cMsg)
  end.

(** No two stored notifications have the same (type, target, origin,
    status). *)
Definition no_duplicates (ns : list Notification) : Prop :=
  forall k, count_key k ns <= 1.

(** Whatever the computation does, it only puts rows that satisfy [ok]
    in front of the notifications table, and it creates no duplicate. *)
Definition adds_rows {A : Type} (ok : Notification -> Prop) (m : W A) : Prop :=
  forall s a s',
    m s = Some (a, s') ->
    (exists extra,
        notifications (inner s') = extra ++ notifications (inner s)
        /\ Forall ok extra)
    /\ (no_duplicates (notifications (inner s)) ->
        no_duplicates (notifications (inner s'))).

Definition sample_More : More :=
  mkMore (fun _ _ _ => None) (fun _ _ => []) (fun _ _ => [alice])
         (fun _ _ => mkFollow "01FOLLOW" "01BOB" bob "01ALICE" alice)
         (fun _ _ => (mkPolled sample_status "" None, true))
         (fun _ _ => sample_status) (fun _ _ => false).

Definition empty_wide : Wide := mkWide empty_world [].

(** Rows with the key [k] are rows that [ok] accepts. *)
Definition ok_key (ok : Notification -> Prop) (k : NotifKey) : Prop :=
  forall n, key_of n = k -> ok n.

(** The notifications the three reactions are entitled to store. *)
Definition about_follow_request (followReq : FollowRequest)
    (n : Notification) : Prop :=
  key_of n = mkKey NotificationFollowRequest
                   (acct_ID (freq_TargetAccount followReq))
                   (acct_ID (freq_Account followReq)) "".

Definition about_poll (status : Status) (n : Notification) : Prop :=
  notif_Type n = NotificationPoll
  /\ notif_OriginAccountID n = acct_ID (st_Account status)
  /\ notif_StatusID n = st_ID status.

Definition about_signup (newUser : User) (n : Notification) : Prop :=
  notif_Type n = Timeline.NotificationSignup
  /\ notif_OriginAccountID n = acct_ID (user_Account newUser)
  /\ notif_StatusID n = "".

(** Bob asks to follow Alice, whose account is locked. *)
Definition request_to_locked_alice : FollowRequest :=
  mkFollowRequest "01REQUEST" "01BOB" remote_bob "01ALICE" alice true.

Definition follow_request_from_fedi : FediMessage :=
  mkFediMessage (AFollowRequest request_to_locked_alice) None None
                remote_bob alice.

Definition vote_from_client : ClientMessage :=
  mkClientMessage (APollVote remote_vote) alice remote_bob.

Definition signup_from_client : ClientMessage :=
  mkClientMessage (AUser (mkUser "01USER" bob)) bob bob.

(** ** Theorems *)

(** *** Strings *)

Lemma prefix_append (x rest : string) : String.prefix x (x +:+ rest) = true.
Proof.
  induction x as [|c x IH]; simpl.
  - now destruct rest.
  - destruct (Ascii.ascii_dec c c) as [_|N]; [exact IH | now elim N].
Qed.

Lemma occurs_in_unfold (needle hay : string) :
  occurs_in needle hay
  = String.prefix needle hay
    || match hay with
       | EmptyString => false
       | String _ rest => occurs_in needle rest
       end.
Proof. destruct hay; reflexivity. Qed.

Lemma occurs_in_append (pre x post : string) :
  occurs_in x (pre +:+ x +:+ post) = true.
Proof.
  induction pre as [|c pre IH].
  - change ("" +:+ x +:+ post) with (x +:+ post).
    rewrite occurs_in_unfold, prefix_append. reflexivity.
  - rewrite occurs_in_unfold. simpl. rewrite IH. apply orb_true_r.
Qed.

Lemma append_assoc (p q r : string) : (p +:+ q) +:+ r = p +:+ q +:+ r.
Proof. induction p as [|c p IH]; simpl; [reflexivity | f_equal; apply IH]. Qed.

Lemma occurs_in_end (pre x : string) : occurs_in x (pre +:+ x) = true.
Proof.
  assert (H : x = x +:+ "").
  { clear. induction x as [|c x IH]; simpl; [reflexivity | f_equal; exact IH]. }
  rewrite H at 2. apply occurs_in_append.
Qed.

Lemma occurs_in_last (p a s o : string) :
  occurs_in o (p +:+ a +:+ s +:+ o) = true.
Proof.
  rewrite <- (append_assoc a s o), <- (append_assoc p (a +:+ s) o).
  apply occurs_in_end.
Qed.

Ltac case_eqb :=
  repeat match goal with
    | |- context [String.eqb ?x ?y] =>
        destruct (String.eqb_spec x y); subst; simpl in *; try discriminate
    | H : context [String.eqb ?x ?y] |- _ =>
        destruct (String.eqb_spec x y); subst; simpl in *; try discriminate
    end.

(** C2. An envelope whose (activity type, object type) pair has no case
    in the switch of its entry point makes that entry point return the
    error "unhandled: <activity> <object>", which names both fields; this
    holds whatever the handlers are, so no handler ran: the only call made
    is the entry log line. *)
Theorem C2_unregistered_pair_is_reported
    (pc : ClientHandlers) (pf : FediHandlers) (e : Envelope) (w : World) :
  registered e = false ->
  Process pc pf e w
    = Some (Some (unhandled (activity_type e) (object_type e)),
            record_call (entry_log e) w)
  /\ error_text (unhandled (activity_type e) (object_type e))
     = "unhandled: " +:+ activity_type e +:+ " " +:+ object_type e
  /\ occurs_in (activity_type e)
       (error_text (unhandled (activity_type e) (object_type e))) = true
  /\ occurs_in (object_type e)
       (error_text (unhandled (activity_type e) (object_type e))) = true.
Proof.
  intros Hreg. split; [| split; [reflexivity | split]].
  - destruct e as [m | m]; simpl in *;
      unfold ProcessFromClientAPI, ProcessFromFediAPI, bind, emit, ret;
      unfold has_pair, client_registered, fedi_registered, pair_eqb in Hreg;
      unfold ActivityCreate, ActivityUpdate, ActivityAccept, ActivityReject,
        ActivityUndo, ActivityDelete, ActivityFlag, ActivityMove,
        ActivityFollow, ActivityLike, ActivityAnnounce, ActivityBlock,
        ActivityQuestion, ObjectNote, ObjectProfile, ActorPerson in *;
      simpl in Hreg.
    + destruct m as [a o g org tgt]; simpl in *. case_eqb; reflexivity.
    + destruct m as [a o g org tgt]; simpl in *. case_eqb; reflexivity.
  - exact (occurs_in_append "unhandled: " (activity_type e)
                            (" " +:+ object_type e)).
  - exact (occurs_in_last "unhandled: " (activity_type e) " " (object_type e)).
Qed.

(** *** Histories *)

Lemma called_before_nil (a b : Event) : called_before a b [].
Proof. intros [|x newer] older H; discriminate H. Qed.

Lemma called_before_skip (a b e : Event) (l : list Event) :
  e <> b -> called_before a b l -> called_before a b (e :: l).
Proof.
  intros Hne Hl [|x newer] older H; simpl in H.
  - injection H as -> _. now elim Hne.
  - injection H as _ H. now apply (Hl newer older).
Qed.

Lemma called_before_hit (a b : Event) (l : list Event) :
  In a l -> called_before a b l -> called_before a b (b :: l).
Proof.
  intros Hin Hl [|x newer] older H; simpl in H.
  - injection H as <-. exact Hin.
  - injection H as _ H. now apply (Hl newer older).
Qed.

Lemma added_none (h : list Event) : h = [] ++ h.
Proof. reflexivity. Qed.

Lemma added_one (e : Event) (l added h : list Event) :
  l = added ++ h -> e :: l = (e :: added) ++ h.
Proof. intros ->. reflexivity. Qed.

Ltac added := simpl; repeat apply added_one; apply added_none.

Ltac order :=
  repeat first
    [ apply called_before_nil
    | apply called_before_skip; [discriminate |]
    | apply called_before_hit; [simpl; tauto |] ].

Ltac unfold_worker :=
  cbv beta iota zeta delta
    [bind ret emit logging log_Errorf call_ call Populate real_error
     WipeItems DeleteFollow DeleteFollowRequest UpdateMove panic blocked].

Ltac ask_env :=
  repeat match goal with
    | |- context [fails env ?h ?e] =>
        let F := fresh "F" in destruct (fails env h e) eqn:F; simpl
    | |- context [no_rows env ?h ?e] =>
        let F := fresh "R" in destruct (no_rows env h e) eqn:F; simpl
    end.


Ltac wipe_is_late status :=
  let Hin := fresh "Hin" in
  intros ? ? Hin; simpl in Hin;
  repeat (destruct Hin as [Hin | Hin]; try discriminate Hin);
  try contradiction;
  injection Hin as <- <-;
  exists status; (split; [reflexivity |]); (split; [reflexivity |]);
  repeat constructor; order.

Ltac wipe_was_called status :=
  let Hr := fresh "Hr" in
  intros Hr; try discriminate Hr;
  exists status; (split; [reflexivity | simpl; tauto]).

(** C3. In a Delete Status handler, client-origin or federation-origin,
    each of the four queue purges (delivery queue by ObjectID and by
    TargetID, client queue by TargetURI, federator queue by TargetURI, all
    on the status's URI) is called before [wipeStatus]; the handler always
    returns, and whenever it returns success it did call [wipeStatus]. *)
Theorem C3_purges_before_wipe
    (cMsg : FromClientAPI) (fMsg : FromFediAPI) (w : World) :
  (exists r w' added,
      clientAPI_DeleteStatus cMsg w = Some (r, w')
      /\ history w' = added ++ history w
      /\ purges_precede_wipe (c_GTSModel cMsg) added
      /\ (r = None -> exists status,
             c_GTSModel cMsg = ModelStatus status
             /\ In (UtilWipeStatus (st_ID status) false) added))
  /\ (exists r w' added,
      fediAPI_DeleteStatus fMsg w = Some (r, w')
      /\ history w' = added ++ history w
      /\ purges_precede_wipe (f_GTSModel fMsg) added
      /\ (r = None -> exists status,
             f_GTSModel fMsg = ModelStatus status
             /\ In (UtilWipeStatus (st_ID status) true) added)).
Proof.
  split.
  - unfold clientAPI_DeleteStatus.
    destruct (c_GTSModel cMsg) as [|status| | | | |];
      try (eexists _, _, []; repeat split; [ intros ? ? [] | discriminate ]).
    unfold_worker.
    ask_env;
      destruct (String.eqb (st_InReplyToID status) ""); simpl; ask_env;
      (eexists _, _, _; split; [reflexivity |];
       split; [added |]);
      (split; [ wipe_is_late status | wipe_was_called status ]).
  - unfold fediAPI_DeleteStatus.
    destruct (f_GTSModel fMsg) as [|status| | | | |];
      try (eexists _, _, []; repeat split; [ intros ? ? [] | discriminate ]).
    unfold_worker.
    ask_env;
      destruct (String.eqb (st_InReplyToID status) ""); simpl; ask_env;
      (eexists _, _, _; split; [reflexivity |];
       split; [added |]);
      (split; [ wipe_is_late status | wipe_was_called status ]).
Qed.

(** *** Locating a call in a history *)

Lemma at_nil (e : Event) (newer older : list Event) :
  [] = newer ++ e :: older -> False.
Proof. destruct newer; discriminate. Qed.

Lemma at_cons (x e : Event) (l newer older : list Event) :
  x :: l = newer ++ e :: older ->
  (newer = [] /\ x = e /\ l = older)
  \/ (exists newer', newer = x :: newer' /\ l = newer' ++ e :: older).
Proof.
  destruct newer as [|y newer]; simpl; intros H; injection H as -> ->.
  - left. auto.
  - right. eauto.
Qed.

Lemma cut_history (h l newer older added : list Event) (e : Event) :
  l = newer ++ e :: older ++ h ->
  l = added ++ h ->
  added = newer ++ e :: older.
Proof.
  intros -> H. apply (app_inv_tail h).
  rewrite <- H, <- app_assoc. reflexivity.
Qed.

Ltac ask_env_in H :=
  repeat match type of H with
    | context [fails env ?h ?e] =>
        let F := fresh "F" in destruct (fails env h e) eqn:F; simpl in H
    | context [no_rows env ?h ?e] =>
        let F := fresh "R" in destruct (no_rows env h e) eqn:F; simpl in H
    end.

(** Finds where the call sits among the calls a run added ([Hhist] is the
    history after the run, split at the call). *)
Ltac scan H :=
  repeat (apply at_cons in H;
          let Hn := fresh "Hn" in
          let Ho := fresh "Ho" in
          destruct H as [(Hn & H & Ho) | (? & Hn & H)];
          [ try discriminate H; try (subst; clear H) | subst ]);
  try (apply at_nil in H; contradiction).

Ltac locate Hhist :=
  simpl in Hhist;
  match type of Hhist with
  | ?l = ?newer ++ ?e :: ?older ++ ?h =>
      let a := fresh "a" in
      let Ha := fresh "Ha" in
      evar (a : list Event);
      assert (Ha : l = a ++ h) by (subst a; added);
      subst a;
      apply (cut_history h l newer older _ e Hhist) in Ha;
      clear Hhist; scan Ha
  end.

(** C4 (as the code has it). When the primary effect of the
    federation-origin Create PollVote handler, storing the vote, fails,
    the handler aborts: it calls nothing further and returns an error
    caused by that failure.  In both Delete Status handlers a failure of
    [wipeStatus] is logged ("error wiping status"), the handler carries on
    with the statuses counter and returns success. *)
Theorem C4_primary_failure_policy :
  aborts_when_primary_fails fediAPI_CreatePollVote put_vote_of
  /\ logs_and_continues clientAPI_DeleteStatus wipe_of_client
       "error wiping status"
       (fun m => UtilDecrementStatusesCount (acct_ID (c_Origin m)))
  /\ logs_and_continues fediAPI_DeleteStatus wipe_of_fedi
       "error wiping status"
       (fun m => UtilDecrementStatusesCount (acct_ID (f_Requesting m))).
Proof.
  split; [| split].
  - intros msg w r w' e newer before why Hrun Hprim Hhist Hbefore Hfail.
    unfold fediAPI_CreatePollVote in Hrun. unfold put_vote_of in Hprim.
    destruct (f_GTSModel msg) as [| | | | |vote|]; try discriminate Hprim.
    injection Hprim as <-.
    revert Hrun. unfold_worker. intros Hrun.
    ask_env_in Hrun.
    all: try (destruct (st_Local (vote_PollStatus vote)); simpl in Hrun;
              ask_env_in Hrun).
    all: injection Hrun as <- <-; destruct Hbefore as [older ->].
    all: locate Hhist; simpl in Hfail; try congruence.
    all: split; [reflexivity | eexists; split; [reflexivity | simpl; congruence]].
  - intros msg w r w' e newer before why Hrun Hprim Hhist Hbefore Hfail.
    unfold clientAPI_DeleteStatus in Hrun. unfold wipe_of_client in Hprim.
    destruct (c_GTSModel msg) as [|status| | | | |]; try discriminate Hprim.
    injection Hprim as <-.
    revert Hrun. unfold_worker. intros Hrun.
    ask_env_in Hrun.
    all: destruct (String.eqb (st_InReplyToID status) ""); simpl in Hrun;
      ask_env_in Hrun.
    all: injection Hrun as <- <-; destruct Hbefore as [older ->].
    all: locate Hhist; simpl in Hfail; try congruence.
    all: assert (s = why) by congruence; subst.
    all: repeat split; simpl; auto 20.
  - intros msg w r w' e newer before why Hrun Hprim Hhist Hbefore Hfail.
    unfold fediAPI_DeleteStatus in Hrun. unfold wipe_of_fedi in Hprim.
    destruct (f_GTSModel msg) as [|status| | | | |]; try discriminate Hprim.
    injection Hprim as <-.
    revert Hrun. unfold_worker. intros Hrun.
    ask_env_in Hrun.
    all: destruct (String.eqb (st_InReplyToID status) ""); simpl in Hrun;
      ask_env_in Hrun.
    all: injection Hrun as <- <-; destruct Hbefore as [older ->].
    all: locate Hhist; simpl in Hfail; try congruence.
    all: assert (s = why) by congruence; subst.
    all: repeat split; simpl; auto 20.
Qed.

(** *** Pairs *)

Lemma pair_eqb_refl (p : string * string) : pair_eqb p p = true.
Proof. unfold pair_eqb. now rewrite !String.eqb_refl. Qed.




(** *** A logged call *)




(** C8. In the client-origin Move Account handler, [SucceededAt] is
    written (in memory and, through [UpdateMove], in storage) only right
    after a federation [MoveAccount] send that succeeded; when the send
    fails the handler stops there and returns an error caused by that
    failure, with the move unchanged in memory and in storage.  And it is
    written then: once the move is populated the send is made, and when
    the send succeeds [SucceededAt] is set to [AttemptedAt] in memory and
    [UpdateMove] is called next; if that update succeeds the stored move
    carries the new [SucceededAt] and the handler returns nil, and if it
    fails the handler returns the wrapped error and storage is as it
    was. *)
Theorem C8_succeeded_at_only_after_send
    (cMsg : FromClientAPI) (move : Move) (w : World) :
  acct_Move (c_Origin cMsg) = Some move ->
  let send := FedMoveAccount (acct_ID (c_Origin cMsg)) in
  let update := DBUpdateMove (move_ID move) "succeeded_at" in
  exists move' r w' added,
    clientAPI_MoveAccount_mem cMsg w = Some ((move', r), w')
    /\ history w' = added ++ history w
    /\ (SucceededAt move' <> SucceededAt move
        \/ moves w' <> moves w
        \/ In update added ->
        exists older,
          added = update :: send :: older
          /\ fails env (older ++ history w) send = None)
    /\ (forall newer older why,
          added = newer ++ send :: older ->
          fails env (older ++ history w) send = Some why ->
          newer = []
          /\ (exists err, r = Some err /\ root_cause err = ErrFault why)
          /\ move' = move
          /\ moves w' = moves w)
    /\ let redirect := UtilRedirectFollowers (acct_ID (c_Origin cMsg))
                                             (acct_ID (c_Target cMsg)) in
       let populate := DBPopulateMove (move_ID move) in
       let before_send := populate :: redirect :: history w in
       match fails env (redirect :: history w) populate,
             no_rows env (redirect :: history w) populate with
       | None, false =>
           In send added
           /\ match fails env before_send send with
              | Some why => True
              | None =>
                  move' = mkMove (move_ID move) (AttemptedAt move)
                                 (AttemptedAt move)
                  /\ added = [update; send; populate; redirect]
                  /\ match fails env (send :: before_send) update with
                     | Some why =>
                         r = Some (ErrWrap "error marking move as successful"
                                           (ErrFault why))
                         /\ moves w' = moves w
                     | None =>
                         r = None
                         /\ moves w'
                            = map (fun row =>
                                     if String.eqb (move_ID row) (move_ID move)
                                     then mkMove (move_ID row) (AttemptedAt row)
                                                 (AttemptedAt move)
                                     else row)
                                  (moves w)
                     end
              end
       | _, _ =>
           (exists err, r = Some (ErrWrap "error populating Move" err))
           /\ added = [populate; redirect]
           /\ move' = move
           /\ moves w' = moves w
       end.
Proof.
  intros Hmove send update. subst send update. cbv zeta.
  unfold clientAPI_MoveAccount_mem. rewrite Hmove. unfold_worker.
  cbn [history record_call].
  ask_env.
  all: cbn [history record_call set_moves moves SucceededAt move_ID] in *.
  all: try congruence.
  all: eexists _, _, _, _; split; [reflexivity |]; split; [added |].
  all: split;
    [ intros [H | [H | H]];
      try (now elim H);
      try (simpl in H;
           repeat (destruct H as [H | H]; try discriminate H);
           contradiction);
      try (eexists; split; [reflexivity | simpl; assumption])
    | split;
      [ intros newer older why Hadd Hfail;
        scan Hadd; simpl in Hfail; try congruence;
        repeat split; try reflexivity;
        (eexists; split; [reflexivity | simpl; congruence])
      | ] ].
  all: repeat match goal with
         | H : fails env ?h ?e = _ |- context [fails env ?h ?e] => rewrite H
         | H : no_rows env ?h ?e = _ |- context [no_rows env ?h ?e] => rewrite H
         end.
  all: try (split; [eexists; reflexivity |]; repeat split; reflexivity).
  all: try (split; [simpl; tauto | exact I]).
  all: split; [simpl; tauto |]; split; [reflexivity |].
  all: split; [reflexivity |]; split; [congruence | reflexivity].
Qed.

(** *** Keys, counts and locks *)

Lemma key_eqb_eq (a b : NotifKey) : key_eqb a b = true <-> a = b.
Proof.
  destruct a as [a1 a2 a3 a4], b as [b1 b2 b3 b4]; unfold key_eqb; simpl.
  rewrite !andb_true_iff, !String.eqb_eq. split.
  - intros [[[-> ->] ->] ->]. reflexivity.
  - intros H. injection H as -> -> -> ->. auto.
Qed.

Lemma has_key_iff (k : NotifKey) (n : Notification) :
  has_key k n = true <-> key_of n = k.
Proof. unfold has_key. rewrite key_eqb_eq. split; congruence. Qed.

Lemma has_key_other (k : NotifKey) (n : Notification) :
  key_of n <> k -> has_key k n = false.
Proof.
  intros H. destruct (has_key k n) eqn:E; [| reflexivity].
  apply has_key_iff in E. contradiction.
Qed.

Lemma count_key_cons (k : NotifKey) (n : Notification) (ns : list Notification) :
  count_key k (n :: ns)
  = (if has_key k n then 1 else 0) + count_key k ns.
Proof. unfold count_key. simpl. now destruct (has_key k n). Qed.

Lemma find_none_count (k : NotifKey) (ns : list Notification) :
  List.find (has_key k) ns = None <-> count_key k ns = 0.
Proof.
  induction ns as [|n ns IH]; [easy |].
  rewrite count_key_cons. simpl. destruct (has_key k n); simpl.
  - split; discriminate.
  - exact IH.
Qed.

Lemma find_some_count (k : NotifKey) (ns : list Notification) (n : Notification) :
  List.find (has_key k) ns = Some n -> 0 < count_key k ns.
Proof.
  intros H. destruct (count_key k ns) eqn:E; [| lia].
  apply find_none_count in E. congruence.
Qed.

Lemma is_held_head (u : string) (l : list string) : is_held u (u :: l) = true.
Proof. unfold is_held. simpl. now rewrite String.eqb_refl. Qed.

Lemma is_held_tail (u v : string) (l : list string) :
  is_held v l = true -> is_held v (u :: l) = true.
Proof. unfold is_held. simpl. intros ->. apply orb_true_r. Qed.

Lemma is_held_release (u v : string) (l : list string) :
  u <> v -> is_held v (release u l) = is_held v l.
Proof.
  intros Hne. unfold is_held, release.
  induction l as [|x l IH]; simpl; [reflexivity |].
  destruct (String.eqb_spec u x) as [<- | Hux]; simpl.
  - rewrite IH. destruct (String.eqb_spec v u); [congruence | reflexivity].
  - now rewrite IH.
Qed.

Lemma release_free (u : string) (l : list string) :
  is_held u l = false -> release u l = l.
Proof.
  unfold is_held, release.
  induction l as [|x l IH]; simpl; [reflexivity |].
  intros H. apply orb_false_iff in H as [Hx Hl].
  rewrite Hx. simpl. now rewrite IH.
Qed.

Lemma release_head (u : string) (l : list string) :
  is_held u l = false -> release u (u :: l) = l.
Proof.
  intros H. unfold release. simpl. rewrite String.eqb_refl. simpl.
  now apply release_free.
Qed.

(** *** One statement of Notify *)

Ltac unfold_notify :=
  cbv beta iota zeta delta
    [notify_step return_unlocking Unlock GetNotification PutNotification
     bind ret emit call_ call].

Lemma notify_step_effect (a : NotifyArgs) (pc pc' : NotifyPC) (w w' : World) :
  notify_step a pc w = Some (pc', w') -> notify_effect a pc w pc' w'.
Proof.
  destruct pc; unfold_notify.
  - (* AtEntry *)
    destruct (IsRemote (arg_target a)).
    + intros H. injection H as <- <-. now apply eff_idle.
    + destruct (is_held (lock_of a) (held_locks w)) eqn:E; [discriminate |].
      intros H. injection H as <- <-. now apply eff_acquire.
  - (* HoldingLock *)
    destruct (fails env (history w) (DBGetNotification (db_key a))).
    + simpl. intros H. injection H as <- <-. now apply eff_release.
    + destruct (List.find (has_key (db_key a)) (notifications w)) eqn:E.
      * intros H. injection H as <- <-. now apply eff_release.
      * simpl. intros H. injection H as <- <-. now apply eff_absent.
  - (* MustCreate *)
    destruct (fails env (history w) _).
    + intros H. injection H as <- <-. now apply eff_release.
    + intros H. injection H as <- <-. now apply eff_create.
  - (* Persisted *)
    intros H. injection H as <- <-. now apply eff_release.
  - (* Released *)
    destruct (fails env (history w) _);
      intros H; injection H as <- <-; now apply eff_idle.
  - (* HaveFilters *)
    destruct (fails env (history w) _);
      intros H; injection H as <- <-; now apply eff_idle.
  - (* Converted *)
    intros H. injection H as <- <-. now apply eff_idle.
  - (* Returned *)
    intros H. injection H as <- <-. now apply eff_idle.
Qed.

(** *** Notify, one statement at a time *)

Lemma notify_from_returned (fuel : nat) (a : NotifyArgs) (r : option error)
    (w : World) :
  notify_from fuel a (Returned r) w = Some (r, w).
Proof. destruct fuel; reflexivity. Qed.

Lemma notify_from_next (fuel : nat) (a : NotifyArgs) (pc : NotifyPC) (w : World) :
  is_returned pc = false ->
  notify_from (S fuel) a pc w
  = match notify_step a pc w with
    | Some (pc', w') => notify_from fuel a pc' w'
    | None => None
    end.
Proof. destruct pc; intros H; try discriminate H; reflexivity. Qed.

Lemma step_entry_remote (a : NotifyArgs) (w : World) :
  IsRemote (arg_target a) = true ->
  notify_step a AtEntry w = Some (Returned None, w).
Proof. intros H. simpl. now rewrite H. Qed.

Lemma step_entry_free (a : NotifyArgs) (w : World) :
  IsRemote (arg_target a) = false ->
  is_held (lock_of a) (held_locks w) = false ->
  notify_step a AtEntry w = Some (HoldingLock, after_lock a w).
Proof. intros H1 H2. simpl. now rewrite H1, H2. Qed.

Lemma step_lookup_found (a : NotifyArgs) (old : Notification) (w : World) :
  fails env (history w) (DBGetNotification (db_key a)) = None ->
  List.find (has_key (db_key a)) (notifications w) = Some old ->
  notify_step a HoldingLock w
  = Some (Returned None,
          after_unlock a (record_call (DBGetNotification (db_key a)) w)).
Proof. intros H1 H2. unfold_notify. now rewrite H1, H2. Qed.

Lemma step_lookup_absent (a : NotifyArgs) (w : World) :
  fails env (history w) (DBGetNotification (db_key a)) = None ->
  List.find (has_key (db_key a)) (notifications w) = None ->
  notify_step a HoldingLock w
  = Some (MustCreate, record_call (DBGetNotification (db_key a)) w).
Proof. intros H1 H2. unfold_notify. now rewrite H1, H2. Qed.

Lemma step_create_stored (a : NotifyArgs) (w : World) :
  fails env (history w) (DBPutNotification (new_notification a w)) = None ->
  notify_step a MustCreate w
  = Some (Persisted (new_notification a w),
          set_notifications (new_notification a w :: notifications w)
            (record_call (DBPutNotification (new_notification a w)) w)).
Proof. intros H. unfold_notify. fold (new_notification a w). now rewrite H. Qed.

Lemma step_unlock (a : NotifyArgs) (n : Notification) (w : World) :
  notify_step a (Persisted n) w = Some (Released n, after_unlock a w).
Proof. reflexivity. Qed.

Lemma step_filters (a : NotifyArgs) (n : Notification) (w : World) :
  notify_step a (Released n) w
  = Some (match fails env (history w)
                  (DBGetFiltersForAccountID (acct_ID (arg_target a))) with
          | Some why =>
              Returned (Some (ErrWrap
                 ("couldn't retrieve filters for account "
                    +:+ acct_ID (arg_target a)) (ErrFault why)))
          | None => HaveFilters n
          end,
          record_call (DBGetFiltersForAccountID (acct_ID (arg_target a))) w).
Proof. unfold_notify. now destruct (fails env _ _). Qed.

Lemma step_convert (a : NotifyArgs) (n : Notification) (w : World) :
  notify_step a (HaveFilters n) w
  = Some (match fails env (history w) (ConvNotificationToAPI (notif_ID n)) with
          | Some why =>
              Returned (Some (ErrWrap
                 "error converting notification to api representation"
                 (ErrFault why)))
          | None => Converted n
          end,
          record_call (ConvNotificationToAPI (notif_ID n)) w).
Proof. unfold_notify. now destruct (fails env _ _). Qed.

Lemma step_stream (a : NotifyArgs) (n : Notification) (w : World) :
  notify_step a (Converted n) w
  = Some (Returned None,
          record_call (StreamNotify (acct_ID (arg_target a)) (notif_ID n)) w).
Proof. reflexivity. Qed.

(** *** The pool invariant *)

Lemma pool_lookup_after (pool : Pool) (i j : nat) (a : NotifyArgs)
    (pc pc' : NotifyPC) (x : NotifyArgs * NotifyPC) :
  pool !! i = Some (a, pc) ->
  <[i := (a, pc')]> pool !! j = Some x ->
  (j = i /\ x = (a, pc')) \/ (j <> i /\ pool !! j = Some x).
Proof.
  intros Hi Hj.
  apply list_lookup_insert_Some in Hj as [(E & <- & _) | (Hne & Hj)].
  - left. auto.
  - right. auto.
Qed.

Lemma pool_step_inv (calls : list NotifyArgs) (k : NotifKey)
    (σ : Pool * World) (i : nat) :
  same_key_same_lock calls ->
  pool_inv calls k σ -> pool_inv calls k (pool_step σ i).
Proof.
  intros Hlocks Hinv. unfold pool_step.
  destruct (fst σ !! i) as [[a pc] |] eqn:Hi; [| exact Hinv].
  destruct (notify_step a pc (snd σ)) as [[pc' w'] |] eqn:Hstep;
    [| exact Hinv].
  apply notify_step_effect in Hstep.
  destruct σ as [pool w]. simpl in *.
  destruct Hinv as [Huniq Hargs Hheld Hexcl Habsent]. simpl in *.
  assert (Hargs' : forall j b pcb,
             <[i := (a, pc')]> pool !! j = Some (b, pcb) -> In b calls).
  { intros j b pcb Hj.
    destruct (pool_lookup_after _ _ _ _ _ _ _ Hi Hj) as [[_ E] | [_ Hold]].
    - injection E as -> _. eauto.
    - eauto. }
  inversion Hstep as
      [w0 w1 Hfree Hl Hn
      | pc0 w0 pc1 w1 Hpc Hpc' Hl Hn
      | w0 w1 Hfind Hl Hn
      | w0 n w1 Hkey Hl Hn
      | pc0 w0 pc1 w1 Hpc Hpc' Hl Hn]; subst; simpl.
  - (* the call takes its lock *)
    constructor; simpl; rewrite ?Hl, ?Hn; auto.
    + intros j b pcb Hj Hb.
      destruct (pool_lookup_after _ _ _ _ _ _ _ Hi Hj) as [[_ E] | [_ Hold]].
      * injection E as -> _. apply is_held_head.
      * apply is_held_tail. eauto.
    + intros j1 j2 b1 p1 b2 p2 Hne H1 H2 Hp1 Hp2 Heq.
      destruct (pool_lookup_after _ _ _ _ _ _ _ Hi H1) as [[-> E1] | [N1 O1]];
        destruct (pool_lookup_after _ _ _ _ _ _ _ Hi H2) as [[-> E2] | [N2 O2]].
      * congruence.
      * injection E1 as -> _.
        pose proof (Hheld _ _ _ O2 Hp2) as Hh. rewrite <- Heq in Hh. congruence.
      * injection E2 as -> _.
        pose proof (Hheld _ _ _ O1 Hp1) as Hh. rewrite Heq in Hh. congruence.
      * exact (Hexcl _ _ _ _ _ _ Hne O1 O2 Hp1 Hp2 Heq).
    + intros j b Hj Hk.
      destruct (pool_lookup_after _ _ _ _ _ _ _ Hi Hj) as [[_ E] | [_ Hold]].
      * discriminate E.
      * eauto.
  - (* the call gives its lock back *)
    constructor; simpl; rewrite ?Hl, ?Hn; auto.
    + intros j b pcb Hj Hb.
      destruct (pool_lookup_after _ _ _ _ _ _ _ Hi Hj) as [[_ E] | [N Hold]].
      * injection E as _ <-. congruence.
      * rewrite is_held_release; [eauto |].
        exact (Hexcl i j _ _ _ _ (not_eq_sym N) Hi Hold Hpc Hb).
    + intros j1 j2 b1 p1 b2 p2 Hne H1 H2 Hp1 Hp2.
      destruct (pool_lookup_after _ _ _ _ _ _ _ Hi H1) as [[-> E1] | [N1 O1]];
        destruct (pool_lookup_after _ _ _ _ _ _ _ Hi H2) as [[-> E2] | [N2 O2]].
      * congruence.
      * injection E1 as _ <-. congruence.
      * injection E2 as _ <-. congruence.
      * exact (Hexcl _ _ _ _ _ _ Hne O1 O2 Hp1 Hp2).
    + intros j b Hj Hk.
      destruct (pool_lookup_after _ _ _ _ _ _ _ Hi Hj) as [[_ E] | [_ Hold]].
      * injection E as _ <-. discriminate Hpc'.
      * eauto.
  - (* the lookup found no entries *)
    constructor; simpl; rewrite ?Hl, ?Hn; auto.
    + intros j b pcb Hj Hb.
      destruct (pool_lookup_after _ _ _ _ _ _ _ Hi Hj) as [[_ E] | [_ Hold]].
      * injection E as -> _. exact (Hheld _ _ _ Hi eq_refl).
      * eauto.
    + intros j1 j2 b1 p1 b2 p2 Hne H1 H2 Hp1 Hp2.
      destruct (pool_lookup_after _ _ _ _ _ _ _ Hi H1) as [[-> E1] | [N1 O1]];
        destruct (pool_lookup_after _ _ _ _ _ _ _ Hi H2) as [[-> E2] | [N2 O2]].
      * congruence.
      * injection E1 as -> _.
        exact (Hexcl _ _ _ _ _ _ Hne Hi O2 eq_refl Hp2).
      * injection E2 as -> _.
        exact (Hexcl _ _ _ _ _ _ Hne O1 Hi Hp1 eq_refl).
      * exact (Hexcl _ _ _ _ _ _ Hne O1 O2 Hp1 Hp2).
    + intros j b Hj Hk.
      destruct (pool_lookup_after _ _ _ _ _ _ _ Hi Hj) as [[_ E] | [_ Hold]].
      * injection E as ->. subst k. now apply find_none_count.
      * eauto.
  - (* the call stores its notification *)
    assert (Hcount : db_key a = k -> count_key k (notifications w) = 0)
      by (intros; eauto).
    constructor; simpl; rewrite ?Hl, ?Hn; auto.
    + rewrite count_key_cons.
      destruct (has_key k n) eqn:E; [| simpl; lia].
      apply has_key_iff in E. rewrite Hcount by congruence. simpl. lia.
    + intros j b pcb Hj Hb.
      destruct (pool_lookup_after _ _ _ _ _ _ _ Hi Hj) as [[_ E] | [_ Hold]].
      * injection E as -> _. exact (Hheld _ _ _ Hi eq_refl).
      * eauto.
    + intros j1 j2 b1 p1 b2 p2 Hne H1 H2 Hp1 Hp2.
      destruct (pool_lookup_after _ _ _ _ _ _ _ Hi H1) as [[-> E1] | [N1 O1]];
        destruct (pool_lookup_after _ _ _ _ _ _ _ Hi H2) as [[-> E2] | [N2 O2]].
      * congruence.
      * injection E1 as -> _.
        exact (Hexcl _ _ _ _ _ _ Hne Hi O2 eq_refl Hp2).
      * injection E2 as -> _.
        exact (Hexcl _ _ _ _ _ _ Hne O1 Hi Hp1 eq_refl).
      * exact (Hexcl _ _ _ _ _ _ Hne O1 O2 Hp1 Hp2).
    + intros j b Hj Hk.
      destruct (pool_lookup_after _ _ _ _ _ _ _ Hi Hj) as [[_ E] | [N Hold]].
      * discriminate E.
      * destruct (has_key k n) eqn:E.
        -- apply has_key_iff in E. exfalso.
           apply (Hexcl i j _ _ _ _ (not_eq_sym N) Hi Hold eq_refl eq_refl).
           apply Hlocks; eauto. congruence.
        -- rewrite count_key_cons, E. simpl. eauto.
  - (* a statement outside the locked region *)
    constructor; simpl; rewrite ?Hl, ?Hn; auto.
    + intros j b pcb Hj Hb.
      destruct (pool_lookup_after _ _ _ _ _ _ _ Hi Hj) as [[_ E] | [_ Hold]].
      * injection E as _ <-. congruence.
      * eauto.
    + intros j1 j2 b1 p1 b2 p2 Hne H1 H2 Hp1 Hp2.
      destruct (pool_lookup_after _ _ _ _ _ _ _ Hi H1) as [[-> E1] | [N1 O1]];
        destruct (pool_lookup_after _ _ _ _ _ _ _ Hi H2) as [[-> E2] | [N2 O2]].
      * congruence.
      * injection E1 as _ <-. congruence.
      * injection E2 as _ <-. congruence.
      * exact (Hexcl _ _ _ _ _ _ Hne O1 O2 Hp1 Hp2).
    + intros j b Hj Hk.
      destruct (pool_lookup_after _ _ _ _ _ _ _ Hi Hj) as [[_ E] | [_ Hold]].
      * injection E as _ <-. discriminate Hpc'.
      * eauto.
Qed.

Lemma fresh_pool_lookup (calls : list NotifyArgs) (i : nat)
    (a : NotifyArgs) (pc : NotifyPC) :
  fresh_pool calls !! i = Some (a, pc) -> In a calls /\ pc = AtEntry.
Proof.
  revert i. induction calls as [|c calls IH]; intros [|i] H;
    try discriminate H; simpl in H.
  - injection H as -> <-. split; [now left | reflexivity].
  - destruct (IH i H) as [Hin ->]. split; [now right | reflexivity].
Qed.

Lemma fresh_pool_inv (calls : list NotifyArgs) (k : NotifKey) (w : World) :
  count_key k (notifications w) <= 1 ->
  pool_inv calls k (fresh_pool calls, w).
Proof.
  intros Hk. constructor; simpl.
  - exact Hk.
  - intros i a pc H. now apply fresh_pool_lookup in H.
  - intros i a pc H Hpc. apply fresh_pool_lookup in H as [_ ->]. discriminate.
  - intros i j ai pci aj pcj _ H _ Hpc.
    apply fresh_pool_lookup in H as [_ ->]. discriminate.
  - intros i a H. apply fresh_pool_lookup in H as [_ E]. discriminate.
Qed.

Lemma run_pool_inv (calls : list NotifyArgs) (k : NotifKey)
    (schedule : list nat) (σ : Pool * World) :
  same_key_same_lock calls ->
  pool_inv calls k σ -> pool_inv calls k (run_pool schedule σ).
Proof.
  intros Hlocks. revert σ. unfold run_pool.
  induction schedule as [|i schedule IH]; intros σ Hinv; simpl.
  - exact Hinv.
  - apply IH. now apply pool_step_inv.
Qed.

Lemma same_call_same_lock (a : NotifyArgs) (n : nat) :
  same_key_same_lock (repeat a n).
Proof.
  intros x y Hx Hy _.
  apply repeat_spec in Hx, Hy. congruence.
Qed.

(** *** A call of Notify that finds the notification *)

Lemma Notify_when_present (a : NotifyArgs) (old : Notification) (w : World) :
  IsRemote (arg_target a) = false ->
  is_held (lock_of a) (held_locks w) = false ->
  List.find (has_key (db_key a)) (notifications w) = Some old ->
  fails env (LockAcquire (lock_of a) :: history w)
        (DBGetNotification (db_key a)) = None ->
  exists w',
    Notify (arg_type a) (arg_target a) (arg_origin a) (arg_status a) w
      = Some (None, w')
    /\ notifications w' = notifications w
    /\ held_locks w' = held_locks w
    /\ history w' = [ LockRelease (lock_of a);
                      DBGetNotification (db_key a);
                      LockAcquire (lock_of a) ] ++ history w.
Proof.
  intros Hlocal Hfree Hfind Hget.
  assert (Ha : mkArgs (arg_type a) (arg_target a) (arg_origin a) (arg_status a)
               = a) by now destruct a.
  unfold Notify. rewrite Ha.
  rewrite notify_from_next, (step_entry_free a w Hlocal Hfree) by reflexivity.
  rewrite notify_from_next, (step_lookup_found a old) by easy.
  rewrite notify_from_returned.
  eexists. split; [reflexivity |]. simpl.
  repeat split. now apply release_head.
Qed.

(** C1. Any number of calls of Notify with the same (type, target,
    origin, status), interleaved statement by statement in any order and
    with any failures of the collaborators, leave at most one stored
    notification for that tuple if there was at most one before; and a
    call with a local target that takes the lock and whose lookup finds
    the notification returns success having stored nothing, its only
    calls being lock, lookup, unlock. *)
Theorem C1_at_most_one_notification
    (a : NotifyArgs) (n : nat) (schedule : list nat) (w : World) :
  count_key (db_key a) (notifications w) <= 1 ->
  count_key (db_key a)
    (notifications (snd (run_pool schedule (fresh_pool (repeat a n), w)))) <= 1
  /\ (forall old,
        IsRemote (arg_target a) = false ->
        is_held (lock_of a) (held_locks w) = false ->
        List.find (has_key (db_key a)) (notifications w) = Some old ->
        fails env (LockAcquire (lock_of a) :: history w)
              (DBGetNotification (db_key a)) = None ->
        exists w',
          Notify (arg_type a) (arg_target a) (arg_origin a) (arg_status a) w
            = Some (None, w')
          /\ notifications w' = notifications w
          /\ held_locks w' = held_locks w
          /\ history w' = [ LockRelease (lock_of a);
                            DBGetNotification (db_key a);
                            LockAcquire (lock_of a) ] ++ history w).
Proof.
  intros Hk. split.
  - apply (inv_unique (repeat a n)).
    apply run_pool_inv; [apply same_call_same_lock |].
    now apply fresh_pool_inv.
  - intros old. apply Notify_when_present.
Qed.

(** *** A call of Notify that finds nothing *)

Lemma Notify_when_absent (a : NotifyArgs) (w : World) :
  let n := new_notification a
             (record_call (DBGetNotification (db_key a)) (after_lock a w)) in
  IsRemote (arg_target a) = false ->
  is_held (lock_of a) (held_locks w) = false ->
  List.find (has_key (db_key a)) (notifications w) = None ->
  fails env (LockAcquire (lock_of a) :: history w)
        (DBGetNotification (db_key a)) = None ->
  fails env (DBGetNotification (db_key a) :: LockAcquire (lock_of a) :: history w)
        (DBPutNotification n) = None ->
  exists r w' push,
    Notify (arg_type a) (arg_target a) (arg_origin a) (arg_status a) w
      = Some (r, w')
    /\ notifications w' = n :: notifications w
    /\ held_locks w' = held_locks w
    /\ thread_mutes w' = thread_mutes w
    /\ history w' = push ++ stored_and_unlocked a n w
    /\ push_outcome a n w push r.
Proof.
  intros n Hlocal Hfree Hfind Hget Hput.
  assert (Ha : mkArgs (arg_type a) (arg_target a) (arg_origin a) (arg_status a)
               = a) by now destruct a.
  unfold Notify. rewrite Ha.
  rewrite notify_from_next, (step_entry_free a w Hlocal Hfree) by reflexivity.
  rewrite notify_from_next, step_lookup_absent by easy.
  rewrite notify_from_next, step_create_stored by easy.
  fold n.
  rewrite notify_from_next, step_unlock by reflexivity.
  rewrite notify_from_next, step_filters by reflexivity.
  set (w4 := after_unlock a _).
  assert (H4 : history w4 = stored_and_unlocked a n w) by reflexivity.
  assert (L4 : held_locks w4 = held_locks w)
    by (simpl; now apply release_head).
  rewrite H4.
  unfold push_outcome.
  destruct (fails env (stored_and_unlocked a n w) _) as [why |] eqn:Ffilters.
  - rewrite notify_from_returned.
    eexists _, _, [_]. split; [reflexivity |]. simpl.
    repeat split; try assumption. left. eauto.
  - rewrite notify_from_next, step_convert by reflexivity.
    cbn [history record_call]. rewrite H4.
    destruct (fails env (_ :: stored_and_unlocked a n w) _) as [why |] eqn:Fconv.
    + rewrite notify_from_returned.
      eexists _, _, [_; _]. split; [reflexivity |]. simpl.
      repeat split; try assumption. right. left. eauto.
    + rewrite notify_from_next, step_stream by reflexivity.
      rewrite notify_from_returned.
      eexists _, _, [_; _; _]. split; [reflexivity |]. simpl.
      repeat split; try assumption. right. right. auto.
Qed.

(** C7 (as the code has it). When no notification exists for the key
    and the lookup and the store succeed, Notify stores the notification
    and gives the lock back in its very next call, before any push work
    (filters, conversion, streaming).  A failure of the filter retrieval
    or of the conversion then makes Notify return that error, with the
    notification stored and the lock free; Notify returns success only
    when both succeed and the notification was streamed. *)
Theorem C7_unlock_before_push (a : NotifyArgs) (w : World) :
  let n := new_notification a
             (record_call (DBGetNotification (db_key a)) (after_lock a w)) in
  IsRemote (arg_target a) = false ->
  is_held (lock_of a) (held_locks w) = false ->
  List.find (has_key (db_key a)) (notifications w) = None ->
  fails env (LockAcquire (lock_of a) :: history w)
        (DBGetNotification (db_key a)) = None ->
  fails env (DBGetNotification (db_key a) :: LockAcquire (lock_of a) :: history w)
        (DBPutNotification n) = None ->
  exists r w' push,
    Notify (arg_type a) (arg_target a) (arg_origin a) (arg_status a) w
      = Some (r, w')
    /\ notifications w' = n :: notifications w
    /\ held_locks w' = held_locks w
    /\ history w' = push ++ stored_and_unlocked a n w
    /\ push_outcome a n w push r.
Proof.
  intros n Hlocal Hfree Hfind Hget Hput.
  destruct (Notify_when_absent a w Hlocal Hfree Hfind Hget Hput)
    as (r & w' & push & Hrun & Hn & Hl & _ & Hh & Hout).
  exists r, w', push. auto.
Qed.
(** *** Notify when its storage calls work *)

Lemma Notify_with_storage (a : NotifyArgs) (w : World) :
  notify_storage_works (db_key a) ->
  IsRemote (arg_target a) = false ->
  is_held (lock_of a) (held_locks w) = false ->
  exists r w' later,
    Notify (arg_type a) (arg_target a) (arg_origin a) (arg_status a) w
      = Some (r, w')
    /\ held_locks w' = held_locks w
    /\ history w'
       = later ++ [DBGetNotification (db_key a); LockAcquire (lock_of a)]
               ++ history w
    /\ (push_works -> r = None)
    /\ (notifications w' = notifications w
        /\ 0 < count_key (db_key a) (notifications w)
        \/ exists n, key_of n = db_key a
                     /\ count_key (db_key a) (notifications w) = 0
                     /\ notifications w' = n :: notifications w).
Proof.
  intros [Hget Hput] Hlocal Hfree.
  destruct (List.find (has_key (db_key a)) (notifications w)) as [old |] eqn:Hfind.
  - destruct (Notify_when_present a old w Hlocal Hfree Hfind (Hget _))
      as (w' & Hrun & Hn & Hl & Hh).
    exists None, w', [ LockRelease (lock_of a) ].
    repeat split; try assumption.
    left. split; [assumption |]. now apply find_some_count in Hfind.
  - destruct (Notify_when_absent a w Hlocal Hfree Hfind (Hget _) (Hput _ _))
      as (r & w' & push & Hrun & Hn & Hl & _ & Hh & Hout).
    eexists r, w', (push ++ [LockRelease (lock_of a); DBPutNotification _]).
    split; [exact Hrun |]. split; [exact Hl |].
    split; [rewrite Hh; unfold stored_and_unlocked;
            rewrite <- !app_assoc; reflexivity |].
    split.
    + intros Hpush.
      destruct Hout as [(why & F & _) | [(why & _ & F & _) | (_ & _ & _ & Hr)]];
        [ rewrite Hpush in F by reflexivity; discriminate
        | rewrite Hpush in F by reflexivity; discriminate
        | exact Hr ].
    + right. eexists. split; [| split; [| exact Hn]].
      * reflexivity.
      * now apply find_none_count.
Qed.

(** *** Deleting the notification a lookup found *)

Lemma count_key_filter_le (k : NotifKey) (f : Notification -> bool)
    (ns : list Notification) :
  count_key k (List.filter f ns) <= count_key k ns.
Proof.
  induction ns as [|n ns IH]; simpl; [lia |].
  destruct (f n); rewrite ?count_key_cons; destruct (has_key k n); simpl; lia.
Qed.

Lemma found_is_stored (k : NotifKey) (ns : list Notification) (n : Notification) :
  List.find (has_key k) ns = Some n ->
  existsb (fun m => String.eqb (notif_ID n) (notif_ID m)) ns = true.
Proof.
  intros H. apply find_some in H as [Hin _].
  apply existsb_exists. exists n. split; [exact Hin | apply String.eqb_refl].
Qed.

Lemma count_after_delete (k : NotifKey) (ns : list Notification)
    (n : Notification) :
  count_key k ns <= 1 ->
  List.find (has_key k) ns = Some n ->
  count_key k
    (List.filter (fun m => negb (String.eqb (notif_ID n) (notif_ID m))) ns) = 0.
Proof.
  induction ns as [|m ns IH]; [discriminate |].
  rewrite count_key_cons. simpl.
  destruct (has_key k m) eqn:Hm.
  - intros Hle H. injection H as ->.
    rewrite String.eqb_refl. simpl.
    pose proof (count_key_filter_le k
      (fun m => negb (String.eqb (notif_ID n) (notif_ID m))) ns). lia.
  - intros Hle H.
    destruct (negb (String.eqb (notif_ID n) (notif_ID m))); auto.
    rewrite count_key_cons, Hm. simpl. auto.
Qed.

(** *** What is left after Notify, for the pair of a follow *)

Lemma follow_counts (follow : Follow) (before after : list Notification) :
  count_key (asked_key follow) before = 0 ->
  count_key (followed_key follow) before <= 1 ->
  (after = before /\ 0 < count_key (followed_key follow) before
   \/ exists n, key_of n = followed_key follow
                /\ count_key (followed_key follow) before = 0
                /\ after = n :: before) ->
  count_key (asked_key follow) after = 0
  /\ count_key (followed_key follow) after = 1.
Proof.
  intros H0 H1 [[-> Hpos] | (n & Hn & Hzero & ->)].
  - split; [exact H0 | lia].
  - rewrite !count_key_cons, H0, Hzero.
    assert (has_key (asked_key follow) n = false) as ->
      by (apply has_key_other; rewrite Hn; discriminate).
    assert (has_key (followed_key follow) n = true) as ->
      by now apply has_key_iff.
    split; reflexivity.
Qed.

(** C6. For a follow with a local target whose loaded accounts are the
    ones its IDs name, with the notification lock free and at most one
    "follow request" and at most one "follow" notification stored for the
    (target, origin) pair.  A failure to populate the follow, or a real
    failure of the lookup of the "follow request" notification or of its
    delete, is returned wrapped, and nothing has been created or changed
    in storage.  Otherwise, a lookup that finds no rows and a delete that
    finds no rows are no errors: whenever the storage calls of Notify
    itself work, notifyFollow returns, and afterwards no "follow request"
    notification and exactly one "follow" notification exist for the
    pair; the lookup comes first, a found notification is deleted before
    anything Notify does, and the return is success whenever the push
    path works too. *)
Theorem C6_follow_replaces_follow_request (follow : Follow) (w : World) :
  let populate := DBPopulateFollow (fol_ID follow) in
  let lookup := DBGetNotification (asked_key follow) in
  IsLocal (fol_TargetAccount follow) = true ->
  follow_populated follow ->
  is_held (getNotifyLockURI NotificationFollow (fol_TargetAccount follow)
                            (fol_Account follow) "") (held_locks w) = false ->
  count_key (asked_key follow) (notifications w) <= 1 ->
  count_key (followed_key follow) (notifications w) <= 1 ->
  match fails env (history w) populate,
        no_rows env (history w) populate with
  | Some why, _ =>
      notifyFollow follow w
      = Some (Some (ErrWrap ("error populating follow " +:+ fol_ID follow)
                            (ErrFault why)),
              record_call populate w)
  | None, true =>
      notifyFollow follow w
      = Some (Some (ErrWrap ("error populating follow " +:+ fol_ID follow)
                            ErrNoEntries),
              record_call populate w)
  | None, false =>
      match fails env (populate :: history w) lookup with
      | Some why =>
          notifyFollow follow w
          = Some (Some (ErrWrap "error getting notification" (ErrFault why)),
                  record_call lookup (record_call populate w))
      | None =>
          match List.find (has_key (asked_key follow)) (notifications w) with
          | None =>
              notify_storage_works (followed_key follow) ->
              follow_replaced follow w []
          | Some old =>
              let delete := DBDeleteNotificationByID (notif_ID old) in
              match fails env (lookup :: populate :: history w) delete with
              | Some why =>
                  notifyFollow follow w
                  = Some (Some (ErrWrap ("error deleting notification "
                                           +:+ notif_ID old) (ErrFault why)),
                          record_call delete
                            (record_call lookup (record_call populate w)))
              | None =>
                  notify_storage_works (followed_key follow) ->
                  follow_replaced follow w [delete]
              end
          end
      end
  end.
Proof.
  intros populate lookup Hlocal [Htarget Horigin] Hfree Hasked Hfollowed.
  assert (Hremote : IsRemote (fol_TargetAccount follow) = false)
    by (unfold IsRemote; unfold IsLocal in Hlocal; now rewrite Hlocal).
  set (a := mkArgs NotificationFollow (fol_TargetAccount follow)
                   (fol_Account follow) "").
  assert (Hkey : db_key a = followed_key follow)
    by (unfold db_key, followed_key; simpl; now rewrite Htarget, Horigin).
  assert (Hret : forall (r : option error) (msg : string),
             (push_works -> r = None) ->
             push_works ->
             match r with Some err => Some (ErrWrap msg err) | None => None end
             = None).
  { intros r msg H Hp. now rewrite (H Hp). }
  assert (Hnotify : forall w1 deleted,
             notify_storage_works (followed_key follow) ->
             held_locks w1 = held_locks w ->
             count_key (asked_key follow) (notifications w1) = 0 ->
             count_key (followed_key follow) (notifications w1) <= 1 ->
             history w1 = deleted ++ [lookup; populate] ++ history w ->
             exists r w' later,
               (r' <- Notify NotificationFollow (fol_TargetAccount follow)
                             (fol_Account follow) "" ;;
                match r' with
                | Some err =>
                    ret (Some (ErrWrap ("error notifying follow target "
                                          +:+ fol_TargetAccountID follow) err))
                | None => ret None
                end) w1 = Some (r, w')
               /\ count_key (asked_key follow) (notifications w') = 0
               /\ count_key (followed_key follow) (notifications w') = 1
               /\ (push_works -> r = None)
               /\ history w'
                  = later
                      ++ [ DBGetNotification (followed_key follow);
                           LockAcquire (getNotifyLockURI NotificationFollow
                                          (fol_TargetAccount follow)
                                          (fol_Account follow) "") ]
                      ++ deleted ++ [lookup; populate] ++ history w).
  { intros w1 deleted Hworks Hlocks H0 H1 Hh1.
    rewrite <- Hkey in Hworks.
    destruct (Notify_with_storage a w1 Hworks Hremote)
      as (r & w' & later & Hrun & _ & Hh & Hpush & Hcases);
      [rewrite Hlocks; exact Hfree |].
    rewrite Hkey in Hcases, Hh.
    destruct (follow_counts follow _ _ H0 H1 Hcases) as [Hc0 Hc1].
    simpl in Hrun. unfold bind. rewrite Hrun.
    exists (match r with
            | Some err =>
                Some (ErrWrap ("error notifying follow target "
                                 +:+ fol_TargetAccountID follow) err)
            | None => None
            end), w', later.
    split; [destruct r; reflexivity |].
    split; [exact Hc0 |]. split; [exact Hc1 |].
    split; [apply Hret, Hpush |].
    rewrite Hh, Hh1. reflexivity. }
  unfold bind in Hnotify.
  subst populate lookup. cbv zeta.
  unfold follow_replaced, notifyFollow, bind, Populate, GetNotification,
    DeleteNotificationByID.
  change (mkKey NotificationFollowRequest (fol_TargetAccountID follow)
                (fol_AccountID follow) "") with (asked_key follow).
  destruct (fails env (history w) (DBPopulateFollow (fol_ID follow)))
    as [why |] eqn:Fpop; [reflexivity |].
  destruct (no_rows env (history w) (DBPopulateFollow (fol_ID follow)))
    eqn:Rpop; [reflexivity |].
  rewrite Hremote. cbn [history record_call notifications].
  destruct (fails env (DBPopulateFollow (fol_ID follow) :: history w)
                  (DBGetNotification (asked_key follow)))
    as [why |] eqn:Flook; [reflexivity |].
  destruct (List.find (has_key (asked_key follow)) (notifications w))
    as [old |] eqn:Hfind.
  - (* a follow request notification is stored: it is deleted *)
    cbn [history record_call notifications].
    destruct (fails env _ (DBDeleteNotificationByID (notif_ID old)))
      as [why |] eqn:Fdel; [reflexivity |].
    intros Hworks.
    rewrite (found_is_stored _ _ _ Hfind). cbn [andb].
    match goal with
    | |- context [set_notifications ?ns ?w0] =>
        set (w1 := set_notifications ns w0)
    end.
    assert (Hns : notifications w1
                  = List.filter
                      (fun m => negb (String.eqb (notif_ID old) (notif_ID m)))
                      (notifications w)) by reflexivity.
    assert (H0 : count_key (asked_key follow) (notifications w1) = 0)
      by (rewrite Hns; now apply count_after_delete).
    assert (H1 : count_key (followed_key follow) (notifications w1) <= 1)
      by (rewrite Hns; etrans; [apply count_key_filter_le | exact Hfollowed]).
    destruct (Hnotify w1 [DBDeleteNotificationByID (notif_ID old)]
                      Hworks eq_refl H0 H1 eq_refl)
      as (r & w' & later & Hrun & Hrest).
    exists r, w', later. split; [| exact Hrest].
    destruct (negb (no_rows env _ _)); cbn [is_no_entries negb]; exact Hrun.
  - (* no rows: not an error *)
    intros Hworks. cbn [is_no_entries negb].
    assert (H0 : count_key (asked_key follow) (notifications w) = 0)
      by now apply find_none_count.
    destruct (Hnotify (record_call (DBGetNotification (asked_key follow))
                         (record_call (DBPopulateFollow (fol_ID follow)) w)) []
                      Hworks eq_refl H0 Hfollowed eq_refl)
      as (r & w' & later & Hrun & Hrest).
    exists r, w', later. split; [exact Hrun | exact Hrest].
Qed.

(** *** What Notify leaves alone *)

Lemma notify_step_mutes (a : NotifyArgs) (pc pc' : NotifyPC) (w w' : World) :
  notify_step a pc w = Some (pc', w') -> thread_mutes w' = thread_mutes w.
Proof.
  destruct pc; unfold_notify;
    repeat match goal with
      | |- context [if ?b then _ else _] => destruct b
      | |- context [match fails env ?h ?e with _ => _ end] =>
          destruct (fails env h e)
      | |- context [match List.find ?f ?l with _ => _ end] =>
          destruct (List.find f l)
      end; simpl;
    intros H; try discriminate H; injection H as <- <-; reflexivity.
Qed.

Lemma notify_from_frame (fuel : nat) (a : NotifyArgs) (pc : NotifyPC)
    (w : World) (r : option error) (w' : World) :
  notify_from fuel a pc w = Some (r, w') ->
  thread_mutes w' = thread_mutes w
  /\ exists extra,
       notifications w' = extra ++ notifications w
       /\ Forall (fun n => key_of n = db_key a) extra.
Proof.
  revert pc w. induction fuel as [|fuel IH]; intros pc w H.
  - destruct pc; try discriminate H. injection H as <- <-.
    split; [reflexivity | exists []; auto].
  - destruct (is_returned pc) eqn:Hpc.
    + destruct pc; try discriminate Hpc. injection H as <- <-.
      split; [reflexivity | exists []; auto].
    + rewrite notify_from_next in H by exact Hpc.
      destruct (notify_step a pc w) as [[pc1 w1] |] eqn:Hstep;
        [| discriminate H].
      apply IH in H as (Hm & extra & Hn & Hextra).
      pose proof (notify_step_mutes _ _ _ _ _ Hstep) as Hm1.
      apply notify_step_effect in Hstep.
      split; [congruence |].
      inversion Hstep; subst;
        try (exists extra; split; [congruence | exact Hextra]).
      exists (extra ++ [n]). split.
      * rewrite Hn, <- app_assoc. simpl. congruence.
      * apply Forall_app. auto.
Qed.

Lemma notifications_for_extra (account : string) (extra ns : list Notification) :
  Forall (fun n => notif_TargetAccountID n <> account) extra ->
  notifications_for account (extra ++ ns) = notifications_for account ns.
Proof.
  unfold notifications_for. induction 1 as [|n extra Hn _ IH]; simpl; [reflexivity |].
  destruct (String.eqb_spec account (notif_TargetAccountID n)); [congruence | exact IH].
Qed.

Lemma has_pair_differs (t a b : string) (l : list (string * string)) :
  has_pair (t, a) l = true -> has_pair (t, b) l = false -> a <> b.
Proof. intros Ha Hb ->. congruence. Qed.

(** One iteration of notifyMentions leaves alone the notifications of an
    account that has muted the thread. *)
Lemma notifyMentions_body_frame (status : Status) (mention : Mention)
    (account : string) (w : World) (r : option error) (w' : World) :
  mention_populated mention ->
  has_pair (st_ThreadID status, account) (thread_mutes w) = true ->
  notifyMentions_body status mention w = Some (r, w') ->
  thread_mutes w' = thread_mutes w
  /\ notifications_for account (notifications w')
     = notifications_for account (notifications w).
Proof.
  intros Hpop Hmuted.
  unfold notifyMentions_body, bind, Populate, IsThreadMutedByAccount, ret.
  destruct (fails env (history w) _);
    [intros H; injection H as <- <-; auto |].
  destruct (no_rows env (history w) _);
    [intros H; injection H as <- <-; auto |].
  destruct (IsRemote (men_TargetAccount mention));
    [intros H; injection H as <- <-; auto |].
  cbn [history record_call thread_mutes].
  destruct (fails env _ _);
    [intros H; injection H as <- <-; auto |].
  destruct (has_pair (st_ThreadID status, men_TargetAccountID mention)
                     (thread_mutes w)) eqn:Hother;
    [intros H; injection H as <- <-; auto |].
  destruct (Notify _ _ _ _ _) as [[r1 w1] |] eqn:Hrun; [| discriminate].
  intros H.
  assert (w' = w1) as -> by (destruct r1; injection H as _ <-; reflexivity).
  apply notify_from_frame in Hrun as (Hm & extra & Hn & Hextra).
  simpl in Hm, Hn.
  split; [exact Hm |].
  rewrite Hn. apply notifications_for_extra.
  eapply Forall_impl; [exact Hextra |].
  intros n Hkey Heq. simpl in Hkey.
  apply (has_pair_differs _ _ _ _ Hmuted Hother).
  rewrite <- Heq, <- Hpop.
  change (notif_TargetAccountID n) with (key_target (key_of n)).
  now rewrite Hkey.
Qed.

Lemma notifyMentions_loop_frame (status : Status) (mentions : list Mention)
    (account : string) (errs : list error) (w : World)
    (r : list error) (w' : World) :
  Forall mention_populated mentions ->
  has_pair (st_ThreadID status, account) (thread_mutes w) = true ->
  notifyMentions_loop status mentions errs w = Some (r, w') ->
  notifications_for account (notifications w')
  = notifications_for account (notifications w).
Proof.
  intros Hpop. revert errs w.
  induction Hpop as [|mention mentions Hm _ IH]; intros errs w Hmuted; simpl.
  - intros H. injection H as _ <-. reflexivity.
  - unfold bind.
    destruct (notifyMentions_body status mention w) as [[r1 w1] |] eqn:Hbody;
      [| discriminate].
    intros H.
    destruct (notifyMentions_body_frame _ _ account _ _ _ Hm Hmuted Hbody)
      as [Hmutes Hsame].
    rewrite <- Hsame. eapply IH; [| exact H]. now rewrite Hmutes.
Qed.

Ltac quiet_run :=
  eexists _, _, _; split; [reflexivity |]; split; [added |];
  split; [reflexivity |]; split; [reflexivity |];
  intros [Hnf Hnr]; rewrite ?Hnf, ?Hnr in *; try discriminate; reflexivity.

Ltac mute_case Hmuted :=
  repeat first
    [ progress cbn [history record_call thread_mutes notifications]
    | rewrite Hmuted
    | match goal with
      | |- context [fails env ?h ?e] => destruct (fails env h e) eqn:?
      | |- context [no_rows env ?h ?e] => destruct (no_rows env h e) eqn:?
      | |- context [IsRemote ?a] => destruct (IsRemote a) eqn:?
      | |- context [String.eqb ?a ?b] => destruct (String.eqb a b) eqn:?
      end ];
  quiet_run.

(** C9. When the account a mention, fave or boost would notify has
    muted the thread of the status, the reaction (one iteration of
    notifyMentions, notifyFave, notifyAnnounce) returns without taking a
    notification lock or storing a notification, the stored notifications
    are the same as before, and the return is success whenever storage
    works; and a whole run of notifyMentions over populated mentions
    leaves the notifications of an account that muted the thread as they
    were. *)
Theorem C9_muted_thread_is_not_notified (w : World) :
  (forall x,
      muted_by_target w x = true ->
      exists r w' added,
        react x w = Some (r, w')
        /\ history w' = added ++ history w
        /\ notifications w' = notifications w
        /\ quiet added
        /\ (never_fails -> r = None))
  /\ (forall status account r w',
        Forall mention_populated (st_Mentions status) ->
        has_pair (st_ThreadID status, account) (thread_mutes w) = true ->
        notifyMentions status w = Some (r, w') ->
        notifications_for account (notifications w')
        = notifications_for account (notifications w)).
Proof.
  split.
  - intros [status mention | fave | status] Hmuted; simpl in Hmuted; simpl react;
      unfold notifyMentions_body, notifyFave, notifyAnnounce,
        bind, Populate, IsThreadMutedByAccount, ret;
      mute_case Hmuted.
  - intros status account r w' Hpop Hmuted. unfold notifyMentions, bind.
    destruct (notifyMentions_loop _ _ _ _) as [[errs w1] |] eqn:Hloop;
      [| discriminate].
    intros H. injection H as _ <-.
    eapply notifyMentions_loop_frame; eauto.
Qed.

(** C10. Self-interactions produce nothing: notifyFave on a fave whose
    account is the status's author, and notifyAnnounce on a status that
    is no boost or whose author boosts their own status, return success
    and make no call at all, so the world is exactly as before. *)
Theorem C10_self_interactions_are_silent
    (fave : StatusFave) (status : Status) (w : World) :
  (fave_TargetAccountID fave = fave_AccountID fave ->
   notifyFave fave w = Some (None, w))
  /\ (st_BoostOfID status = ""
      \/ st_BoostOfAccountID status = st_AccountID status ->
      notifyAnnounce status w = Some (None, w)).
Proof.
  split.
  - intros H. unfold notifyFave. rewrite H, String.eqb_refl. reflexivity.
  - intros [H | H]; unfold notifyAnnounce.
    + rewrite H. reflexivity.
    + destruct (String.eqb (st_BoostOfID status) ""); [reflexivity |].
      rewrite H, String.eqb_refl. reflexivity.
Qed.

(** ** More of the workers: theorems *)

(** *** Dispatch *)

Ltac unfold_names :=
  unfold ActivityCreate, ActivityUpdate, ActivityAccept, ActivityReject,
    ActivityUndo, ActivityDelete, ActivityFlag, ActivityMove,
    ActivityFollow, ActivityLike, ActivityAnnounce, ActivityBlock,
    ActivityQuestion, ObjectNote, ObjectProfile, ActorPerson in *.

(** Settles every comparison of [x] with a string literal: either [x] is
    that literal, or the comparison is false. *)
Ltac settle x :=
  repeat match goal with
    | |- context [String.eqb x ?c] =>
        destruct (String.eqb_spec x c) as [-> | ?];
        [ cbn [String.eqb Ascii.eqb Bool.eqb andb orb]
        | idtac ]
    end.

(** X1. The client-origin entry point is a table lookup: after its log
    line it hands the message, on the world with that line recorded, to
    the method the table names for the (activity type, object type) pair
    and returns what that method returns; a pair outside the table gives
    the "unhandled" error.  The table's keys are the registered pairs. *)
Theorem X1_client_dispatch_is_lookup
    (p : ClientHandlers) (cMsg : FromClientAPI) (w : World) :
  ProcessFromClientAPI p cMsg w
  = match route client_routes (c_APActivityType cMsg) (c_APObjectType cMsg) with
    | Some method =>
        method p cMsg (record_call (LogInfo "processing from client API") w)
    | None =>
        Some (Some (unhandled (c_APActivityType cMsg) (c_APObjectType cMsg)),
              record_call (LogInfo "processing from client API") w)
    end
  /\ map fst client_routes = client_registered.
Proof.
  split; [| reflexivity].
  destruct cMsg as [a o g org tgt]; simpl.
  unfold ProcessFromClientAPI, bind, emit, ret, client_routes, route, pair_eqb.
  unfold_names.
  cbv beta zeta iota delta [fst snd c_APActivityType c_APObjectType].
  settle a; settle o; reflexivity.
Qed.

(** X2. The federation-origin entry point is a table lookup in the same
    way, over its own table: Person objects, Reject and Undo have no
    entry there. *)
Theorem X2_fedi_dispatch_is_lookup
    (p : FediHandlers) (fMsg : FromFediAPI) (w : World) :
  ProcessFromFediAPI p fMsg w
  = match route fedi_routes (f_APActivityType fMsg) (f_APObjectType fMsg) with
    | Some method =>
        method p fMsg (record_call (LogInfo "processing from fedi API") w)
    | None =>
        Some (Some (unhandled (f_APActivityType fMsg) (f_APObjectType fMsg)),
              record_call (LogInfo "processing from fedi API") w)
    end
  /\ map fst fedi_routes = fedi_registered
  /\ (forall o, route fedi_routes ActivityReject o = None)
  /\ (forall o, route fedi_routes ActivityUndo o = None)
  /\ (forall a, route fedi_routes a ActorPerson = None).
Proof.
  split; [| split; [reflexivity | split; [| split]]].
  - destruct fMsg as [a o g org tgt]; simpl.
    unfold ProcessFromFediAPI, bind, emit, ret, fedi_routes, route, pair_eqb.
    unfold_names.
    cbv beta zeta iota delta [fst snd f_APActivityType f_APObjectType].
    settle a; settle o; reflexivity.
  - intros o. reflexivity.
  - intros o. reflexivity.
  - intros a. unfold fedi_routes, route, pair_eqb. unfold_names.
    cbv beta zeta iota delta [fst snd].
    settle a; reflexivity.
Qed.

(** *** Notify: it returns, with the locks as they were *)

Lemma notify_step_progress (a : NotifyArgs) (before : list string)
    (pc : NotifyPC) (w : World) :
  is_held (lock_of a) before = false ->
  held_locks w = locks_at a before pc ->
  exists pc' w',
    notify_step a pc w = Some (pc', w')
    /\ held_locks w' = locks_at a before pc'
    /\ (is_returned pc = false -> steps_left pc' < steps_left pc).
Proof.
  intros Hfree Hlocks.
  pose proof (release_head _ _ Hfree) as Hrel.
  destruct pc; unfold locks_at in *; simpl in Hlocks; unfold_notify.
  - (* AtEntry *)
    destruct (IsRemote (arg_target a)).
    + eexists _, _. split; [reflexivity |]. simpl. split; [exact Hlocks | lia].
    + rewrite Hlocks, Hfree.
      eexists _, _. split; [reflexivity |]. simpl. split; [reflexivity | lia].
  - (* HoldingLock *)
    destruct (fails env (history w) (DBGetNotification (db_key a))).
    + eexists _, _. split; [reflexivity |]. simpl.
      rewrite Hlocks, Hrel. split; [reflexivity | lia].
    + destruct (List.find (has_key (db_key a)) (notifications w)).
      * eexists _, _. split; [reflexivity |]. simpl.
        rewrite Hlocks, Hrel. split; [reflexivity | lia].
      * eexists _, _. split; [reflexivity |]. simpl.
        split; [exact Hlocks | lia].
  - (* MustCreate *)
    destruct (fails env (history w) _).
    + eexists _, _. split; [reflexivity |]. simpl.
      rewrite Hlocks, Hrel. split; [reflexivity | lia].
    + eexists _, _. split; [reflexivity |]. simpl.
      split; [exact Hlocks | lia].
  - (* Persisted *)
    eexists _, _. split; [reflexivity |]. simpl.
    rewrite Hlocks, Hrel. split; [reflexivity | lia].
  - (* Released *)
    destruct (fails env (history w) _);
      (eexists _, _; split; [reflexivity |]; simpl;
       split; [exact Hlocks | lia]).
  - (* HaveFilters *)
    destruct (fails env (history w) _);
      (eexists _, _; split; [reflexivity |]; simpl;
       split; [exact Hlocks | lia]).
  - (* Converted *)
    eexists _, _. split; [reflexivity |]. simpl. split; [exact Hlocks | lia].
  - (* Returned *)
    eexists _, _. split; [reflexivity |]. simpl.
    split; [exact Hlocks | discriminate].
Qed.

Lemma notify_from_returns (a : NotifyArgs) (before : list string)
    (fuel : nat) (pc : NotifyPC) (w : World) :
  is_held (lock_of a) before = false ->
  steps_left pc <= fuel ->
  held_locks w = locks_at a before pc ->
  exists r w',
    notify_from fuel a pc w = Some (r, w') /\ held_locks w' = before.
Proof.
  intros Hfree. revert pc w.
  induction fuel as [|fuel IH]; intros pc w Hsteps Hlocks.
  - destruct pc; simpl in Hsteps; try lia.
    eexists _, _. split; [reflexivity | exact Hlocks].
  - destruct (is_returned pc) eqn:Hpc.
    + destruct pc; try discriminate Hpc.
      eexists _, _. split; [reflexivity | exact Hlocks].
    + rewrite notify_from_next by exact Hpc.
      destruct (notify_step_progress a before pc w Hfree Hlocks)
        as (pc' & w' & -> & Hlocks' & Hless).
      apply IH; [specialize (Hless Hpc); lia | exact Hlocks'].
Qed.

(** X3. Whenever the lock for its parameters is free, Notify returns: it
    neither waits nor runs out of statements; and whichever of its calls
    fail, the locks held afterwards are exactly those held before: the
    lock it took has been given back on every path. *)
Theorem X3_notify_returns_and_unlocks
    (notificationType : NotificationType) (targetAccount originAccount : Account)
    (statusID : string) (w : World) :
  is_held (getNotifyLockURI notificationType targetAccount originAccount statusID)
          (held_locks w) = false ->
  exists r w',
    Notify notificationType targetAccount originAccount statusID w
      = Some (r, w')
    /\ held_locks w' = held_locks w.
Proof.
  intros Hfree. unfold Notify.
  apply notify_from_returns; [exact Hfree | simpl; lia | reflexivity].
Qed.

(** *** Notify: what it does to the table *)

Lemma notify_step_table (a : NotifyArgs) (before : list Notification)
    (pc pc' : NotifyPC) (w w' : World) :
  notify_step a pc w = Some (pc', w') ->
  table_at a before pc (notifications w) ->
  table_at a before pc' (notifications w').
Proof.
  destruct pc; unfold_notify; simpl.
  - destruct (IsRemote (arg_target a)).
    + intros H; injection H as <- <-. simpl. auto.
    + destruct (is_held _ _); [discriminate |].
      intros H; injection H as <- <-. simpl. auto.
  - destruct (fails env (history w) _).
    + intros H; injection H as <- <-. simpl. auto.
    + destruct (List.find (has_key (db_key a)) (notifications w)) eqn:Hfind.
      * intros H; injection H as <- <-. simpl. auto.
      * intros H; injection H as <- <-. simpl. intros Hsame.
        split; [exact Hsame | rewrite <- Hsame; now apply find_none_count].
  - destruct (fails env (history w) _).
    + intros H; injection H as <- <-. simpl. intros [-> _]. auto.
    + intros H; injection H as <- <-. simpl. intros [-> H0]. auto.
  - intros H; injection H as <- <-. simpl. auto.
  - destruct (fails env (history w) _);
      intros H; injection H as <- <-; simpl; intros (-> & Hk & H0); eauto 6.
  - destruct (fails env (history w) _);
      intros H; injection H as <- <-; simpl; intros (-> & Hk & H0); eauto 6.
  - intros H; injection H as <- <-. simpl. intros (-> & Hk & H0). eauto 6.
  - intros H; injection H as <- <-. simpl. auto.
Qed.

Lemma notify_from_table (a : NotifyArgs) (before : list Notification)
    (fuel : nat) (pc : NotifyPC) (w : World) (r : option error) (w' : World) :
  notify_from fuel a pc w = Some (r, w') ->
  table_at a before pc (notifications w) ->
  table_at a before (Returned r) (notifications w').
Proof.
  revert pc w. induction fuel as [|fuel IH]; intros pc w Hrun Htable.
  - destruct pc; try discriminate Hrun. injection Hrun as <- <-. exact Htable.
  - destruct (is_returned pc) eqn:Hpc.
    + destruct pc; try discriminate Hpc. injection Hrun as <- <-. exact Htable.
    + rewrite notify_from_next in Hrun by exact Hpc.
      destruct (notify_step a pc w) as [[pc1 w1] |] eqn:Hstep;
        [| discriminate Hrun].
      eapply IH; [exact Hrun |].
      eapply notify_step_table; eauto.
Qed.

(** X4. Whatever fails, a call of Notify that returns has either left
    the notifications table exactly as it was, or put one new row in front
    of it, carrying the call's (type, target, origin, status); and it adds
    a row only when no row with that key was stored.  It never removes or
    rewrites a row. *)
Theorem X4_notify_adds_at_most_one_row
    (notificationType : NotificationType) (targetAccount originAccount : Account)
    (statusID : string) (w : World) (r : option error) (w' : World) :
  let key := mkKey notificationType (acct_ID targetAccount)
                   (acct_ID originAccount) statusID in
  Notify notificationType targetAccount originAccount statusID w
    = Some (r, w') ->
  notifications w' = notifications w
  \/ (count_key key (notifications w) = 0
      /\ exists n, key_of n = key /\ notifications w' = n :: notifications w).
Proof.
  intros key Hrun. unfold Notify in Hrun.
  exact (notify_from_table _ (notifications w) _ _ _ _ _ Hrun eq_refl).
Qed.

(** *** The lock key *)

Lemma append_inv_head (p x y : string) : p +:+ x = p +:+ y -> x = y.
Proof.
  induction p as [|c p IH]; simpl; [auto |].
  intros H. injection H as H. auto.
Qed.

Lemma length_append (p q : string) :
  String.length (p +:+ q) = String.length p + String.length q.
Proof. induction p as [|c p IH]; simpl; [reflexivity | now rewrite IH]. Qed.

Lemma append_not_longer (p q : string) : p +:+ q = p -> q = "".
Proof.
  intros H. apply (f_equal String.length) in H. rewrite length_append in H.
  destruct q; [reflexivity | simpl in H; lia].
Qed.

(** X5. For one notification type and one pair of accounts, the lock
    key tells status IDs apart: two status IDs with the same key are
    equal, and in particular the key without a status segment (empty
    status ID) is the key of no status. *)
Theorem X5_lock_key_tells_statuses_apart
    (notificationType : NotificationType) (targetAccount originAccount : Account)
    (statusID1 statusID2 : string) :
  getNotifyLockURI notificationType targetAccount originAccount statusID1
  = getNotifyLockURI notificationType targetAccount originAccount statusID2 ->
  statusID1 = statusID2.
Proof.
  unfold getNotifyLockURI.
  cbv zeta.
  set (b := (((("" +:+ "notification:?") +:+ "type=" +:+ notificationType)
               +:+ "&target=" +:+ acct_URI targetAccount)
              +:+ "&origin=" +:+ acct_URI originAccount)).
  destruct (String.eqb_spec statusID1 "") as [-> | H1];
    destruct (String.eqb_spec statusID2 "") as [-> | H2]; simpl negb; cbv iota.
  - reflexivity.
  - intros H. symmetry in H. apply append_not_longer in H. discriminate H.
  - intros H. apply append_not_longer in H. discriminate H.
  - intros H. apply append_inv_head in H.
    now apply (append_inv_head "&statusID=") in H.
Qed.

(** *** The calls Notify makes *)

Lemma notify_step_events (a : NotifyArgs) (pc pc' : NotifyPC) (w w' : World) :
  notify_step a pc w = Some (pc', w') ->
  exists added,
    history w' = added ++ history w /\ Forall (is_notify_event a) added.
Proof.
  destruct pc; unfold_notify;
    repeat match goal with
      | |- context [if ?b then _ else _] => destruct b
      | |- context [match fails env ?h ?e with _ => _ end] =>
          destruct (fails env h e)
      | |- context [match List.find ?f ?l with _ => _ end] =>
          destruct (List.find f l)
      end; simpl;
    intros H; try discriminate H; injection H as <- <-; simpl;
    eexists; (split; [added |]);
    repeat match goal with |- Forall _ _ => constructor end;
    unfold is_notify_event;
    repeat first
      [ left; reflexivity
      | left; eexists; split; reflexivity
      | left; eexists; reflexivity
      | eexists; reflexivity
      | right ].
Qed.

Lemma notify_from_events (fuel : nat) (a : NotifyArgs) (pc : NotifyPC)
    (w : World) (r : option error) (w' : World) :
  notify_from fuel a pc w = Some (r, w') ->
  exists added,
    history w' = added ++ history w /\ Forall (is_notify_event a) added.
Proof.
  revert pc w. induction fuel as [|fuel IH]; intros pc w H.
  - destruct pc; try discriminate H. injection H as <- <-. exists []. auto.
  - destruct (is_returned pc) eqn:Hpc.
    + destruct pc; try discriminate Hpc. injection H as <- <-. exists []. auto.
    + rewrite notify_from_next in H by exact Hpc.
      destruct (notify_step a pc w) as [[pc1 w1] |] eqn:Hstep;
        [| discriminate H].
      apply IH in H as (later & Hlater & Hl).
      apply notify_step_events in Hstep as (first & Hfirst & Hf).
      exists (later ++ first). split.
      * rewrite Hlater, Hfirst. apply app_assoc.
      * apply Forall_app. auto.
Qed.

Lemma notify_events_no_populate (a : NotifyArgs) (l : list Event) :
  Forall (is_notify_event a) l -> List.filter is_populate_mention l = [].
Proof.
  induction 1 as [|e l He _ IH]; [reflexivity |].
  simpl. rewrite IH.
  destruct He as [-> | [-> | [-> | [(n & -> & _) | [-> | [(id & ->) | (id & ->)]]]]]];
    reflexivity.
Qed.

(** X10. The only collaborator calls Notify makes are: taking and
    giving back the lock of its own parameters, the lookup and the store
    under its own (type, target, origin, status), reading the filters of
    its target account, converting a notification, and streaming to its
    target account.  It touches no other lock, no other key and no other
    account's stream. *)
Theorem X10_notify_calls_only_its_own
    (notificationType : NotificationType) (targetAccount originAccount : Account)
    (statusID : string) (w : World) (r : option error) (w' : World) :
  Notify notificationType targetAccount originAccount statusID w
    = Some (r, w') ->
  exists added,
    history w' = added ++ history w
    /\ Forall (is_notify_event
                 (mkArgs notificationType targetAccount originAccount statusID))
              added.
Proof. unfold Notify. apply notify_from_events. Qed.

(** *** notifyMentions: one attempt per mention *)

Lemma notifyMentions_body_events (status : Status) (mention : Mention)
    (w : World) (r : option error) (w' : World) :
  notifyMentions_body status mention w = Some (r, w') ->
  exists later,
    history w' = later ++ DBPopulateMention (men_ID mention) :: history w
    /\ List.filter is_populate_mention later = [].
Proof.
  unfold notifyMentions_body, bind, Populate, IsThreadMutedByAccount, ret.
  destruct (fails env (history w) _);
    [intros H; injection H as <- <-; exists []; auto |].
  destruct (no_rows env (history w) _);
    [intros H; injection H as <- <-; exists []; auto |].
  destruct (IsRemote (men_TargetAccount mention));
    [intros H; injection H as <- <-; exists []; auto |].
  cbn [history record_call thread_mutes].
  destruct (fails env _ _);
    [intros H; injection H as <- <-; eexists [_]; auto |].
  destruct (has_pair _ _);
    [intros H; injection H as <- <-; eexists [_]; auto |].
  destruct (Notify _ _ _ _ _) as [[r1 w1] |] eqn:Hrun; [| discriminate].
  intros H.
  assert (w' = w1) as -> by (destruct r1; injection H as _ <-; reflexivity).
  apply notify_from_events in Hrun as (added & Hadded & Hown).
  simpl in Hadded.
  exists (added ++ [DBIsThreadMutedByAccount (st_ThreadID status)
                      (men_TargetAccountID mention)]).
  split.
  - rewrite Hadded, <- app_assoc. reflexivity.
  - rewrite List.filter_app, (notify_events_no_populate _ _ Hown). reflexivity.
Qed.

Lemma notifyMentions_loop_events (status : Status) (mentions : list Mention)
    (errs : list error) (w : World) (r : list error) (w' : World) :
  notifyMentions_loop status mentions errs w = Some (r, w') ->
  exists added,
    history w' = added ++ history w
    /\ rev (List.filter is_populate_mention added)
       = map (fun m => DBPopulateMention (men_ID m)) mentions.
Proof.
  revert errs w. induction mentions as [|mention mentions IH]; intros errs w; simpl.
  - intros H. injection H as _ <-. exists []. auto.
  - unfold bind.
    destruct (notifyMentions_body status mention w) as [[r1 w1] |] eqn:Hbody;
      [| discriminate].
    intros H. apply IH in H as (rest & Hrest & Hr).
    apply notifyMentions_body_events in Hbody as (later & Hlater & Hl).
    exists (rest ++ later ++ [DBPopulateMention (men_ID mention)]). split.
    + rewrite Hrest, Hlater, <- !app_assoc. reflexivity.
    + rewrite !List.filter_app, Hl. simpl.
      rewrite rev_app_distr. simpl. now rewrite Hr.
Qed.

(** *** Remote accounts *)

(** X8. Nothing is notified to a remote account.  When the account a
    mention, fave or boost would notify is remote, the reaction returns
    without taking a notification lock or storing a notification, and
    with success whenever storage works; notifyFollow with a remote
    target makes the populate call and no other: it does not even look
    for an earlier follow-request notification; and Notify itself, called
    for a remote target, returns nil having done nothing at all. *)
Theorem X8_remote_accounts_are_not_notified (w : World) :
  (forall x,
      IsRemote (notified_account x) = true ->
      exists r w' added,
        react x w = Some (r, w')
        /\ history w' = added ++ history w
        /\ notifications w' = notifications w
        /\ quiet added
        /\ (never_fails -> r = None))
  /\ (forall follow,
        IsRemote (fol_TargetAccount follow) = true ->
        exists r,
          notifyFollow follow w
          = Some (r, record_call (DBPopulateFollow (fol_ID follow)) w)
          /\ (never_fails -> r = None))
  /\ (forall notificationType targetAccount originAccount statusID,
        IsRemote targetAccount = true ->
        Notify notificationType targetAccount originAccount statusID w
        = Some (None, w)).
Proof.
  split; [| split].
  - intros [status mention | fave | status] Hremote; simpl in Hremote; simpl react;
      unfold notifyMentions_body, notifyFave, notifyAnnounce,
        bind, Populate, IsThreadMutedByAccount, ret;
      mute_case Hremote.
  - intros follow Hremote.
    unfold notifyFollow, bind, Populate, ret. rewrite Hremote.
    destruct (fails env (history w) _) eqn:F;
      [| destruct (no_rows env (history w) _) eqn:R];
      eexists; (split; [reflexivity |]);
      intros [Hnf Hnr]; rewrite ?Hnf, ?Hnr in *; try discriminate; reflexivity.
  - intros t tgt o s Hremote. unfold Notify.
    rewrite notify_from_next by reflexivity.
    now rewrite step_entry_remote.
Qed.

(** *** Delete Status: the populate call *)

(** X6. Both Delete Status handlers begin by populating the status.  A
    real storage failure there aborts the handler: the error returned
    wraps the failure and nothing has been purged or wiped.  Missing rows
    ([db.ErrNoEntries]) are no such failure: the handler goes on, calls
    wipeStatus (keeping attachments for a client delete, deleting them for
    a federated one) and returns nil. *)
Theorem X6_delete_status_populate_policy (status : Status) (w : World) :
  (forall cMsg,
      c_GTSModel cMsg = ModelStatus status ->
      match fails env (history w) (DBPopulateStatus (st_ID status)) with
      | Some why =>
          clientAPI_DeleteStatus cMsg w
          = Some (Some (ErrWrap "db error populating status" (ErrFault why)),
                  record_call (DBPopulateStatus (st_ID status)) w)
      | None =>
          exists w' added,
            clientAPI_DeleteStatus cMsg w = Some (None, w')
            /\ history w' = added ++ DBPopulateStatus (st_ID status) :: history w
            /\ In (UtilWipeStatus (st_ID status) false) added
      end)
  /\ (forall fMsg,
        f_GTSModel fMsg = ModelStatus status ->
        match fails env (history w) (DBPopulateStatus (st_ID status)) with
        | Some why =>
            fediAPI_DeleteStatus fMsg w
            = Some (Some (ErrWrap "db error populating status" (ErrFault why)),
                    record_call (DBPopulateStatus (st_ID status)) w)
        | None =>
            exists w' added,
              fediAPI_DeleteStatus fMsg w = Some (None, w')
              /\ history w' = added ++ DBPopulateStatus (st_ID status) :: history w
              /\ In (UtilWipeStatus (st_ID status) true) added
        end).
Proof.
  split.
  - intros cMsg Hmodel. unfold clientAPI_DeleteStatus. rewrite Hmodel.
    unfold_worker.
    destruct (fails env (history w) (DBPopulateStatus (st_ID status))) eqn:F;
      [reflexivity |].
    destruct (no_rows env (history w) _); simpl;
      destruct (String.eqb (st_InReplyToID status) ""); simpl; ask_env;
      (eexists _, _; split; [reflexivity |];
       split; [simpl; repeat first [apply added_none | apply added_one]
              | simpl; auto 20]).
  - intros fMsg Hmodel. unfold fediAPI_DeleteStatus. rewrite Hmodel.
    unfold_worker.
    destruct (fails env (history w) (DBPopulateStatus (st_ID status))) eqn:F;
      [reflexivity |].
    destruct (no_rows env (history w) _); simpl;
      destruct (String.eqb (st_InReplyToID status) ""); simpl; ask_env;
      (eexists _, _; split; [reflexivity |];
       split; [simpl; repeat first [apply added_none | apply added_one]
              | simpl; auto 20]).
Qed.

(** *** Create PollVote from the federation *)

(** X9. The federation-origin Create PollVote handler always returns.
    When it returns an error it has called nothing but its three
    prerequisites (store the vote, populate the vote, populate the poll).
    When it returns nil it has invalidated the cached copy of the poll's
    status, and it has sent an Update of that status to the federation
    exactly when the status is local; a failure of that Update is not
    returned. *)
Theorem X9_poll_vote_updates_local_status_only
    (fMsg : FromFediAPI) (vote : PollVote) (w : World) :
  f_GTSModel fMsg = ModelPollVote vote ->
  exists r w' added,
    fediAPI_CreatePollVote fMsg w = Some (r, w')
    /\ history w' = added ++ history w
    /\ (r <> None -> forallb is_prerequisite_of_vote added = true)
    /\ (r = None ->
        In (SurfaceInvalidateStatus (vote_PollStatusID vote)) added
        /\ (In (FedUpdateStatus (st_ID (vote_PollStatus vote))) added
            <-> st_Local (vote_PollStatus vote) = true)).
Proof.
  intros Hmodel. unfold fediAPI_CreatePollVote. rewrite Hmodel.
  unfold_worker.
  destruct (fails env (history w) _);
    [eexists _, _, _; split; [reflexivity |]; split; [added |];
     split; [reflexivity | discriminate] |].
  simpl.
  destruct (fails env _ _);
    [eexists _, _, _; split; [reflexivity |]; split; [added |];
     split; [reflexivity | discriminate] |].
  destruct (no_rows env _ _);
    [eexists _, _, _; split; [reflexivity |]; split; [added |];
     split; [reflexivity | discriminate] |].
  simpl.
  destruct (fails env _ _);
    [eexists _, _, _; split; [reflexivity |]; split; [added |];
     split; [reflexivity | discriminate] |].
  destruct (no_rows env _ _);
    [eexists _, _, _; split; [reflexivity |]; split; [added |];
     split; [reflexivity | discriminate] |].
  simpl.
  destruct (st_Local (vote_PollStatus vote)) eqn:Hlocal; simpl; ask_env;
    (eexists _, _, _; split; [reflexivity |]; split; [added |];
     split; [congruence |]; intros _; split; [simpl; auto 10 |]).
  - split; [reflexivity | simpl; auto 10].
  - split; [reflexivity | simpl; auto 10].
  - split; [| discriminate]. simpl.
    intros [H | [H | [H | [H | []]]]]; discriminate H.
Qed.

(** *** The converter's filters *)

Lemma fold_left_append {A B : Type} (p : A -> bool) (g : A -> B)
    (l : list A) (acc : list B) :
  fold_left (fun acc x => if p x then acc ++ [g x] else acc) l acc
  = acc ++ map g (List.filter p l).
Proof.
  revert acc. induction l as [|x l IH]; intros acc; simpl.
  - now rewrite app_nil_r.
  - rewrite IH. destruct (p x); simpl; [| reflexivity].
    now rewrite <- app_assoc.
Qed.

Lemma filter_length_le {A : Type} (p : A -> bool) (l : list A) :
  length (List.filter p l) <= length l.
Proof. induction l as [|x l IH]; simpl; [lia |]. destruct (p x); simpl; lia. Qed.

Lemma filter_nonempty {A : Type} (p : A -> bool) (l : list A) :
  Nat.ltb 0 (length (List.filter p l)) = existsb p l.
Proof.
  induction l as [|x l IH]; simpl; [reflexivity |].
  destruct (p x); simpl; [reflexivity | exact IH].
Qed.

(** X11. FilterToAPIFilterV2 never fails, and the contexts it
    advertises for a filter are, without repetition, exactly the contexts
    in which filterAppliesInContext applies that filter; in no context
    and in an unknown context a filter never applies. *)
Theorem X11_advertised_contexts_are_applied
    (t : Typeutils.TextTools) (filter : Typeutils.Filter) :
  exists v,
    Typeutils.FilterToAPIFilterV2 t filter = Ok v
    /\ List.NoDup (Typeutils.v2_Context v)
    /\ forall c,
         Typeutils.filterAppliesInContext filter c = true
         <-> exists a, api_context_of c = Some a
                       /\ In a (Typeutils.v2_Context v).
Proof.
  eexists. split; [reflexivity |].
  cbn [Typeutils.v2_Context]. unfold Typeutils.filterToAPIFilterContexts.
  split.
  - destruct (PtrValueOr (Typeutils.flt_ContextHome filter) false),
      (PtrValueOr (Typeutils.flt_ContextNotifications filter) false),
      (PtrValueOr (Typeutils.flt_ContextPublic filter) false),
      (PtrValueOr (Typeutils.flt_ContextThread filter) false),
      (PtrValueOr (Typeutils.flt_ContextAccount filter) false);
      cbn [app];
      repeat match goal with
        | |- List.NoDup (_ :: _) =>
            constructor; [simpl; intuition discriminate |]
        end;
      constructor.
  - intros c.
    destruct c; cbn [Typeutils.filterAppliesInContext api_context_of];
      try (split; [discriminate | intros (a & Ha & _); discriminate Ha]).
    all: destruct (PtrValueOr (Typeutils.flt_ContextHome filter) false),
      (PtrValueOr (Typeutils.flt_ContextNotifications filter) false),
      (PtrValueOr (Typeutils.flt_ContextPublic filter) false),
      (PtrValueOr (Typeutils.flt_ContextThread filter) false),
      (PtrValueOr (Typeutils.flt_ContextAccount filter) false);
      cbn [app].
    all: split;
      [ intros H;
        first [ discriminate H
              | eexists; split; [reflexivity | simpl; tauto] ]
      | intros (a & Ha & Hin); injection Ha as <-; simpl in Hin;
        first [ reflexivity | intuition discriminate ] ].
Qed.

(** X12. filterableTextFields never returns more fields than the
    capacity it allocates (two, plus one per attachment and per poll
    option), and apart from the sanitized content, which comes first when
    the status has content, no field it returns is empty. *)
Theorem X12_filterable_fields_fit (t : Typeutils.TextTools)
    (s : Typeutils.Status) :
  length (Typeutils.filterableTextFields t s) <= Typeutils.fieldCount s
  /\ exists content rest,
       Typeutils.filterableTextFields t s = content ++ rest
       /\ Forall (fun field => field <> "") rest
       /\ content
          = (if String.eqb (Typeutils.s_Content s) "" then []
             else [Typeutils.SanitizeToPlaintext t (Typeutils.s_Content s)]).
Proof.
  unfold Typeutils.filterableTextFields, Typeutils.fieldCount. cbv zeta.
  assert (Hne : forall l : list string,
             Forall (fun field => field <> "")
                    (List.filter (fun o => negb (String.eqb o "")) l)).
  { intros l. apply List.Forall_forall. intros x Hx.
    apply List.filter_In in Hx as [_ Hx].
    destruct (String.eqb_spec x ""); [discriminate Hx | assumption]. }
  assert (Hatt : forall l : list Typeutils.MediaAttachment,
             Forall (fun field => field <> "")
               (map Typeutils.att_Description
                  (List.filter
                     (fun a => negb (String.eqb (Typeutils.att_Description a) ""))
                     l))).
  { intros l. apply List.Forall_forall. intros x Hx.
    apply in_map_iff in Hx as (a & <- & Ha).
    apply List.filter_In in Ha as [_ Ha].
    destruct (String.eqb_spec (Typeutils.att_Description a) "");
      [discriminate Ha | assumption]. }
  rewrite (fold_left_append
             (fun a => negb (String.eqb (Typeutils.att_Description a) ""))
             Typeutils.att_Description).
  pose proof (filter_length_le
                (fun a => negb (String.eqb (Typeutils.att_Description a) ""))
                (Typeutils.s_Attachments s)) as Ha.
  specialize (Hatt (Typeutils.s_Attachments s)).
  set (descriptions := map Typeutils.att_Description _) in *.
  assert (Hd : length descriptions <= length (Typeutils.s_Attachments s))
    by (subst descriptions; now rewrite length_map).
  assert (Hcw : Forall (fun field => field <> "")
                  (if negb (String.eqb (Typeutils.s_ContentWarning s) "")
                   then [Typeutils.s_ContentWarning s] else [])).
  { destruct (String.eqb_spec (Typeutils.s_ContentWarning s) ""); simpl; auto. }
  destruct (Typeutils.s_Poll s) as [poll |].
  - rewrite (fold_left_append (fun o => negb (String.eqb o "")) (fun o => o)).
    rewrite map_id.
    pose proof (filter_length_le (fun o => negb (String.eqb o ""))
                                 (Typeutils.poll_Options poll)) as Ho.
    specialize (Hne (Typeutils.poll_Options poll)).
    set (options := List.filter _ (Typeutils.poll_Options poll)) in *.
    split.
    + rewrite !length_app.
      destruct (String.eqb (Typeutils.s_Content s) "");
        destruct (String.eqb (Typeutils.s_ContentWarning s) ""); simpl; lia.
    + exists (if String.eqb (Typeutils.s_Content s) "" then []
              else [Typeutils.SanitizeToPlaintext t (Typeutils.s_Content s)]),
        ((if negb (String.eqb (Typeutils.s_ContentWarning s) "")
          then [Typeutils.s_ContentWarning s] else [])
           ++ descriptions ++ options).
      split; [| split; [| reflexivity]].
      * destruct (String.eqb (Typeutils.s_Content s) "");
          destruct (String.eqb (Typeutils.s_ContentWarning s) ""); simpl;
          rewrite <- ?app_assoc; reflexivity.
      * repeat (apply Forall_app; split); assumption.
  - split.
    + rewrite !length_app.
      destruct (String.eqb (Typeutils.s_Content s) "");
        destruct (String.eqb (Typeutils.s_ContentWarning s) ""); simpl; lia.
    + exists (if String.eqb (Typeutils.s_Content s) "" then []
              else [Typeutils.SanitizeToPlaintext t (Typeutils.s_Content s)]),
        ((if negb (String.eqb (Typeutils.s_ContentWarning s) "")
          then [Typeutils.s_ContentWarning s] else [])
           ++ descriptions).
      split; [| split; [| reflexivity]].
      * destruct (String.eqb (Typeutils.s_Content s) "");
          destruct (String.eqb (Typeutils.s_ContentWarning s) ""); simpl;
          rewrite <- ?app_assoc; reflexivity.
      * repeat (apply Forall_app; split); assumption.
Qed.

(** X13. statusToAPIFilterResults returns the nil slice without looking
    at any filter when no context is given, when there are no filters, or
    when the status is the requesting account's own.  With a nil
    requesting account it dereferences the nil pointer exactly when a
    context is given and there is at least one filter. *)
Theorem X13_nothing_to_filter (t : Typeutils.TextTools) (now : Time)
    (s : Typeutils.Status) (filterContext : Typeutils.FilterContext)
    (filters : list Typeutils.Filter) :
  (forall requestingAccount,
      filterContext = Typeutils.FilterContextNone \/ filters = [] ->
      Typeutils.statusToAPIFilterResults t now s requestingAccount
        filterContext filters = Typeutils.Returns None)
  /\ (forall requestingAccount,
        Typeutils.s_AccountID s = acct_ID requestingAccount ->
        Typeutils.statusToAPIFilterResults t now s (Some requestingAccount)
          filterContext filters = Typeutils.Returns None)
  /\ (Typeutils.statusToAPIFilterResults t now s None filterContext filters
      = Typeutils.Panics
      <-> filterContext <> Typeutils.FilterContextNone /\ filters <> []).
Proof.
  unfold Typeutils.statusToAPIFilterResults. split; [| split].
  - intros requestingAccount [-> | ->]; [reflexivity |].
    destruct filterContext; reflexivity.
  - intros requestingAccount Hown. rewrite Hown, String.eqb_refl.
    destruct filterContext; try reflexivity;
      destruct (Nat.eqb (length filters) 0); reflexivity.
  - destruct filterContext; destruct filters as [|filter filters]; simpl;
      split; try discriminate; try (intros [H1 H2]; congruence);
      intros _; split; congruence.
Qed.

(** *** What a hide and a warn mean *)

Lemma keywordMatches_ok (t : Typeutils.TextTools) (fields : list string)
    (keywords : list Typeutils.FilterKeyword) (found l : list string) :
  Typeutils.keywordMatches t fields keywords found = Ok l ->
  l = found ++ map Typeutils.fk_Keyword
                   (List.filter (keyword_hit t fields) keywords).
Proof.
  revert found. induction keywords as [|k keywords IH]; intros found; simpl.
  - intros H. injection H as <-. now rewrite app_nil_r.
  - unfold keyword_hit at 1.
    destruct (Typeutils.Compile t (Typeutils.keyword_expr t k)) as [re | err];
      [| discriminate].
    intros H. apply IH in H. rewrite H.
    destruct (existsb (Typeutils.MatchString t re) fields); simpl;
      [now rewrite <- app_assoc | reflexivity].
Qed.

Lemma keywordMatches_hit (t : Typeutils.TextTools) (fields : list string)
    (keywords : list Typeutils.FilterKeyword) (l : list string) :
  Typeutils.keywordMatches t fields keywords [] = Ok l ->
  Nat.ltb 0 (length l) = existsb (keyword_hit t fields) keywords.
Proof.
  intros H. apply keywordMatches_ok in H. subst l. simpl.
  rewrite length_map. apply filter_nonempty.
Qed.

Lemma statusMatches_hit (s : Typeutils.Status)
    (statuses : list Typeutils.FilterStatus) :
  Nat.ltb 0 (length (Typeutils.statusMatches s statuses))
  = existsb (fun fs => String.eqb (Typeutils.s_ID s) (Typeutils.fs_StatusID fs))
            statuses.
Proof.
  unfold Typeutils.statusMatches.
  induction statuses as [|fs statuses IH]; simpl; [reflexivity |].
  destruct (String.eqb (Typeutils.s_ID s) (Typeutils.fs_StatusID fs));
    [reflexivity | exact IH].
Qed.

Lemma filter_loop_hidden (t : Typeutils.TextTools) (now : Time)
    (s : Typeutils.Status) (c : Typeutils.FilterContext)
    (filters : list Typeutils.Filter) (acc : list Typeutils.FilterResult) :
  Typeutils.filter_loop t now s c filters acc = Typeutils.ErrHideStatus ->
  exists filter,
    In filter filters
    /\ Typeutils.flt_Action filter = Typeutils.FilterActionHide
    /\ in_force now c filter = true
    /\ filter_hits t s filter = true.
Proof.
  revert acc. induction filters as [|filter filters IH]; intros acc; simpl;
    [discriminate |].
  assert (Hrest : forall acc',
             Typeutils.filter_loop t now s c filters acc'
             = Typeutils.ErrHideStatus ->
             exists f, (filter = f \/ In f filters)
                       /\ Typeutils.flt_Action f = Typeutils.FilterActionHide
                       /\ in_force now c f = true
                       /\ filter_hits t s f = true).
  { intros acc' H. apply IH in H as (f & Hin & H). exists f. tauto. }
  unfold in_force at 1, filter_hits at 1.
  destruct (Typeutils.filterAppliesInContext filter c) eqn:Happlies; simpl;
    [| apply Hrest].
  destruct (Typeutils.is_expired now filter) eqn:Hexp; simpl; [apply Hrest |].
  destruct (Typeutils.keywordMatches t _ _ []) as [kw | err] eqn:Hkw;
    [| discriminate].
  rewrite (keywordMatches_hit _ _ _ _ Hkw), statusMatches_hit.
  destruct (_ || _) eqn:Hhit; [| apply Hrest].
  destruct (Typeutils.flt_Action filter) eqn:Haction;
    [apply Hrest | apply Hrest |].
  intros _. exists filter. unfold in_force, filter_hits.
  rewrite Happlies, Hexp, Hhit. auto.
Qed.

Lemma filter_loop_returns (t : Typeutils.TextTools) (now : Time)
    (s : Typeutils.Status) (c : Typeutils.FilterContext)
    (filters : list Typeutils.Filter) (acc rs : list Typeutils.FilterResult) :
  Typeutils.filter_loop t now s c filters acc = Typeutils.Returns rs ->
  exists more,
    rs = acc ++ more
    /\ length more <= length filters
    /\ Forall (fun r =>
                 exists filter,
                   In filter filters
                   /\ Typeutils.flt_Action filter = Typeutils.FilterActionWarn
                   /\ in_force now c filter = true
                   /\ filter_hits t s filter = true
                   /\ Typeutils.FilterToAPIFilterV2 t filter
                      = Ok (Typeutils.fr_Filter r))
              more.
Proof.
  revert acc. induction filters as [|filter filters IH]; intros acc; simpl.
  - intros H. injection H as <-. exists []. rewrite app_nil_r. auto.
  - assert (Hrest : forall acc',
               Typeutils.filter_loop t now s c filters acc'
               = Typeutils.Returns rs ->
               exists more,
                 rs = acc' ++ more
                 /\ length more <= S (length filters)
                 /\ Forall (fun r =>
                      exists f,
                        (filter = f \/ In f filters)
                        /\ Typeutils.flt_Action f = Typeutils.FilterActionWarn
                        /\ in_force now c f = true
                        /\ filter_hits t s f = true
                        /\ Typeutils.FilterToAPIFilterV2 t f
                           = Ok (Typeutils.fr_Filter r))
                      more).
    { intros acc' H. apply IH in H as (more & -> & Hlen & Hall).
      exists more. split; [reflexivity |]. split; [lia |].
      eapply Forall_impl; [exact Hall |].
      intros r (f & Hin & H). exists f. tauto. }
    destruct (Typeutils.filterAppliesInContext filter c) eqn:Happlies; simpl;
      [| apply Hrest].
    destruct (Typeutils.is_expired now filter) eqn:Hexp; simpl; [apply Hrest |].
    destruct (Typeutils.keywordMatches t _ _ []) as [kw | err] eqn:Hkw;
      [| discriminate].
    rewrite (keywordMatches_hit _ _ _ _ Hkw), statusMatches_hit.
    destruct (_ || _) eqn:Hhit; [| apply Hrest].
    destruct (Typeutils.flt_Action filter) eqn:Haction;
      [apply Hrest | | discriminate].
    cbn [Typeutils.FilterToAPIFilterV2].
    intros H. apply IH in H as (more & -> & Hlen & Hall).
    eexists (_ :: more). split; [now rewrite <- app_assoc |].
    split; [simpl; lia |].
    constructor.
    + exists filter. cbn [Typeutils.fr_Filter].
      unfold in_force, filter_hits.
      rewrite Happlies, Hexp, Hhit. repeat split; auto.
      unfold Typeutils.FilterToAPIFilterV2. now rewrite Haction.
    + eapply Forall_impl; [exact Hall |].
      intros r (f & Hin & H). exists f. tauto.
Qed.

(** X14. What the outcomes of statusToAPIFilterResults mean.  It
    answers ErrHideStatus only if one of the filters has the hide action,
    applies in the context, has not expired, and matches the status by a
    keyword or by listing it.  Every result it returns was produced by a
    filter with the warn action that applies in the context, has not
    expired and matches the status; and it returns at most one result per
    filter. *)
Theorem X14_hide_and_warn_are_earned (t : Typeutils.TextTools) (now : Time)
    (s : Typeutils.Status) (requestingAccount : option Account)
    (filterContext : Typeutils.FilterContext)
    (filters : list Typeutils.Filter) :
  (Typeutils.statusToAPIFilterResults t now s requestingAccount
     filterContext filters = Typeutils.ErrHideStatus ->
   exists filter,
     In filter filters
     /\ Typeutils.flt_Action filter = Typeutils.FilterActionHide
     /\ in_force now filterContext filter = true
     /\ filter_hits t s filter = true)
  /\ (forall filterResults,
        Typeutils.statusToAPIFilterResults t now s requestingAccount
          filterContext filters = Typeutils.Returns (Some filterResults) ->
        length filterResults <= length filters
        /\ Forall (fun r =>
                     exists filter,
                       In filter filters
                       /\ Typeutils.flt_Action filter
                          = Typeutils.FilterActionWarn
                       /\ in_force now filterContext filter = true
                       /\ filter_hits t s filter = true
                       /\ Typeutils.FilterToAPIFilterV2 t filter
                          = Ok (Typeutils.fr_Filter r))
                  filterResults).
Proof.
  unfold Typeutils.statusToAPIFilterResults. split.
  - destruct filterContext; try discriminate;
      (destruct (Nat.eqb (length filters) 0); [discriminate |]);
      (destruct requestingAccount as [account |]; [| discriminate]);
      (destruct (String.eqb _ _); [discriminate |]);
      (destruct (Typeutils.filter_loop _ _ _ _ _ _) eqn:Hloop;
       try discriminate);
      intros _; eapply filter_loop_hidden; exact Hloop.
  - intros filterResults.
    destruct filterContext; try discriminate;
      (destruct (Nat.eqb (length filters) 0); [discriminate |]);
      (destruct requestingAccount as [account |]; [| discriminate]);
      (destruct (String.eqb _ _); [discriminate |]);
      (destruct (Typeutils.filter_loop _ _ _ _ _ _) eqn:Hloop;
       try discriminate);
      intros H; injection H as ->;
      apply filter_loop_returns in Hloop as (more & -> & Hlen & Hall);
      (split; [exact Hlen | exact Hall]).
Qed.

(** *** Filters that are not in force *)

Lemma filter_loop_in_force (t : Typeutils.TextTools) (now : Time)
    (s : Typeutils.Status) (c : Typeutils.FilterContext)
    (filters : list Typeutils.Filter) (acc : list Typeutils.FilterResult) :
  Typeutils.filter_loop t now s c filters acc
  = Typeutils.filter_loop t now s c (List.filter (in_force now c) filters) acc.
Proof.
  revert acc. induction filters as [|filter filters IH]; intros acc;
    [reflexivity |].
  cbn [List.filter]. unfold in_force at 1.
  destruct (Typeutils.filterAppliesInContext filter c) eqn:Happlies;
    [| simpl; rewrite Happlies; simpl; apply IH].
  destruct (Typeutils.is_expired now filter) eqn:Hexp;
    [simpl; rewrite Happlies, Hexp; simpl; apply IH |].
  simpl. rewrite Happlies, Hexp. simpl.
  destruct (Typeutils.keywordMatches t _ _ []) as [kw | err];
    [| reflexivity].
  destruct (_ || _); [| apply IH].
  destruct (Typeutils.flt_Action filter); auto.
Qed.

(** X15. A filter that is expired, or that does not apply in the
    context, has no influence on the outcome of statusToAPIFilterResults:
    as long as one filter is in force, dropping all the others changes
    nothing.  When filters are given but none of them is in force, the
    answer for somebody else's status is the empty list (not the nil slice
    that no filters at all give). *)
Theorem X15_only_filters_in_force_count (t : Typeutils.TextTools) (now : Time)
    (s : Typeutils.Status) (requestingAccount : Account)
    (filterContext : Typeutils.FilterContext)
    (filters : list Typeutils.Filter) :
  filters <> [] ->
  Typeutils.s_AccountID s <> acct_ID requestingAccount ->
  filterContext <> Typeutils.FilterContextNone ->
  match List.filter (in_force now filterContext) filters with
  | [] =>
      Typeutils.statusToAPIFilterResults t now s (Some requestingAccount)
        filterContext filters = Typeutils.Returns (Some [])
  | kept =>
      Typeutils.statusToAPIFilterResults t now s (Some requestingAccount)
        filterContext filters
      = Typeutils.statusToAPIFilterResults t now s (Some requestingAccount)
          filterContext kept
  end.
Proof.
  intros Hfilters Hother Hcontext.
  unfold Typeutils.statusToAPIFilterResults.
  apply String.eqb_neq in Hother. rewrite Hother.
  rewrite (filter_loop_in_force t now s filterContext filters []).
  destruct filters as [|filter0 filters]; [congruence |].
  set (all := filter0 :: filters).
  destruct (List.filter (in_force now filterContext) all)
    as [|filter kept] eqn:Hkept.
  - destruct filterContext; try congruence; reflexivity.
  - destruct filterContext; try congruence; reflexivity.
Qed.


(** *** NotificationToAPINotification *)

Ltac ask_reader :=
  repeat match goal with
    | |- context [let (_, _) := ?m in _] =>
        let r := fresh "r" in
        let st := fresh "st" in
        destruct m as [r st]; try destruct r
    end.

Lemma conversion_outcome {St : Type} (c : Typeutils.Backend St)
    (t : Typeutils.TextTools) (n : Typeutils.Notification)
    (filters : list Typeutils.Filter) (st : St) :
  match fst (Typeutils.NotificationToAPINotification c t n filters st) with
  | Err err => is_no_entries err = false
  | Ok a =>
      Typeutils.an_ID a = Typeutils.n_ID n
      /\ Typeutils.an_Type a = Typeutils.n_NotificationType n
      /\ (Typeutils.an_Status a = None <-> Typeutils.n_StatusID n = "")
  end.
Proof.
  unfold Typeutils.NotificationToAPINotification, bind_R, unit_R.
  destruct (String.eqb_spec (Typeutils.n_StatusID n) "") as [Hnone | Hsome];
    cbn [negb];
    destruct (Typeutils.n_TargetAccount n), (Typeutils.n_OriginAccount n),
      (Typeutils.n_Status n);
    ask_reader; cbn [fst]; try reflexivity.
  all: split; [reflexivity |]; split; [reflexivity |];
    cbn [Typeutils.an_Status]; split; intros H;
    first [ exact Hnone | reflexivity | contradiction
          | match type of H with
            | context [Typeutils.as_Reblog ?a] =>
                destruct (Typeutils.as_Reblog a); discriminate H
            end ].
Qed.

(** X16. NotificationToAPINotification formats every failure of its
    collaborators into a new error text, so no error it returns is (or
    wraps) [db.ErrNoEntries].  When it succeeds, the API notification
    carries the notification's ID and type, and it carries a status
    exactly when the notification has a status ID. *)
Theorem X16_conversion_errors_are_opaque {St : Type}
    (c : Typeutils.Backend St) (t : Typeutils.TextTools)
    (n : Typeutils.Notification) (filters : list Typeutils.Filter) (st : St) :
  match fst (Typeutils.NotificationToAPINotification c t n filters st) with
  | Err err => is_no_entries err = false
  | Ok a =>
      Typeutils.an_ID a = Typeutils.n_ID n
      /\ Typeutils.an_Type a = Typeutils.n_NotificationType n
      /\ (Typeutils.an_Status a = None <-> Typeutils.n_StatusID n = "")
  end.
Proof. apply conversion_outcome. Qed.

(** *** notifVisible *)

(** X17. notifVisible lets a sign-up notification with a loaded origin
    account through without consulting the visibility filter at all,
    whatever its status; a notification with neither origin account nor
    status loaded is visible without any check; and otherwise [true] is
    answered only after the account check (for a loaded origin) and the
    status check (for a loaded status) have both answered [true], in that
    order.  In full: with a loaded origin that is no sign-up, an error or
    a [false] of the account check is the answer, and the status is not
    checked; after a [true], and likewise when no origin is loaded, the
    answer is that of the status check when a status is loaded, and
    [true] otherwise. *)
Theorem X17_signup_bypasses_visibility {St : Type}
    (p : Timeline.Services St) (n : Typeutils.Notification) (acct : Account)
    (st : St) :
  (forall origin,
      Typeutils.n_OriginAccount n = Some origin ->
      Typeutils.n_NotificationType n = Timeline.NotificationSignup ->
      Timeline.notifVisible p n acct st = (Ok true, st))
  /\ (Typeutils.n_OriginAccount n = None ->
      Typeutils.n_Status n = None ->
      Timeline.notifVisible p n acct st = (Ok true, st))
  /\ (forall origin st',
        Typeutils.n_OriginAccount n = Some origin ->
        Typeutils.n_NotificationType n <> Timeline.NotificationSignup ->
        Timeline.notifVisible p n acct st = (Ok true, st') ->
        exists st1,
          Timeline.AccountVisible p acct origin st = (Ok true, st1)
          /\ forall status,
               Typeutils.n_Status n = Some status ->
               Timeline.StatusVisible p acct status st1 = (Ok true, st'))
  /\ (forall origin,
        Typeutils.n_OriginAccount n = Some origin ->
        Typeutils.n_NotificationType n <> Timeline.NotificationSignup ->
        Timeline.notifVisible p n acct st
        = match Timeline.AccountVisible p acct origin st with
          | (Err err, st1) => (Err err, st1)
          | (Ok false, st1) => (Ok false, st1)
          | (Ok true, st1) =>
              match Typeutils.n_Status n with
              | Some status => Timeline.StatusVisible p acct status st1
              | None => (Ok true, st1)
              end
          end)
  /\ (Typeutils.n_OriginAccount n = None ->
      Timeline.notifVisible p n acct st
      = match Typeutils.n_Status n with
        | Some status => Timeline.StatusVisible p acct status st
        | None => (Ok true, st)
        end).
Proof.
  unfold Timeline.notifVisible, bind_R. split; [| split; [| split; [| split]]].
  - intros origin -> ->. now rewrite String.eqb_refl.
  - intros -> ->. reflexivity.
  - intros origin st' -> Htype.
    apply String.eqb_neq in Htype. rewrite Htype.
    destruct (Timeline.AccountVisible p acct origin st) as [[[] | err] st1];
      cbn [negb]; unfold unit_R; try discriminate.
    intros H. exists st1. split; [reflexivity |].
    intros status Hstatus'. rewrite Hstatus' in H.
    destruct (Timeline.StatusVisible p acct status st1) as [[[] | err] st2];
      cbn [negb] in H; try discriminate H.
    now injection H as <-.
  - intros origin -> Htype.
    apply String.eqb_neq in Htype. rewrite Htype.
    destruct (Timeline.AccountVisible p acct origin st) as [[[] | err] st1];
      cbn [negb]; try reflexivity.
    destruct (Typeutils.n_Status n) as [status |]; [| reflexivity].
    destruct (Timeline.StatusVisible p acct status st1) as [[[] | err] st2];
      reflexivity.
  - intros ->.
    destruct (Typeutils.n_Status n) as [status |]; [| reflexivity].
    destruct (Timeline.StatusVisible p acct status st) as [[[] | err] st2];
      reflexivity.
Qed.

(** *** NotificationsGet *)

Lemma last_cons {A : Type} (l : list A) (x d : A) :
  List.last (x :: l) d = List.last l x.
Proof.
  revert x d. induction l as [|y l IH]; intros x d; [reflexivity |].
  change (List.last (x :: y :: l) d) with (List.last (y :: l) d).
  now rewrite !IH.
Qed.

Lemma notifs_loop_cursors {St : Type} (p : Timeline.Services St)
    (t : Typeutils.TextTools) (acct : Account)
    (filters : list Typeutils.Filter) (count : nat)
    (notifs : list Typeutils.Notification) :
  forall (i : nat) (items : list Typeutils.APINotification)
         (next prev : string) (st : St),
    i + length notifs = count ->
    exists more st',
      Timeline.notifs_loop p t acct filters count i notifs items next prev st
      = ((items ++ more,
          match notifs with
          | [] => next
          | n :: rest => Typeutils.n_ID (List.last rest n)
          end,
          if Nat.eqb i 0
          then match notifs with
               | [] => prev
               | n :: _ => Typeutils.n_ID n
               end
          else prev), st')
      /\ length more <= length notifs.
Proof.
  induction notifs as [|n rest IH]; intros i items next prev st Hcount.
  - exists [], st. simpl. rewrite app_nil_r.
    destruct (Nat.eqb i 0); auto.
  - cbn [Timeline.notifs_loop]. unfold bind_R at 1.
    assert (Hnext : forall next1 prev1 items1 st1,
               exists more st',
                 Timeline.notifs_loop p t acct filters count (S i) rest
                   items1
                   (if Nat.eqb i (count - 1) then Typeutils.n_ID n else next1)
                   prev1 st1
                 = ((items1 ++ more, Typeutils.n_ID (List.last rest n), prev1), st')
                   /\ length more <= length rest).
    { intros next1 prev1 items1 st1.
      destruct (IH (S i) items1
                   (if Nat.eqb i (count - 1) then Typeutils.n_ID n else next1)
                   prev1 st1) as (more & st' & Hrun & Hlen);
        [simpl in Hcount; lia |].
      exists more, st'. split; [| exact Hlen].
      rewrite Hrun. cbn [Nat.eqb]. f_equal. f_equal. f_equal.
      destruct rest as [|n' rest']; [| now rewrite last_cons].
      simpl in Hcount.
      replace (count - 1) with i by lia. now rewrite Nat.eqb_refl. }
    destruct (Timeline.notifVisible p n acct st) as [[visible | err] st1].
    + destruct visible; cbn [negb].
      * unfold bind_R at 1.
        destruct (Typeutils.NotificationToAPINotification _ t n filters st1)
          as [[item | err] st2].
        -- destruct (Hnext next (if Nat.eqb i 0 then Typeutils.n_ID n else prev)
                           (items ++ [item]) st2) as (more & st' & -> & Hlen).
           exists (item :: more), st'. split; [| simpl; lia].
           now rewrite <- app_assoc.
        -- unfold bind_R at 1.
           destruct (Timeline.log_Debugf p _ st2) as [[] st3].
           destruct (Hnext next (if Nat.eqb i 0 then Typeutils.n_ID n else prev)
                           items st3) as (more & st' & -> & Hlen).
           exists more, st'. split; [reflexivity | simpl; lia].
      * destruct (Hnext next (if Nat.eqb i 0 then Typeutils.n_ID n else prev)
                        items st1) as (more & st' & -> & Hlen).
        exists more, st'. split; [reflexivity | simpl; lia].
    + unfold bind_R at 1.
      destruct (Timeline.log_Debugf p _ st1) as [[] st2].
      destruct (Hnext next (if Nat.eqb i 0 then Typeutils.n_ID n else prev)
                      items st2) as (more & st' & -> & Hlen).
      exists more, st'. split; [reflexivity | simpl; lia].
Qed.

(** X18. When storage lists at least one notification and the filters
    can be read, NotificationsGet packages a page whose cursor for older
    entries is the ID of the last notification listed and whose cursor for
    newer entries is the ID of the first one, however many of the
    notifications are invisible or cannot be converted; the page holds at
    most as many items as were listed, and the limit is passed on
    unchanged. *)
Theorem X18_page_cursors_ignore_skipped_items {St : Type}
    (p : Timeline.Services St) (t : Typeutils.TextTools) (account : Account)
    (maxID sinceID minID : string) (limit : nat) (excludeTypes : list string)
    (first : Typeutils.Notification) (others : list Typeutils.Notification)
    (err : option error) (filters : list Typeutils.Filter) (st st1 st2 : St) :
  Timeline.GetAccountNotifications p (acct_ID account) maxID sinceID minID
    limit excludeTypes st = ((first :: others, err), st1) ->
  (forall e, err = Some e -> is_no_entries e = true) ->
  Timeline.GetFiltersForAccountID p (acct_ID account) st1 = (Ok filters, st2) ->
  exists items st3,
    Timeline.NotificationsGet p t account maxID sinceID minID limit
                              excludeTypes st
    = (Timeline.PackagePageableResponse
         (Timeline.mkParams items "api/v1/notifications"
            (Typeutils.n_ID (List.last others first)) (Typeutils.n_ID first) limit),
       st3)
    /\ length items <= S (length others).
Proof.
  intros Hlist Herr Hfilters.
  unfold Timeline.NotificationsGet, bind_R, unit_R.
  rewrite Hlist.
  assert (Hreal : match err with
                  | Some e => if negb (is_no_entries e) then Some e else None
                  | None => None
                  end = None).
  { destruct err as [e |]; [| reflexivity]. now rewrite (Herr e eq_refl). }
  rewrite Hreal. cbn [length Nat.eqb]. rewrite Hfilters.
  destruct (notifs_loop_cursors p t account filters (S (length others))
              (first :: others) 0 [] "" "" st2 eq_refl)
    as (more & st3 & Hloop & Hlen).
  fold (@bind_R St) in Hloop. unfold bind_R in Hloop.
  rewrite Hloop. exists more, st3. split; [reflexivity | exact Hlen].
Qed.

(** X19. Missing rows are no error for the read API.  NotificationsGet
    answers the empty page, after the one listing call and without reading
    the filters, when storage lists nothing, also when it reports
    [db.ErrNoEntries]; only another storage error becomes an internal
    error.  NotificationsClear likewise answers nil when the deletion
    reports [db.ErrNoEntries], and an internal error for any other
    failure. *)
Theorem X19_no_rows_is_not_an_error {St : Type}
    (p : Timeline.Services St) (t : Typeutils.TextTools) (account : Account)
    (maxID sinceID minID : string) (limit : nat) (excludeTypes : list string)
    (st : St) :
  (forall notifs err st1,
      Timeline.GetAccountNotifications p (acct_ID account) maxID sinceID minID
        limit excludeTypes st = ((notifs, err), st1) ->
      match err with
      | Some e =>
          if is_no_entries e then
            notifs = [] ->
            Timeline.NotificationsGet p t account maxID sinceID minID limit
              excludeTypes st = (Timeline.EmptyPageableResponse, st1)
          else
            Timeline.NotificationsGet p t account maxID sinceID minID limit
              excludeTypes st
            = (Timeline.PageError (Timeline.NewErrorInternalError
                 (ErrWrap "NotificationsGet: db error getting notifications" e)),
               st1)
      | None =>
          notifs = [] ->
          Timeline.NotificationsGet p t account maxID sinceID minID limit
            excludeTypes st = (Timeline.EmptyPageableResponse, st1)
      end)
  /\ (forall r st1,
        Timeline.DeleteNotifications p [] (acct_ID account) "" st = (r, st1) ->
        Timeline.NotificationsClear p account st
        = (match r with
           | Some e => if is_no_entries e then None
                       else Some (Timeline.NewErrorInternalError e)
           | None => None
           end, st1)).
Proof.
  split.
  - intros notifs err st1 Hlist.
    unfold Timeline.NotificationsGet, bind_R, unit_R. rewrite Hlist.
    destruct err as [e |]; [destruct (is_no_entries e) |]; cbn [negb];
      try reflexivity; intros ->; reflexivity.
  - intros r st1 Hdel.
    unfold Timeline.NotificationsClear, bind_R, unit_R. rewrite Hdel.
    destruct r as [e |]; [destruct (is_no_entries e) |]; reflexivity.
Qed.

(** *** NotificationGet *)

(** X20. NotificationGet shows a notification to its target account
    only.  For a notification addressed to another account it answers
    not-found straight after the lookup, without reading filters or
    converting anything.  A not-found answer always comes from the lookup
    (no such row, or somebody else's notification): a failing conversion
    is always an internal error.  And an API notification that is returned
    is the conversion of the stored notification, which is addressed to the
    account. *)
Theorem X20_only_the_target_reads_a_notification {St : Type}
    (p : Timeline.Services St) (t : Typeutils.TextTools) (account : Account)
    (targetNotifID : string) (st : St) :
  (forall notif,
      fst (Timeline.GetNotificationByID p targetNotifID st) = Ok notif ->
      Typeutils.n_TargetAccountID notif <> acct_ID account ->
      exists err,
        Timeline.NotificationGet p t account targetNotifID st
        = (inr (Timeline.NewErrorNotFound err), snd (Timeline.GetNotificationByID p targetNotifID st)))
  /\ (forall err st',
        Timeline.NotificationGet p t account targetNotifID st
        = (inr (Timeline.NewErrorNotFound err), st') ->
        st' = snd (Timeline.GetNotificationByID p targetNotifID st)
        /\ (fst (Timeline.GetNotificationByID p targetNotifID st) = Err err /\ is_no_entries err = true
            \/ exists notif,
                 fst (Timeline.GetNotificationByID p targetNotifID st) = Ok notif
                 /\ Typeutils.n_TargetAccountID notif <> acct_ID account))
  /\ (forall apiNotif st',
        Timeline.NotificationGet p t account targetNotifID st
        = (inl apiNotif, st') ->
        exists notif,
          fst (Timeline.GetNotificationByID p targetNotifID st) = Ok notif
          /\ Typeutils.n_TargetAccountID notif = acct_ID account
          /\ Typeutils.an_ID apiNotif = Typeutils.n_ID notif).
Proof.
  unfold Timeline.NotificationGet, bind_R, unit_R.
  destruct (Timeline.GetNotificationByID p targetNotifID st)
    as [[notif | err0] st1]; cbn [fst snd].
  - destruct (String.eqb_spec (Typeutils.n_TargetAccountID notif)
                              (acct_ID account)) as [Hsame | Hother];
      cbn [negb].
    + split; [| split].
      * intros notif' H. injection H as <-. intros Hne. contradiction.
      * intros err st'.
        destruct (Timeline.GetFiltersForAccountID p (acct_ID account) st1)
          as [[filters | err1] st2]; [| discriminate].
        pose proof (conversion_outcome (Timeline.converter p) t notif
                      filters st2) as Hconv.
        destruct (Typeutils.NotificationToAPINotification _ t notif filters st2)
          as [[apiNotif | err2] st3]; cbn [fst] in Hconv; [discriminate |].
        rewrite Hconv. discriminate.
      * intros apiNotif st'.
        destruct (Timeline.GetFiltersForAccountID p (acct_ID account) st1)
          as [[filters | err1] st2]; [| discriminate].
        pose proof (conversion_outcome (Timeline.converter p) t notif
                      filters st2) as Hconv.
        destruct (Typeutils.NotificationToAPINotification _ t notif filters st2)
          as [[apiNotif' | err2] st3]; cbn [fst] in Hconv.
        -- intros H. injection H as <- <-. exists notif. tauto.
        -- destruct (is_no_entries err2); discriminate.
    + split; [| split].
      * intros notif' H. injection H as <-. intros _. eexists. reflexivity.
      * intros err st' H. injection H as <- <-.
        split; [reflexivity |]. right. exists notif. auto.
      * intros apiNotif st' H. discriminate H.
  - split; [| split].
    + intros notif H. discriminate H.
    + intros err st'. destruct (is_no_entries err0) eqn:Hno; [| discriminate].
      intros H. injection H as <- <-. auto.
    + intros apiNotif st'. destruct (is_no_entries err0); discriminate.
Qed.

(** *** Running without a held lock *)

Lemma calm_ret {A : Type} (a : A) : calm_run (ret a).
Proof. intros w Hw. exists a, w. auto. Qed.

Lemma calm_bind {A B : Type} (m : M A) (k : A -> M B) :
  calm_run m -> (forall a, calm_run (k a)) -> calm_run (bind m k).
Proof.
  intros Hm Hk w Hw. destruct (Hm w Hw) as (a & w1 & Hrun & Hw1).
  unfold bind. rewrite Hrun. now apply Hk.
Qed.

Lemma calm_emit (e : Event) : calm_run (emit e).
Proof. intros w Hw. eexists _, _. split; [reflexivity | exact Hw]. Qed.

Lemma calm_call_ (e : Event) : calm_run (call_ e).
Proof.
  intros w Hw. unfold call_, call.
  destruct (fails env (history w) e);
    (eexists _, _; split; [reflexivity | exact Hw]).
Qed.

Lemma calm_Populate (e : Event) : calm_run (Populate e).
Proof.
  intros w Hw. unfold Populate.
  destruct (fails env (history w) e); [| destruct (no_rows env (history w) e)];
    (eexists _, _; split; [reflexivity | exact Hw]).
Qed.

Lemma calm_log_Errorf (msg : string) (err : error) :
  calm_run (log_Errorf msg err).
Proof. apply calm_emit. Qed.

Lemma calm_IsThreadMutedByAccount (thread account : string) :
  calm_run (IsThreadMutedByAccount thread account).
Proof.
  intros w Hw. unfold IsThreadMutedByAccount.
  destruct (fails env (history w) _);
    (eexists _, _; split; [reflexivity | exact Hw]).
Qed.

Lemma calm_GetNotification (k : NotifKey) : calm_run (GetNotification k).
Proof.
  intros w Hw. unfold GetNotification.
  destruct (fails env (history w) _); [| destruct (List.find _ _)];
    (eexists _, _; split; [reflexivity | exact Hw]).
Qed.

Lemma calm_DeleteNotificationByID (id : string) :
  calm_run (DeleteNotificationByID id).
Proof.
  intros w Hw. unfold DeleteNotificationByID.
  destruct (fails env (history w) _); [| destruct (_ && _)];
    (eexists _, _; split; [reflexivity | exact Hw]).
Qed.

Lemma calm_Notify (t : NotificationType) (target origin : Account)
    (status : string) :
  calm_run (Notify t target origin status).
Proof.
  intros w Hw. unfold Notify.
  destruct (notify_from_returns (mkArgs t target origin status) [] 7 AtEntry w)
    as (r & w' & Hrun & Hlocks);
    [reflexivity | simpl; lia | now rewrite Hw |].
  exists r, w'. auto.
Qed.

Ltac calm :=
  repeat first
    [ apply calm_ret
    | apply calm_Notify
    | apply calm_Populate
    | apply calm_IsThreadMutedByAccount
    | apply calm_GetNotification
    | apply calm_DeleteNotificationByID
    | apply calm_emit
    | apply calm_call_
    | apply calm_bind; [| intros ?]
    | match goal with
      | |- calm_run (if ?b then _ else _) => destruct b
      | |- calm_run (match ?x with _ => _ end) => destruct x
      end ].

Lemma calm_notifyFave (fave : StatusFave) : calm_run (notifyFave fave).
Proof. unfold notifyFave. calm. Qed.

Lemma calm_notifyAnnounce (status : Status) : calm_run (notifyAnnounce status).
Proof. unfold notifyAnnounce. calm. Qed.

Lemma calm_notifyFollow (follow : Follow) : calm_run (notifyFollow follow).
Proof. unfold notifyFollow. cbv zeta. calm. Qed.

Lemma settles_ret {A : Type} (a : A) (P : A -> Prop) :
  P a -> settles (ret_W a) P.
Proof. intros Ha s Hs. exists a, s. auto. Qed.

Lemma settles_bind {A B : Type} (m : W A) (k : A -> W B) (P : B -> Prop) :
  settles m (fun _ => True) -> (forall a, settles (k a) P) ->
  settles (bind_W m k) P.
Proof.
  intros Hm Hk s Hs. destruct (Hm s Hs) as (a & s1 & Hrun & Hs1 & _).
  unfold bind_W. rewrite Hrun. now apply Hk.
Qed.

Lemma settles_any {A : Type} (m : W A) (P : A -> Prop) :
  settles m P -> settles m (fun _ => True).
Proof.
  intros Hm s Hs. destruct (Hm s Hs) as (a & s' & Hrun & Hs' & _).
  exists a, s'. auto.
Qed.

Lemma settles_lift {A : Type} (m : M A) :
  calm_run m -> settles (lift m) (fun _ => True).
Proof.
  intros Hm s Hs. destruct (Hm (inner s) Hs) as (a & w' & Hrun & Hw').
  unfold lift. rewrite Hrun. eexists _, _. split; [reflexivity |].
  split; [exact Hw' | exact I].
Qed.

Lemma settles_ask (c : Call) : settles (ask c) (fun _ => True).
Proof.
  intros s Hs. eexists _, _. split; [reflexivity |]. split; [exact Hs | exact I].
Qed.

Lemma settles_ask_for {A : Type} (c : Call)
    (given : list Event -> list Made -> A) :
  settles (ask_for c given) (fun _ => True).
Proof.
  intros s Hs. eexists _, _. split; [reflexivity |]. split; [exact Hs | exact I].
Qed.

Lemma settles_before_call : settles before_call (fun _ => True).
Proof. intros s Hs. exists s, s. auto. Qed.

Lemma settles_logging (msg : string) (m : W (option error)) :
  settles m (fun _ => True) -> settles (logging_W msg m) (fun _ => True).
Proof.
  intros Hm. unfold logging_W. apply settles_bind; [exact Hm |].
  intros [err |].
  - apply settles_lift, calm_log_Errorf.
  - now apply settles_ret.
Qed.

Lemma settles_invalidate (id : string) :
  settles (invalidateStatusFromTimelines id) (fun _ => True).
Proof. apply settles_lift, calm_emit. Qed.

Lemma settles_purge_all (purges : list Event) :
  settles (purge_all purges) (fun _ => True).
Proof.
  induction purges as [|e purges IH]; simpl.
  - now apply settles_ret.
  - apply settles_bind; [apply settles_lift, calm_emit | intros _; exact IH].
Qed.

Lemma settles_notify_voters (status : Status) (votes : list Voter)
    (errs : list error) :
  settles (notify_voters status votes errs) (fun _ => True).
Proof.
  revert errs. induction votes as [|vote votes IH]; intros errs; simpl.
  - now apply settles_ret.
  - destruct (IsRemote (voter_Account vote)); [apply IH |].
    apply settles_bind; [apply settles_lift, calm_Notify |].
    intros r. apply IH.
Qed.

Lemma settles_notify_moderators (newUser : User) (mods : list Account)
    (errs : list error) :
  settles (notify_moderators newUser mods errs) (fun _ => True).
Proof.
  revert errs. induction mods as [|moderator mods IH]; intros errs; simpl.
  - now apply settles_ret.
  - apply settles_bind; [apply settles_lift, calm_Notify |].
    intros r. apply IH.
Qed.

Ltac settle_step :=
  first
    [ apply settles_ret; first [reflexivity | exact I]
    | apply settles_logging
    | apply settles_invalidate
    | apply settles_purge_all
    | apply settles_notify_voters
    | apply settles_notify_moderators
    | apply settles_ask
    | apply settles_ask_for
    | apply settles_before_call
    | apply settles_lift;
      first [ apply calm_Notify | apply calm_notifyFave
            | apply calm_notifyAnnounce | apply calm_notifyFollow
            | apply calm_Populate | apply calm_call_ | apply calm_emit ]
    | apply settles_bind; [| intros ?]
    | match goal with
      | |- settles (if ?b then _ else _) _ => destruct b
      | |- settles (match ?x with _ => _ end) _ => destruct x
      | |- settles (let (_, _) := ?x in _) _ => destruct x
      end ].

Ltac settle_run := repeat settle_step.

Lemma settles_notifyFollowRequest (followReq : FollowRequest) :
  settles (notifyFollowRequest followReq) (fun _ => True).
Proof. unfold notifyFollowRequest. settle_run. Qed.

Lemma settles_notifyPollClose (polled : PolledStatus) :
  settles (notifyPollClose polled) (fun _ => True).
Proof. unfold notifyPollClose. cbv zeta. settle_run. Qed.

Lemma settles_notifySignup (newUser : User) :
  settles (notifySignup newUser) (fun _ => True).
Proof. unfold notifySignup. settle_run. Qed.

Ltac settle_handler :=
  repeat first
    [ apply settles_notifyFollowRequest
    | apply settles_notifyPollClose
    | apply settles_notifySignup
    | settle_step ].

(** X22. The handlers whose side effects are all best effort.  Given
    the model it expects, and started while no notification lock is held,
    each of them returns, and returns nil, whichever of its collaborator
    calls fail; given another model it returns a cast error without
    calling anything.  (Client origin: Create Account, Status, FollowReq,
    Announce; Update Status, Account, Report; Accept Follow; Reject
    FollowRequest; Undo Follow, Block, Fave; Delete Account, which accepts
    any model; Report Account; Reject Account.  Federation origin: Create
    Flag; Update Account; Accept Follow, which reads no model; Delete
    Account.) *)
Theorem X22_best_effort_handlers_return_nil :
  Forall (fun h => best_effort (fst h) (snd h)) client_best_effort
  /\ Forall (fun h => best_effort (fst h) (snd h)) fedi_best_effort.
Proof.
  split.
  - unfold client_best_effort.
    repeat match goal with |- Forall _ _ => constructor end;
      cbn [fst snd]; intros cMsg;
      unfold clientAPI_CreateAccount, clientAPI_CreateStatus,
        clientAPI_CreateFollowReq, clientAPI_CreateAnnounce,
        clientAPI_UpdateStatus, clientAPI_UpdateAccount,
        clientAPI_UpdateReport, clientAPI_AcceptFollow,
        clientAPI_RejectFollowRequest, clientAPI_UndoFollow,
        clientAPI_UndoBlock, clientAPI_UndoFave, clientAPI_DeleteAccount,
        clientAPI_ReportAccount, clientAPI_RejectAccount;
      cbv zeta;
      try (destruct (cm_GTSModel cMsg); cbn [is_user is_status
             is_follow_request is_fave is_block is_account is_report
             is_follow is_denied_user];
           try (intros ?; eexists; reflexivity));
      settle_handler.
  - unfold fedi_best_effort.
    repeat match goal with |- Forall _ _ => constructor end;
      cbn [fst snd]; intros fMsg;
      unfold fediAPI_CreateFlag, fediAPI_UpdateAccount, fediAPI_AcceptFollow,
        fediAPI_DeleteAccount;
      try (destruct (fm_GTSModel fMsg); cbn [is_report is_account andb];
           try (intros ?; eexists; reflexivity));
      try (destruct (fm_APObject fMsg) as [[] |]; cbn [is_accountable];
           try (intros ?; eexists; reflexivity));
      settle_handler.
Qed.

(** *** Mentions *)

Lemma calm_notifyMentions_body (status : Status) (mention : Mention) :
  calm_run (notifyMentions_body status mention).
Proof. unfold notifyMentions_body. calm. Qed.

Lemma calm_notifyMentions_loop (status : Status) (mentions : list Mention) :
  forall errs, calm_run (notifyMentions_loop status mentions errs).
Proof.
  induction mentions as [| mention rest IH]; intros errs;
    cbn [notifyMentions_loop].
  - apply calm_ret.
  - apply calm_bind; [apply calm_notifyMentions_body |].
    intros r. apply IH.
Qed.

(** X7. A run of notifyMentions that returns has asked storage to
    populate every mention of the status exactly once, in the order of the
    status's mention list: an iteration that fails (to populate, to check
    the mute, to notify) never stops the ones after it.  And the run does
    return, for any number of mentions, whenever no notification lock is
    held when it starts; it then holds none when it ends. *)
Theorem X7_every_mention_is_attempted (status : Status) (w : World) :
  (forall r w',
      notifyMentions status w = Some (r, w') ->
      exists added,
        history w' = added ++ history w
        /\ rev (List.filter is_populate_mention added)
           = map (fun m => DBPopulateMention (men_ID m)) (st_Mentions status))
  /\ (held_locks w = [] ->
      exists r w' added,
        notifyMentions status w = Some (r, w')
        /\ held_locks w' = []
        /\ history w' = added ++ history w
        /\ rev (List.filter is_populate_mention added)
           = map (fun m => DBPopulateMention (men_ID m)) (st_Mentions status)).
Proof.
  assert (Hevents : forall r w',
             notifyMentions status w = Some (r, w') ->
             exists added,
               history w' = added ++ history w
               /\ rev (List.filter is_populate_mention added)
                  = map (fun m => DBPopulateMention (men_ID m))
                        (st_Mentions status)).
  { unfold notifyMentions, bind.
    destruct (notifyMentions_loop _ _ _ _) as [[errs w1] |] eqn:Hloop;
      [| discriminate].
    intros r w' H. injection H as _ <-.
    eapply notifyMentions_loop_events. exact Hloop. }
  split; [exact Hevents |].
  intros Hfree.
  assert (Hcalm : calm_run (notifyMentions status)).
  { unfold notifyMentions. apply calm_bind.
    - apply calm_notifyMentions_loop.
    - intros errs. apply calm_ret. }
  destruct (Hcalm w Hfree) as (r & w' & Hrun & Hlocks).
  destruct (Hevents r w' Hrun) as (added & Hh & Hpop).
  exists r, w', added. auto.
Qed.

(** *** The remaining handlers, call by call *)

Ltac unfold_wide :=
  cbv beta iota zeta delta
    [bind_W ret_W lift ask ask_for logging_W invalidateStatusFromTimelines
     before_call record_made purge_all
     bind ret emit log_Errorf call_ call
     client_account_purges fedi_account_purges];
  cbn [inner journal history record_call].

Ltac ask_further :=
  repeat (match goal with
          | |- context [answers further ?h ?j ?c] =>
              let F := fresh "F" in destruct (answers further h j c) eqn:F
          | |- context [fails env ?h ?e] =>
              let F := fresh "F" in destruct (fails env h e) eqn:F
          end;
          cbn [inner journal history record_call]).

(** X25. Deleting an account.  Both Delete Account handlers purge the
    three work queues of everything about the account before anything
    else: when the federator (client origin only) and the account
    processor are called, every purge has been issued.  Neither handler
    ever returns an error, and the client-origin one reads no model but
    the origin of the deletion: the ID of the domain block when the
    message carries one, else the ID of the origin account; for a
    federated deletion the origin is the deleted account itself. *)
Theorem X25_account_purges_come_first (s : Wide) :
  (forall cMsg,
      exists s' logged,
        clientAPI_DeleteAccount cMsg s = Some (None, s')
        /\ journal s'
           = mkMade (AccountDelete (acct_ID (cm_Target cMsg))
                                   (delete_origin cMsg))
                    (logged ++ rev (client_account_purges (cm_Target cMsg))
                            ++ history (inner s))
             :: mkMade (FedDeleteAccount (acct_ID (cm_Target cMsg)))
                       (rev (client_account_purges (cm_Target cMsg))
                          ++ history (inner s))
             :: journal s)
  /\ (forall fMsg account,
        fm_GTSModel fMsg = AnAccount account ->
        exists s',
          fediAPI_DeleteAccount fMsg s = Some (None, s')
          /\ journal s'
             = mkMade (AccountDelete (acct_ID account) (acct_ID account))
                      (rev (fedi_account_purges account) ++ history (inner s))
               :: journal s).
Proof.
  split.
  - intros cMsg. unfold clientAPI_DeleteAccount, delete_origin.
    unfold_wide. cbn [history record_call].
    ask_further;
      (eexists _, _; split; [reflexivity |]; cbn [journal]; f_equal;
       f_equal; first [ exact (eq_refl : _ = [] ++ _)
                      | exact (eq_refl : _ = [_] ++ _) ]).
  - intros fMsg account Hmodel. unfold fediAPI_DeleteAccount. rewrite Hmodel.
    unfold_wide. cbn [history record_call].
    ask_further; (eexists; split; reflexivity).
Qed.

(** X27. Effects that depend on the model.  Update Report sends no
    email (and calls nothing at all) when the report was made by a remote
    account, and otherwise exactly the report-closed email.  Report
    Account forwards the report to the federation exactly when the report
    asks for it, and emails the admins in either case.  Reject Account
    attempts all three storage changes (delete the account, delete the
    user, store the denied user) whichever of them fail, and sends the
    rejection email exactly when the denied user asks for it.  All three
    return nil.  (Calls are listed newest first.) *)
Theorem X27_effects_that_depend_on_the_model (s : Wide) :
  (forall cMsg report,
      cm_GTSModel cMsg = AReport report ->
      (if IsRemote (rep_Account report)
       then clientAPI_UpdateReport cMsg s = Some (None, s)
       else exists s',
              clientAPI_UpdateReport cMsg s = Some (None, s')
              /\ map made_call (journal s')
                 = EmailUserReportClosed (rep_ID report)
                   :: map made_call (journal s))
      /\ exists s',
           clientAPI_ReportAccount cMsg s = Some (None, s')
           /\ map made_call (journal s')
              = EmailAdminReportOpened (rep_ID report)
                :: (if rep_Forwarded report then [FedFlag (rep_ID report)]
                    else [])
                ++ map made_call (journal s))
  /\ (forall cMsg deniedUser,
        cm_GTSModel cMsg = ADeniedUser deniedUser ->
        exists s',
          clientAPI_RejectAccount cMsg s = Some (None, s')
          /\ map made_call (journal s')
             = (if den_SendEmail deniedUser
                then [EmailUserSignupRejected (den_ID deniedUser)] else [])
               ++ [ DBPutDeniedUser (den_ID deniedUser);
                    DBDeleteUserByID (den_ID deniedUser);
                    DBDeleteAccount (acct_ID (cm_Target cMsg)) ]
               ++ map made_call (journal s)).
Proof.
  split.
  - intros cMsg report Hmodel.
    unfold clientAPI_UpdateReport, clientAPI_ReportAccount. rewrite Hmodel.
    split.
    + destruct (IsRemote (rep_Account report)); [reflexivity |].
      unfold_wide. cbn [history record_call].
      ask_further; (eexists; split; reflexivity).
    + destruct (rep_Forwarded report); unfold_wide; cbn [history record_call];
        ask_further; (eexists; split; reflexivity).
  - intros cMsg deniedUser Hmodel.
    unfold clientAPI_RejectAccount. rewrite Hmodel.
    destruct (den_SendEmail deniedUser); unfold_wide;
      cbn [history record_call];
      ask_further; (eexists; split; reflexivity).
Qed.

(** X23. A failed prerequisite ends the handler at once.  When
    populating the fave fails, Create Like (from either origin) returns
    the wrapped error having notified, invalidated and federated nothing;
    when deleting the boost fails, Undo Announce returns the wrapped error
    and touches neither counters nor timelines; when updating the user
    fails, Accept Account returns the wrapped error and sends no approval
    email; when the boosted status cannot be dereferenced, the
    federation-origin Create Announce returns the wrapped error, unless
    the failure is marked unretrievable, in which case it logs the skip
    and returns nil; in both cases nothing is counted, timelined or
    notified. *)
Theorem X23_failed_prerequisite_ends_the_handler (s : Wide) :
  (forall fave err w1,
      Populate (DBPopulateStatusFave (fave_ID fave)) (inner s)
        = Some (Some err, w1) ->
      (forall cMsg,
          cm_GTSModel cMsg = AStatusFave fave ->
          clientAPI_CreateLike cMsg s
          = Some (Some (ErrWrap "error populating status fave" err),
                  mkWide w1 (journal s)))
      /\ (forall fMsg,
            fm_GTSModel fMsg = AStatusFave fave ->
            fediAPI_CreateLike fMsg s
            = Some (Some (ErrWrap "error populating status fave" err),
                    mkWide w1 (journal s))))
  /\ (forall cMsg polled err,
        cm_GTSModel cMsg = AStatus polled ->
        answers further (history (inner s)) (journal s)
                (DBDeleteStatusByID (st_ID (the_status polled))) = Some err ->
        clientAPI_UndoAnnounce cMsg s
        = Some (Some (ErrWrap "db error deleting status" err),
                record_made (DBDeleteStatusByID (st_ID (the_status polled))) s))
  /\ (forall cMsg newUser err,
        cm_GTSModel cMsg = AUser newUser ->
        answers further (history (inner s)) (journal s)
                (DBUpdateUser (user_ID newUser) ["approved"; "sign_up_ip"])
          = Some err ->
        clientAPI_AcceptAccount cMsg s
        = Some (Some (ErrWrap ("db error updating user " +:+ user_ID newUser)
                              err),
                record_made (DBUpdateUser (user_ID newUser)
                                          ["approved"; "sign_up_ip"]) s))
  /\ (forall fMsg polled err,
        fm_GTSModel fMsg = AStatus polled ->
        answers further (history (inner s)) (journal s)
                (FedEnrichAnnounce (st_ID (the_status polled))
                                   (acct_Username (fm_Receiving fMsg)))
          = Some err ->
        let tried :=
          record_made (FedEnrichAnnounce (st_ID (the_status polled))
                                         (acct_Username (fm_Receiving fMsg))) s in
        fediAPI_CreateAnnounce fMsg s
        = if unretrievable further (history (inner s)) (journal s)
          then Some (None,
                     record_made
                       (LogDebug ("skipping announce: " +:+ error_text err))
                       tried)
          else Some (Some (ErrWrap "error dereferencing announce" err), tried)).
Proof.
  split; [| split; [| split]].
  - intros fave err w1 Hpop. split.
    + intros cMsg Hmodel. unfold clientAPI_CreateLike. rewrite Hmodel.
      unfold bind_W at 1. unfold lift at 1. now rewrite Hpop.
    + intros fMsg Hmodel. unfold fediAPI_CreateLike. rewrite Hmodel.
      unfold bind_W at 1. unfold lift at 1. now rewrite Hpop.
  - intros cMsg polled err Hmodel Hfail.
    unfold clientAPI_UndoAnnounce. rewrite Hmodel. cbv zeta.
    unfold bind_W at 1. unfold ask at 1. now rewrite Hfail.
  - intros cMsg newUser err Hmodel Hfail.
    unfold clientAPI_AcceptAccount. rewrite Hmodel.
    unfold bind_W at 1. unfold ask at 1. now rewrite Hfail.
  - intros fMsg polled err Hmodel Hfail tried. subst tried.
    unfold fediAPI_CreateAnnounce. rewrite Hmodel.
    unfold bind_W at 1. unfold before_call at 1.
    unfold bind_W at 1. unfold ask_for at 1. rewrite Hfail.
    destruct (unretrievable further (history (inner s)) (journal s));
      reflexivity.
Qed.


(** X28. Create Status.  The federation-origin handler returns an
    error without calling anything when the message carries neither an
    object nor an IRI, or an object that is no statusable; it returns the
    wrapped error when the status cannot be fetched; and when the fetch
    succeeds but hands back no statusable (another worker created the
    status first) it returns nil having counted, invalidated and
    timelined nothing.  Otherwise, as in the client-origin handler, the
    result is nil, and the status replied to is invalidated in the
    timelines exactly when the new status is a reply. *)
Theorem X28_create_status (s : Wide) :
  (forall fMsg,
      match fm_APObject fMsg, fm_APIRI fMsg with
      | None, None =>
          fediAPI_CreateStatus fMsg s
          = Some (Some (ErrNew "neither APObjectModel nor APIri set"), s)
      | Some (Statusable uri), _ =>
          let fetch := FedRefreshStatus (acct_Username (fm_Receiving fMsg)) uri in
          match answers further (history (inner s)) (journal s) fetch with
          | Some err =>
              fediAPI_CreateStatus fMsg s
              = Some (Some (ErrWrap ("error processing new status " +:+ uri) err),
                      record_made fetch s)
          | None =>
              snd (fetched_status further (history (inner s)) (journal s))
                = false ->
              fediAPI_CreateStatus fMsg s = Some (None, record_made fetch s)
          end
      | Some _, _ =>
          fediAPI_CreateStatus fMsg s
          = Some (Some (ErrNew "cannot cast -> ap.Statusable"), s)
      | None, Some iri =>
          let fetch := FedGetStatusByURI (acct_Username (fm_Receiving fMsg)) iri in
          match answers further (history (inner s)) (journal s) fetch with
          | Some err =>
              fediAPI_CreateStatus fMsg s
              = Some (Some (ErrWrap ("error dereferencing forwarded status "
                                       +:+ iri) err),
                      record_made fetch s)
          | None =>
              snd (fetched_status further (history (inner s)) (journal s))
                = false ->
              fediAPI_CreateStatus fMsg s = Some (None, record_made fetch s)
          end
      end)
  /\ (forall cMsg polled,
        cm_GTSModel cMsg = AStatus polled ->
        exists s' added,
          clientAPI_CreateStatus cMsg s = Some (None, s')
          /\ history (inner s') = added ++ history (inner s)
          /\ (In (SurfaceInvalidateStatus (st_InReplyToID (the_status polled)))
                 added
              <-> st_InReplyToID (the_status polled) <> "")).
Proof.
  split.
  - intros fMsg. unfold fediAPI_CreateStatus.
    destruct (fm_APObject fMsg) as [[uri | uri |] |];
      [| reflexivity | reflexivity | destruct (fm_APIRI fMsg) as [iri |];
                                     [| reflexivity]];
      unfold_wide;
      destruct (answers further (history (inner s)) (journal s) _);
      try reflexivity;
      destruct (fetched_status further (history (inner s)) (journal s))
        as [polled statusable];
      cbn [snd]; intros ->; reflexivity.
  - intros cMsg polled Hmodel. unfold clientAPI_CreateStatus. rewrite Hmodel.
    destruct (String.eqb_spec (st_InReplyToID (the_status polled)) "")
      as [Hnone | Hreply];
      unfold_wide; cbn [negb history record_call]; ask_further;
      (eexists _, _; split; [reflexivity |];
       split; [cbn [history inner]; added |]); simpl;
      (split; [intros H | intros H; try contradiction; auto 10]);
      try assumption; try contradiction;
      repeat match goal with
        | H : _ \/ _ |- _ => destruct H as [H | H]
        end; try discriminate; try contradiction.
Qed.

Lemma logging_ask (msg : string) (c : Call) (s : Wide) :
  logging_W msg (ask c) s = Some (tt, asked_and_logged msg c s).
Proof.
  unfold logging_W, bind_W, ask, asked_and_logged, with_log.
  destruct (answers further _ _ c); reflexivity.
Qed.

Lemma logging_lift (msg : string) (m : M (option error)) (s : Wide) :
  logging_W msg (lift m) s
  = match m (inner s) with
    | Some (r, w1) => Some (tt, mkWide (with_log msg r w1) (journal s))
    | None => None
    end.
Proof.
  unfold logging_W, bind_W, lift, with_log.
  destruct (m (inner s)) as [[[err |] w1] |]; reflexivity.
Qed.


Lemma logging_run (msg : string) (m : W (option error)) (s : Wide) :
  logging_W msg m s
  = match m s with
    | Some (r, s1) => Some (tt, mkWide (with_log msg r (inner s1)) (journal s1))
    | None => None
    end.
Proof.
  unfold logging_W, bind_W, lift, with_log.
  destruct (m s) as [[[err |] [w1 j1]] |]; reflexivity.
Qed.

Lemma notifyFollowRequest_run (followReq : FollowRequest) (s : Wide) :
  let populate := DBPopulateFollowRequest (freq_ID followReq) in
  notifyFollowRequest followReq s
  = match answers further (history (inner s)) (journal s) populate with
    | Some err =>
        Some (Some (ErrWrap ("error populating follow request "
                               +:+ freq_ID followReq) err),
              record_made populate s)
    | None =>
        if IsRemote (freq_TargetAccount followReq) then
          Some (None, record_made populate s)
        else
          match Notify NotificationFollowRequest (freq_TargetAccount followReq)
                       (freq_Account followReq) "" (inner s) with
          | Some (r0, w1) =>
              Some (match r0 with
                    | Some err =>
                        Some (ErrWrap ("error notifying follow target "
                                         +:+ freq_TargetAccountID followReq) err)
                    | None => None
                    end,
                    mkWide w1 (journal (record_made populate s)))
          | None => None
          end
    end.
Proof.
  intros populate. unfold notifyFollowRequest, bind_W, ask, ret_W, lift.
  fold populate.
  destruct (answers further _ _ populate); [reflexivity |].
  destruct (IsRemote _); [reflexivity |].
  cbn [inner journal record_made].
  destruct (Notify _ _ _ _ _) as [[[err |] w1] |]; reflexivity.
Qed.

(** X24. A follow request from the federation.  Given the model it
    expects, the handler returns whenever no notification lock is held
    when it starts.  A request that cannot be populated ends it with the
    wrapped error.  Once the request is populated, the handler looks at
    whether the target account is locked.  For a locked account it only
    notifies the request and counts it: notifyFollowRequest populates the
    request again and, for a local target, runs Notify for a follow
    request notification; a failure of either is logged, the count is
    made, its failure logged too, and nil is returned: the request is
    never accepted on the account's behalf.  For an unlocked account it
    accepts the request first; if accepting fails it returns the wrapped
    error having counted, federated and notified nothing, and otherwise
    it counts for both accounts, federates the Accept and then runs
    notifyFollow for the accepted follow: the world it leaves is the one
    notifyFollow left, with the log line of its failure if it failed,
    and nil is returned whichever of these fail.  (Calls are listed
    newest first.) *)
Theorem X24_locked_accounts_decide_themselves
    (fMsg : FediMessage) (followRequest : FollowRequest) (s : Wide) :
  fm_GTSModel fMsg = AFollowRequest followRequest ->
  let populate := DBPopulateFollowRequest (freq_ID followRequest) in
  let accept := DBAcceptFollowRequest (freq_AccountID followRequest)
                                      (freq_TargetAccountID followRequest) in
  let stats := "error updating account stats" in
  (free s ->
   exists r s', fediAPI_CreateFollowReq fMsg s = Some (r, s') /\ free s')
  /\ forall r s',
      fediAPI_CreateFollowReq fMsg s = Some (r, s') ->
      match answers further (history (inner s)) (journal s) populate with
      | Some err =>
          r = Some (ErrWrap "error populating follow request" err)
          /\ s' = record_made populate s
      | None =>
          if freq_TargetLocked followRequest then
            r = None
            /\ map made_call (journal s')
               = [ UtilIncrementFollowRequestsCount (acct_ID (fm_Receiving fMsg));
                   populate; populate ] ++ map made_call (journal s)
            /\ exists rn w1,
                 match answers further (history (inner s))
                               (journal (record_made populate s)) populate with
                 | Some err =>
                     rn = Some (ErrWrap ("error populating follow request "
                                           +:+ freq_ID followRequest) err)
                     /\ w1 = inner s
                 | None =>
                     if IsRemote (freq_TargetAccount followRequest) then
                       rn = None /\ w1 = inner s
                     else
                       exists r0,
                         Notify NotificationFollowRequest
                                (freq_TargetAccount followRequest)
                                (freq_Account followRequest) "" (inner s)
                           = Some (r0, w1)
                         /\ rn = match r0 with
                                 | Some err =>
                                     Some (ErrWrap
                                             ("error notifying follow target "
                                                +:+ freq_TargetAccountID followRequest)
                                             err)
                                 | None => None
                                 end
                 end
                 /\ s' = asked_and_logged stats
                           (UtilIncrementFollowRequestsCount
                              (acct_ID (fm_Receiving fMsg)))
                           (mkWide (with_log "error notifying follow request" rn w1)
                                   (journal (record_made populate
                                               (record_made populate s))))
          else
            match answers further (history (inner s))
                          (journal (record_made populate s)) accept with
            | Some err =>
                r = Some (ErrWrap "error accepting follow request" err)
                /\ s' = record_made accept (record_made populate s)
            | None =>
                let follow := accepted_follow further (history (inner s))
                                (journal (record_made populate s)) in
                let counted :=
                  asked_and_logged "error federating follow request accept"
                    (FedAcceptFollow (fol_ID follow))
                    (asked_and_logged stats
                       (UtilIncrementFollowingCount (acct_ID (fm_Requesting fMsg)))
                       (asked_and_logged stats
                          (UtilIncrementFollowersCount (acct_ID (fm_Receiving fMsg)))
                          (record_made accept (record_made populate s)))) in
                r = None
                /\ map made_call (journal s')
                   = [ FedAcceptFollow (fol_ID follow);
                       UtilIncrementFollowingCount (acct_ID (fm_Requesting fMsg));
                       UtilIncrementFollowersCount (acct_ID (fm_Receiving fMsg));
                       accept; populate ] ++ map made_call (journal s)
                /\ exists rn w1,
                     notifyFollow follow (inner counted) = Some (rn, w1)
                     /\ s' = mkWide (with_log "error notifying follow" rn w1)
                                    (journal counted)
            end
      end.
Proof.
  intros Hmodel populate accept stats. split.
  - intros Hfree.
    assert (Hsettles : settles (fediAPI_CreateFollowReq fMsg) (fun _ => True)).
    { unfold fediAPI_CreateFollowReq. rewrite Hmodel. settle_handler. }
    destruct (Hsettles s Hfree) as (r & s' & Hrun & Hfree' & _).
    exists r, s'. auto.
  - intros r s'. unfold fediAPI_CreateFollowReq. rewrite Hmodel.
    unfold bind_W at 1. unfold ask at 1. fold populate.
    destruct (answers further (history (inner s)) (journal s) populate)
      as [err |] eqn:Fpop.
    + unfold ret_W. intros H. injection H as <- <-. split; reflexivity.
    + destruct (freq_TargetLocked followRequest).
      * unfold bind_W. rewrite logging_run, notifyFollowRequest_run.
        fold populate. cbn [inner journal record_made history].
        destruct (answers further (history (inner s)) (_ :: journal s) populate)
          as [err |] eqn:Fagain.
        -- cbv beta iota. rewrite logging_ask. unfold ret_W.
           intros H. injection H as <- <-.
           split; [reflexivity |]. split; [reflexivity |].
           eexists _, _. split; [split; reflexivity | reflexivity].
        -- destruct (IsRemote (freq_TargetAccount followRequest)).
           ++ cbv beta iota. rewrite logging_ask. unfold ret_W.
              intros H. injection H as <- <-.
              split; [reflexivity |]. split; [reflexivity |].
              eexists _, _. split; [split; reflexivity | reflexivity].
           ++ destruct (Notify _ _ _ _ _) as [[r0 w1] |] eqn:Hnotify;
                [| discriminate].
              cbv beta iota. cbn [inner journal].
              rewrite logging_ask. unfold ret_W.
              intros H. injection H as <- <-.
              split; [reflexivity |]. split; [reflexivity |].
              eexists _, w1. split; [| reflexivity].
              exists r0. split; reflexivity.
      * unfold bind_W at 1. unfold ask_for at 1. fold accept.
        cbn [inner journal record_made history].
        destruct (answers further (history (inner s)) (_ :: journal s) accept)
          as [err |] eqn:Faccept.
        -- unfold ret_W. intros H. injection H as <- <-. split; reflexivity.
        -- cbv zeta. unfold bind_W. rewrite !logging_ask, logging_lift.
           destruct (notifyFollow _ _) as [[rn w1] |] eqn:Hnotify;
             [| discriminate].
           unfold ret_W. intros H. injection H as <- <-.
           split; [reflexivity |]. split; [reflexivity |].
           exists rn, w1. split; reflexivity.
Qed.

(** *** The notifications the remaining reactions create *)

Lemma no_duplicates_cons (n : Notification) (ns : list Notification) :
  count_key (key_of n) ns = 0 -> no_duplicates ns -> no_duplicates (n :: ns).
Proof.
  intros Hnew Hns k. rewrite count_key_cons.
  destruct (has_key k n) eqn:Hk.
  - apply has_key_iff in Hk. subst k. rewrite Hnew. lia.
  - specialize (Hns k). lia.
Qed.

Lemma notify_rows (t : NotificationType) (target origin : Account)
    (status : string) (w : World) (r : option error) (w' : World) :
  Notify t target origin status w = Some (r, w') ->
  (exists extra,
      notifications w' = extra ++ notifications w
      /\ Forall (fun n => key_of n
                          = mkKey t (acct_ID target) (acct_ID origin) status)
                extra)
  /\ (no_duplicates (notifications w) -> no_duplicates (notifications w')).
Proof.
  intros Hrun. unfold Notify in Hrun.
  pose proof (notify_from_table _ (notifications w) _ _ _ _ _ Hrun eq_refl)
    as [Hsame | (Hnew & n & Hkey & Hrows)].
  - rewrite Hsame. split; [exists []; auto | auto].
  - rewrite Hrows. split.
    + exists [n]. split; [reflexivity |]. constructor; [exact Hkey | constructor].
    + apply no_duplicates_cons. now rewrite Hkey.
Qed.

Lemma rows_ret {A : Type} (ok : Notification -> Prop) (a : A) :
  adds_rows ok (ret_W a).
Proof.
  intros s a' s' H. injection H as _ <-. split; [exists []; auto | auto].
Qed.

Lemma rows_bind {A B : Type} (ok : Notification -> Prop)
    (m : W A) (k : A -> W B) :
  adds_rows ok m -> (forall a, adds_rows ok (k a)) -> adds_rows ok (bind_W m k).
Proof.
  intros Hm Hk s b s'. unfold bind_W.
  destruct (m s) as [[a s1] |] eqn:Hrun; [| discriminate].
  intros Hrest.
  destruct (Hm _ _ _ Hrun) as [(extra1 & Hrows1 & Hok1) Hdup1].
  destruct (Hk a _ _ _ Hrest) as [(extra2 & Hrows2 & Hok2) Hdup2].
  split; [| auto].
  exists (extra2 ++ extra1). split.
  - rewrite Hrows2, Hrows1. apply app_assoc.
  - apply Forall_app. auto.
Qed.

Lemma rows_same {A : Type} (ok : Notification -> Prop) (m : W A) :
  (forall s a s', m s = Some (a, s') ->
                  notifications (inner s') = notifications (inner s)) ->
  adds_rows ok m.
Proof.
  intros Hm s a s' Hrun. rewrite (Hm _ _ _ Hrun).
  split; [exists []; auto | auto].
Qed.

Lemma rows_ask (ok : Notification -> Prop) (c : Call) : adds_rows ok (ask c).
Proof. apply rows_same. intros s a s' H. now injection H as _ <-. Qed.

Lemma rows_ask_for {A : Type} (ok : Notification -> Prop) (c : Call)
    (given : list Event -> list Made -> A) :
  adds_rows ok (ask_for c given).
Proof. apply rows_same. intros s a s' H. now injection H as _ <-. Qed.

Lemma rows_Populate (ok : Notification -> Prop) (e : Event) :
  adds_rows ok (lift (Populate e)).
Proof.
  apply rows_same. intros s a s'. unfold lift, Populate.
  destruct (fails env _ _); [| destruct (no_rows env _ _)];
    intros H; now injection H as _ <-.
Qed.

Lemma rows_Notify (ok : Notification -> Prop) (t : NotificationType)
    (target origin : Account) (status : string) :
  ok_key ok (mkKey t (acct_ID target) (acct_ID origin) status) ->
  adds_rows ok (lift (Notify t target origin status)).
Proof.
  intros Hok s a s'. unfold lift.
  destruct (Notify t target origin status (inner s)) as [[r w'] |] eqn:Hrun;
    [| discriminate].
  intros H. injection H as _ <-. cbn [inner].
  destruct (notify_rows _ _ _ _ _ _ _ Hrun) as [(extra & Hrows & Hkeys) Hdup].
  split; [| exact Hdup].
  exists extra. split; [exact Hrows |].
  eapply Forall_impl; [exact Hkeys |].
  intros n Hn. apply Hok. exact Hn.
Qed.

Lemma rows_notify_voters (status : Status) (votes : list Voter)
    (errs : list error) :
  adds_rows (about_poll status) (notify_voters status votes errs).
Proof.
  revert errs. induction votes as [|vote votes IH]; intros errs; simpl.
  - apply rows_ret.
  - destruct (IsRemote (voter_Account vote)); [apply IH |].
    apply rows_bind; [| intros r; apply IH].
    apply rows_Notify. intros n Hn. unfold about_poll.
    destruct n; injection Hn as -> _ -> ->. auto.
Qed.

Lemma rows_notify_moderators (newUser : User) (mods : list Account)
    (errs : list error) :
  adds_rows (about_signup newUser) (notify_moderators newUser mods errs).
Proof.
  revert errs. induction mods as [|moderator mods IH]; intros errs; simpl.
  - apply rows_ret.
  - apply rows_bind; [| intros r; apply IH].
    apply rows_Notify. intros n Hn. unfold about_signup.
    destruct n; injection Hn as -> _ -> ->. auto.
Qed.

Ltac rows :=
  repeat first
    [ apply rows_ret
    | apply rows_ask
    | apply rows_ask_for
    | apply rows_Populate
    | apply rows_notify_voters
    | apply rows_notify_moderators
    | apply rows_bind; [| intros ?]
    | match goal with
      | |- adds_rows _ (if ?b then _ else _) => destruct b
      | |- adds_rows _ (match ?x with _ => _ end) => destruct x
      end ].

(** X21. The reactions to a follow request, a closed poll and a new
    sign-up.  Started while no notification lock is held, each of them
    returns, whatever fails.  Whatever they store are notifications of
    their own kind: for a follow request, of that type, addressed to the
    request's target by its account; for a closed poll, of type poll,
    about the status and originating from its author; for a sign-up, of
    the sign-up type and originating from the new account.  And none of
    them creates a duplicate: if no two stored notifications agree on
    (type, target, origin, status) before, none do after, even when the
    author of a poll has voted or an account is listed twice. *)
Theorem X21_reactions_store_their_own_kind_once :
  (forall followReq,
      settles (notifyFollowRequest followReq) (fun _ => True)
      /\ adds_rows (about_follow_request followReq)
                   (notifyFollowRequest followReq))
  /\ (forall polled,
        settles (notifyPollClose polled) (fun _ => True)
        /\ adds_rows (about_poll (the_status polled)) (notifyPollClose polled))
  /\ (forall newUser,
        settles (notifySignup newUser) (fun _ => True)
        /\ adds_rows (about_signup newUser) (notifySignup newUser)).
Proof.
  split; [| split].
  - intros followReq. split; [apply settles_notifyFollowRequest |].
    unfold notifyFollowRequest. rows.
    apply rows_Notify. intros n Hn. exact Hn.
  - intros polled. split; [apply settles_notifyPollClose |].
    unfold notifyPollClose. cbv zeta. rows.
    apply rows_Notify. intros n Hn. unfold about_poll.
    destruct n; injection Hn as -> _ -> ->. auto.
  - intros newUser. split; [apply settles_notifySignup |].
    unfold notifySignup. rows.
Qed.
End Workers.

(** ** Runs on sample data *)

Example lock_uri_with_status :
  getNotifyLockURI NotificationFave alice bob "01STATUS"
  = "notification:?type=favourite&target=https://example.org/users/alice&origin=https://example.org/users/bob&statusID=01STATUS".
Proof. reflexivity. Qed.

Example lock_uri_without_status :
  getNotifyLockURI NotificationFollow alice bob ""
  = "notification:?type=follow&target=https://example.org/users/alice&origin=https://example.org/users/bob".
Proof. reflexivity. Qed.

Example three_workers_one_notification :
  count_key (db_key fave_args)
    (notifications
       (snd (run_pool (calm "01NEW") sample_schedule
                      (fresh_pool (repeat fave_args 3), empty_world)))) = 1.
Proof. vm_compute. reflexivity. Qed.

Example notify_twice_stores_once :
  option_map (fun rw => (fst rw, length (notifications (snd rw))))
    (bind (Notify (calm "01NEW") NotificationFave alice bob "01STATUS")
          (fun _ => Notify (calm "01NEW") NotificationFave alice bob "01STATUS")
          empty_world)
  = Some (None, 1).
Proof. vm_compute. reflexivity. Qed.

Example notify_waits_for_a_held_lock :
  Notify (calm "01NEW") NotificationFave alice bob "01STATUS"
         (after_lock fave_args empty_world) = None.
Proof. vm_compute. reflexivity. Qed.

Example delete_status_history :
  option_map (fun rw => (fst rw, rev (history (snd rw))))
    (clientAPI_DeleteStatus (calm "01NEW") delete_status_from_client empty_world)
  = Some (None,
          [ DBPopulateStatus "01STATUS";
            QueueDelete DeliveryQueue "ObjectID" "https://example.org/statuses/01STATUS";
            QueueDelete DeliveryQueue "TargetID" "https://example.org/statuses/01STATUS";
            QueueDelete ClientQueue "TargetURI" "https://example.org/statuses/01STATUS";
            QueueDelete FederatorQueue "TargetURI" "https://example.org/statuses/01STATUS";
            UtilWipeStatus "01STATUS" false;
            UtilDecrementStatusesCount "01ALICE";
            FedDeleteStatus "01STATUS" ]).
Proof. vm_compute. reflexivity. Qed.

Example client_block_history :
  option_map (fun rw => (fst rw, rev (history (snd rw)), follows (snd rw)))
    (clientAPI_CreateBlock (calm "01NEW") block_from_client befriended_world)
  = Some (None,
          [ WipeItemsFromAccountID HomeTimelines "01ALICE" "01BOB";
            WipeItemsFromAccountID HomeTimelines "01BOB" "01ALICE";
            FedBlock "01BLOCK" ],
          [("01ALICE", "01BOB"); ("01BOB", "01ALICE")]).
Proof. vm_compute. reflexivity. Qed.

(** ** The theorems at sample inputs *)

Lemma C1_witness :
  count_key (db_key fave_args) (notifications empty_world) <= 1
  /\ count_key (db_key fave_args)
       (notifications
          (snd (run_pool (calm "01NEW") sample_schedule
                         (fresh_pool (repeat fave_args 3), empty_world)))) <= 1
  /\ exists w',
       Notify (calm "01NEW") NotificationFave alice bob "01STATUS"
              notified_world = Some (None, w')
       /\ notifications w' = [fave_notification].
Proof.
  assert (H : count_key (db_key fave_args) (notifications empty_world) <= 1)
    by (vm_compute; lia).
  split; [exact H |]. split.
  - exact (proj1 (C1_at_most_one_notification (calm "01NEW") fave_args 3
                    sample_schedule empty_world H)).
  - assert (H' : count_key (db_key fave_args) (notifications notified_world) <= 1)
      by (vm_compute; lia).
    destruct (proj2 (C1_at_most_one_notification (calm "01NEW") fave_args 0 []
                       notified_world H')
                    fave_notification eq_refl eq_refl eq_refl eq_refl)
      as (w' & Hrun & Hn & _).
    exists w'. split; [exact Hrun | exact Hn].
Defined.

Lemma C2_witness :
  registered undo_follow_from_fedi = false
  /\ Process idle_client_handlers idle_fedi_handlers
             undo_follow_from_fedi empty_world
     = Some (Some (ErrNew "unhandled: Undo Follow"),
             record_call (LogInfo "processing from fedi API") empty_world).
Proof.
  assert (H : registered undo_follow_from_fedi = false) by reflexivity.
  split; [exact H |].
  exact (proj1 (C2_unregistered_pair_is_reported
                  idle_client_handlers idle_fedi_handlers
                  undo_follow_from_fedi empty_world H)).
Defined.

Lemma C4_witness :
  exists r w',
    fediAPI_CreatePollVote (failing is_put_vote) poll_vote_from_fedi empty_world
      = Some (r, w')
    /\ exists err, r = Some err /\ root_cause err = ErrFault "boom".
Proof.
  destruct (fediAPI_CreatePollVote (failing is_put_vote) poll_vote_from_fedi
                                   empty_world) as [[r w'] |] eqn:Hrun;
    [| vm_compute in Hrun; discriminate Hrun].
  exists r, w'. split; [reflexivity |].
  assert (Hh : history w' = [] ++ DBPutPollVote "01VOTE" :: [])
    by (vm_compute in Hrun; injection Hrun as _ <-; reflexivity).
  exact (proj2 (proj1 (C4_primary_failure_policy (failing is_put_vote))
                  poll_vote_from_fedi empty_world r w'
                  (DBPutPollVote "01VOTE") [] [] "boom"
                  Hrun eq_refl Hh (ex_intro _ [] eq_refl) eq_refl)).
Defined.


Lemma C6_witness :
  (exists w',
      notifyFollow (calm "01NEW") follow_of_bob asked_world = Some (None, w')
      /\ count_key (mkKey NotificationFollowRequest "01ALICE" "01BOB" "")
                   (notifications w') = 0
      /\ count_key (mkKey NotificationFollow "01ALICE" "01BOB" "")
                   (notifications w') = 1)
  /\ (exists w',
        notifyFollow (losing is_delete_notification) follow_of_bob asked_world
          = Some (None, w')
        /\ count_key (mkKey NotificationFollowRequest "01ALICE" "01BOB" "")
                     (notifications w') = 0
        /\ count_key (mkKey NotificationFollow "01ALICE" "01BOB" "")
                     (notifications w') = 1)
  /\ (exists w',
        notifyFollow (failing is_delete_notification) follow_of_bob asked_world
          = Some (Some (ErrWrap "error deleting notification 01ASKED"
                                (ErrFault "boom")), w')
        /\ notifications w' = [follow_request_notification]).
Proof.
  assert (Hasked : count_key (asked_key follow_of_bob)
                             (notifications asked_world) <= 1)
    by (vm_compute; lia).
  assert (Hfollowed : count_key (followed_key follow_of_bob)
                                (notifications asked_world) <= 1)
    by (vm_compute; lia).
  split; [| split].
  - assert (H : notify_storage_works (calm "01NEW")
                  (followed_key follow_of_bob) ->
                follow_replaced (calm "01NEW") follow_of_bob asked_world
                  [DBDeleteNotificationByID "01ASKED"])
      by exact (C6_follow_replaces_follow_request (calm "01NEW")
                  follow_of_bob asked_world eq_refl (conj eq_refl eq_refl)
                  eq_refl Hasked Hfollowed).
    destruct H as (r & w' & later & Hrun & H0 & H1 & Hpush & _);
      [split; intros; reflexivity |].
    exists w'. rewrite Hpush in Hrun by (intros h e _; reflexivity). auto.
  - assert (H : notify_storage_works (losing is_delete_notification)
                  (followed_key follow_of_bob) ->
                follow_replaced (losing is_delete_notification)
                  follow_of_bob asked_world
                  [DBDeleteNotificationByID "01ASKED"])
      by exact (C6_follow_replaces_follow_request
                  (losing is_delete_notification)
                  follow_of_bob asked_world eq_refl (conj eq_refl eq_refl)
                  eq_refl Hasked Hfollowed).
    destruct H as (r & w' & later & Hrun & H0 & H1 & Hpush & _);
      [split; intros; reflexivity |].
    exists w'. rewrite Hpush in Hrun by (intros h e _; reflexivity). auto.
  - eexists. split.
    + exact (C6_follow_replaces_follow_request
               (failing is_delete_notification)
               follow_of_bob asked_world eq_refl (conj eq_refl eq_refl)
               eq_refl Hasked Hfollowed).
    + reflexivity.
Defined.

Lemma C7_witness :
  exists r w' push,
    Notify (failing is_get_filters) NotificationFave alice bob "01STATUS"
           empty_world = Some (r, w')
    /\ length (notifications w') = 1
    /\ held_locks w' = []
    /\ push = [DBGetFiltersForAccountID "01ALICE"]
    /\ r <> None.
Proof.
  destruct (C7_unlock_before_push (failing is_get_filters) fave_args empty_world)
    as (r & w' & push & Hrun & Hn & Hl & _ & Hout); try reflexivity.
  exists r, w', push. split; [exact Hrun |].
  split; [rewrite Hn; reflexivity |]. split; [exact Hl |].
  destruct Hout as [(why & _ & Hp & Hr) | [(why & F & _) | (F & _)]];
    [| discriminate F | discriminate F].
  split; [exact Hp |]. rewrite Hr. discriminate.
Defined.

Lemma C8_witness :
  acct_Move (c_Origin move_from_client) = Some sample_move
  /\ (exists move' r w',
        clientAPI_MoveAccount_mem (failing is_fed_move) move_from_client
                                  moving_world = Some ((move', r), w')
        /\ r <> None /\ SucceededAt move' = 0 /\ moves w' = [sample_move])
  /\ (exists move' w',
        clientAPI_MoveAccount_mem (calm "01NEW") move_from_client
                                  moving_world = Some ((move', None), w')
        /\ SucceededAt move' = 42
        /\ moves w' = [mkMove "01MOVE" 42 42]).
Proof.
  split; [reflexivity |]. split.
  - destruct (C8_succeeded_at_only_after_send (failing is_fed_move)
                move_from_client sample_move moving_world eq_refl)
      as (move' & r & w' & added & Hrun & Hh & _ & Hfail & _).
    assert (Ha : added = [] ++ FedMoveAccount "01ALICE"
                            :: [DBPopulateMove "01MOVE";
                                UtilRedirectFollowers "01ALICE" "01BOB"]).
    { vm_compute in Hrun. injection Hrun as _ _ <-.
      simpl in Hh. apply (app_inv_tail []). rewrite <- Hh. reflexivity. }
    destruct (Hfail _ _ "boom" Ha eq_refl) as (_ & (err & -> & _) & -> & Hm).
    exists sample_move, (Some err), w'.
    split; [exact Hrun |]. split; [discriminate |].
    split; [reflexivity | exact Hm].
  - destruct (C8_succeeded_at_only_after_send (calm "01NEW")
                move_from_client sample_move moving_world eq_refl)
      as (move' & r & w' & added & Hrun & _ & _ & _ & Hsent).
    cbv zeta in Hsent. cbn [fails no_rows calm] in Hsent.
    destruct Hsent as (_ & -> & _ & -> & Hm).
    exists (mkMove (move_ID sample_move) (AttemptedAt sample_move)
                   (AttemptedAt sample_move)), w'.
    split; [exact Hrun |]. split; [reflexivity | exact Hm].
Defined.

Lemma C9_witness :
  muted_by_target muted_world (OnFave fave_by_bob) = true
  /\ exists w',
       notifyFave (calm "01NEW") fave_by_bob muted_world = Some (None, w')
       /\ notifications w' = [].
Proof.
  assert (H : muted_by_target muted_world (OnFave fave_by_bob) = true)
    by reflexivity.
  split; [exact H |].
  destruct (proj1 (C9_muted_thread_is_not_notified (calm "01NEW") muted_world)
              (OnFave fave_by_bob) H)
    as (r & w' & added & Hrun & _ & Hn & _ & Hcalm).
  exists w'. rewrite Hcalm in Hrun by (split; reflexivity).
  split; [exact Hrun | exact Hn].
Defined.

Lemma C10_witness :
  fave_TargetAccountID self_fave = fave_AccountID self_fave
  /\ st_BoostOfID plain_status = ""
  /\ notifyFave (calm "01NEW") self_fave empty_world = Some (None, empty_world)
  /\ notifyAnnounce (calm "01NEW") plain_status empty_world
     = Some (None, empty_world).
Proof.
  split; [reflexivity |]. split; [reflexivity |].
  split.
  - exact (proj1 (C10_self_interactions_are_silent (calm "01NEW")
                    self_fave plain_status empty_world) eq_refl).
  - exact (proj2 (C10_self_interactions_are_silent (calm "01NEW")
                    self_fave plain_status empty_world)
                 (or_introl eq_refl)).
Defined.

(** ** Where the code departs from a claim *)

(** C4, as stated, fails at this input: [wipeStatus] fails in the
    client-origin Delete Status handler, the failure is logged, and the
    handler goes on to the statuses counter and the federation send and
    returns success. *)
Lemma C4_counterexample :
  option_map (fun rw => (fst rw, rev (history (snd rw))))
    (clientAPI_DeleteStatus (failing is_wipe) delete_status_from_client
                            empty_world)
  = Some (None,
          [ DBPopulateStatus "01STATUS";
            QueueDelete DeliveryQueue "ObjectID" "https://example.org/statuses/01STATUS";
            QueueDelete DeliveryQueue "TargetID" "https://example.org/statuses/01STATUS";
            QueueDelete ClientQueue "TargetURI" "https://example.org/statuses/01STATUS";
            QueueDelete FederatorQueue "TargetURI" "https://example.org/statuses/01STATUS";
            UtilWipeStatus "01STATUS" false;
            LogError "error wiping status: boom";
            UtilDecrementStatusesCount "01ALICE";
            FedDeleteStatus "01STATUS" ]).
Proof. vm_compute. reflexivity. Qed.

(** Hence the client-origin Delete Status handler does not abort when
    its primary effect fails. *)
Lemma delete_status_does_not_abort :
  ~ aborts_when_primary_fails (failing is_wipe)
      (clientAPI_DeleteStatus (failing is_wipe)) wipe_of_client.
Proof.
  intros H.
  destruct (clientAPI_DeleteStatus (failing is_wipe) delete_status_from_client
                                   empty_world) as [[r w'] |] eqn:Hrun;
    [| discriminate Hrun].
  pose proof (H delete_status_from_client empty_world r w'
                (UtilWipeStatus "01STATUS" false)
                (firstn 3 (history w')) (skipn 4 (history w')) "boom"
                Hrun eq_refl) as H1.
  vm_compute in Hrun. injection Hrun as <- <-.
  destruct H1 as [Hnewer _].
  - reflexivity.
  - eexists. symmetry. apply app_nil_r.
  - reflexivity.
  - discriminate Hnewer.
Qed.


(** Hence the client-origin handler does not do what the claim says. *)
Lemma client_block_leaves_follows : ~ client_block_cleans_up (calm "01NEW").
Proof.
  intros H.
  destruct (clientAPI_CreateBlock (calm "01NEW") block_from_client
                                  befriended_world) as [[r w'] |] eqn:Hrun;
    [| discriminate Hrun].
  destruct (H block_from_client sample_block befriended_world r w'
              eq_refl Hrun) as (added & _ & _ & [Hf _] & _).
  - split; reflexivity.
  - vm_compute in Hrun. injection Hrun as _ <-. discriminate Hf.
Qed.

(** C6, as stated, fails at this input: Alice holds the notification of
    Bob's follow request, and the lookup of that notification fails with
    a real error.  notifyFollow returns that error; the follow request
    notification is still stored and no follow notification exists. *)
Lemma C6_counterexample :
  option_map (fun rw => (fst rw, notifications (snd rw)))
    (notifyFollow (failing is_get_notification) follow_of_bob asked_world)
  = Some (Some (ErrWrap "error getting notification" (ErrFault "boom")),
          [follow_request_notification]).
Proof. vm_compute. reflexivity. Qed.

(** Hence notifyFollow does not always leave zero follow request
    notifications and one follow notification for the pair. *)
Lemma failed_lookup_keeps_follow_request :
  ~ follow_always_replaces (failing is_get_notification).
Proof.
  intros H.
  destruct (notifyFollow (failing is_get_notification) follow_of_bob
                         asked_world) as [[r w'] |] eqn:Hrun;
    [| discriminate Hrun].
  destruct (H follow_of_bob asked_world r w' eq_refl
              (conj eq_refl eq_refl) Hrun) as [H0 _].
  vm_compute in Hrun. injection Hrun as _ <-. discriminate H0.
Qed.

(** C7, as stated, fails at this input: the filters cannot be retrieved,
    and Notify returns that error although the notification is stored
    (and the lock is free again). *)
Lemma C7_counterexample :
  option_map (fun rw => (fst rw, notifications (snd rw), held_locks (snd rw)))
    (Notify (failing is_get_filters) NotificationFave alice bob "01STATUS"
            empty_world)
  = Some (Some (ErrWrap "couldn't retrieve filters for account 01ALICE"
                        (ErrFault "boom")),
          [mkNotification "01NOTIF" NotificationFave "01ALICE" "01BOB" "01STATUS"],
          []).
Proof. vm_compute. reflexivity. Qed.

(** Hence a stored notification does not mean that Notify succeeded. *)
Lemma push_failure_is_returned : ~ stored_means_success (failing is_get_filters).
Proof.
  intros H.
  destruct (Notify (failing is_get_filters) NotificationFave alice bob
                   "01STATUS" empty_world) as [[r w'] |] eqn:Hrun;
    [| discriminate Hrun].
  pose proof (H fave_args empty_world r w' Hrun) as H1.
  vm_compute in Hrun. injection Hrun as <- <-.
  discriminate H1. simpl. lia.
Qed.

(** ** Further theorems at sample inputs *)

Lemma X3_witness :
  is_held (getNotifyLockURI NotificationFave alice bob "01STATUS")
          (held_locks empty_world) = false
  /\ exists r w',
       Notify (failing is_get_filters) NotificationFave alice bob "01STATUS"
              empty_world = Some (r, w')
       /\ held_locks w' = held_locks empty_world.
Proof.
  split; [reflexivity |].
  apply X3_notify_returns_and_unlocks. reflexivity.
Defined.

Lemma X4_witness :
  exists r w',
    Notify (calm "01NEW") NotificationFave alice bob "01STATUS" empty_world
      = Some (r, w')
    /\ (notifications w' = notifications empty_world
        \/ (count_key (mkKey NotificationFave "01ALICE" "01BOB" "01STATUS")
                      (notifications empty_world) = 0
            /\ exists n,
                 key_of n = mkKey NotificationFave "01ALICE" "01BOB" "01STATUS"
                 /\ notifications w' = n :: notifications empty_world)).
Proof.
  destruct (Notify (calm "01NEW") NotificationFave alice bob "01STATUS"
                   empty_world) as [[r w'] |] eqn:Hrun.
  - exists r, w'. split; [reflexivity |].
    exact (X4_notify_adds_at_most_one_row (calm "01NEW") NotificationFave
             alice bob "01STATUS" empty_world r w' Hrun).
  - vm_compute in Hrun. discriminate Hrun.
Defined.

Lemma X5_witness :
  getNotifyLockURI NotificationFave alice bob "01STATUS"
  = getNotifyLockURI NotificationFave alice bob "01STATUS"
  /\ "01STATUS" = "01STATUS".
Proof.
  split; [reflexivity |].
  apply (X5_lock_key_tells_statuses_apart NotificationFave alice bob).
  reflexivity.
Defined.

Lemma X7_witness :
  exists r w',
    notifyMentions (failing is_populate_mention) two_mentions empty_world
      = Some (r, w')
    /\ exists added,
         history w' = added ++ history empty_world
         /\ rev (List.filter is_populate_mention added)
            = [DBPopulateMention "01M1"; DBPopulateMention "01M2"].
Proof.
  destruct (proj2 (X7_every_mention_is_attempted
                     (failing is_populate_mention) two_mentions empty_world)
                  eq_refl)
    as (r & w' & added & Hrun & _ & Hh & Hpop).
  exists r, w'. split; [exact Hrun |].
  exists added. split; [exact Hh | exact Hpop].
Defined.

Lemma X9_witness :
  f_GTSModel poll_vote_from_fedi = ModelPollVote sample_vote
  /\ exists r w' added,
       fediAPI_CreatePollVote (calm "01NEW") poll_vote_from_fedi empty_world
         = Some (r, w')
       /\ history w' = added ++ history empty_world
       /\ (r <> None -> forallb is_prerequisite_of_vote added = true)
       /\ (r = None ->
           In (SurfaceInvalidateStatus (vote_PollStatusID sample_vote)) added
           /\ (In (FedUpdateStatus (st_ID (vote_PollStatus sample_vote))) added
               <-> st_Local (vote_PollStatus sample_vote) = true)).
Proof.
  split; [reflexivity |].
  apply X9_poll_vote_updates_local_status_only. reflexivity.
Defined.

Lemma X10_witness :
  exists r w',
    Notify (calm "01NEW") NotificationFave alice bob "01STATUS" empty_world
      = Some (r, w')
    /\ exists added,
         history w' = added ++ history empty_world
         /\ Forall (is_notify_event
                      (mkArgs NotificationFave alice bob "01STATUS")) added.
Proof.
  destruct (Notify (calm "01NEW") NotificationFave alice bob "01STATUS"
                   empty_world) as [[r w'] |] eqn:Hrun.
  - exists r, w'. split; [reflexivity |].
    exact (X10_notify_calls_only_its_own (calm "01NEW") NotificationFave
             alice bob "01STATUS" empty_world r w' Hrun).
  - vm_compute in Hrun. discriminate Hrun.
Defined.

(** ** Further runs on sample data *)

Example remote_vote_is_not_federated :
  option_map (fun rw => (fst rw, rev (history (snd rw))))
    (fediAPI_CreatePollVote (calm "01NEW")
       (mkFediMsg ActivityCreate ActivityQuestion
                  (ModelPollVote remote_vote) remote_bob alice)
       empty_world)
  = Some (None,
          [ DBPutPollVote "01VOTE2"; DBPopulatePollVote "01VOTE2";
            DBPopulatePoll "01POLL2"; SurfaceInvalidateStatus "01REMOTE" ]).
Proof. vm_compute. reflexivity. Qed.

Example missing_rows_do_not_stop_a_delete :
  option_map (fun rw => (fst rw, length (history (snd rw))))
    (clientAPI_DeleteStatus rowless delete_status_from_client empty_world)
  = Some (None, 8).
Proof. vm_compute. reflexivity. Qed.

(** ** The read side at sample inputs *)

Lemma X15_witness :
  [old_warning; hide_spoilers] <> []
  /\ Typeutils.s_AccountID spoiler_status <> acct_ID alice
  /\ Typeutils.FilterContextNotifications <> Typeutils.FilterContextNone
  /\ Typeutils.statusToAPIFilterResults plain_tools 10 spoiler_status
       (Some alice) Typeutils.FilterContextNotifications
       [old_warning; hide_spoilers]
     = Typeutils.statusToAPIFilterResults plain_tools 10 spoiler_status
         (Some alice) Typeutils.FilterContextNotifications [hide_spoilers].
Proof.
  assert (H1 : [old_warning; hide_spoilers] <> []) by discriminate.
  assert (H2 : Typeutils.s_AccountID spoiler_status <> acct_ID alice)
    by discriminate.
  assert (H3 : Typeutils.FilterContextNotifications
               <> Typeutils.FilterContextNone) by discriminate.
  split; [exact H1 |]. split; [exact H2 |]. split; [exact H3 |].
  exact (X15_only_filters_in_force_count plain_tools 10 spoiler_status alice
           Typeutils.FilterContextNotifications [old_warning; hide_spoilers]
           H1 H2 H3).
Defined.

Lemma X18_witness :
  Timeline.GetAccountNotifications
    (sample_services [follow_by_bob; mention_of_spoiler]
                     (String.eqb "01SPOILER"))
    (acct_ID alice) "" "" "" 20 [] []
  = (([follow_by_bob; mention_of_spoiler], None), ["GetAccountNotifications"])
  /\ (forall e, @None error = Some e -> is_no_entries e = true)
  /\ Timeline.GetFiltersForAccountID
       (sample_services [follow_by_bob; mention_of_spoiler]
                        (String.eqb "01SPOILER"))
       (acct_ID alice) ["GetAccountNotifications"]
     = (Ok [hide_spoilers],
        ["GetFiltersForAccountID"; "GetAccountNotifications"])
  /\ exists items st3,
       Timeline.NotificationsGet
         (sample_services [follow_by_bob; mention_of_spoiler]
                          (String.eqb "01SPOILER"))
         plain_tools alice "" "" "" 20 [] []
       = (Timeline.PackagePageableResponse
            (Timeline.mkParams items "api/v1/notifications" "01N2" "01N1" 20),
          st3)
       /\ length items <= 2.
Proof.
  assert (H2 : forall e, @None error = Some e -> is_no_entries e = true)
    by (intros e H; discriminate H).
  split; [reflexivity |]. split; [exact H2 |]. split; [reflexivity |].
  exact (X18_page_cursors_ignore_skipped_items
           (sample_services [follow_by_bob; mention_of_spoiler]
                            (String.eqb "01SPOILER"))
           plain_tools alice "" "" "" 20 [] follow_by_bob [mention_of_spoiler]
           None [hide_spoilers] [] _ _ eq_refl H2 eq_refl).
Defined.

Example hidden_spoiler_is_skipped_but_paged :
  fst (Timeline.NotificationsGet
         (sample_services [follow_by_bob; mention_of_spoiler]
                          (String.eqb "01SPOILER"))
         plain_tools alice "" "" "" 20 [] [])
  = Timeline.PackagePageableResponse
      (Timeline.mkParams
         [Typeutils.mkAPINotification "01N1" "follow"
            "2024-01-01T00:00:00.000Z" (Typeutils.mkAPIAccount "01BOB") None]
         "api/v1/notifications" "01N2" "01N1" 20).
Proof. vm_compute. reflexivity. Qed.

Example spoiler_is_hidden :
  Typeutils.statusToAPIFilterResults plain_tools 10 spoiler_status
    (Some alice) Typeutils.FilterContextNotifications
    [old_warning; hide_spoilers]
  = Typeutils.ErrHideStatus.
Proof. vm_compute. reflexivity. Qed.

Example spoiler_fields :
  Typeutils.filterableTextFields plain_tools spoiler_status
  = ["the finale was great"; "a screenshot"; "yes"; "no"].
Proof. vm_compute. reflexivity. Qed.

Example somebody_elses_notification :
  fst (Timeline.NotificationGet
         (sample_services [notification_for_bob] (fun _ => false))
         plain_tools alice "01N3" [])
  = inr (Timeline.NewErrorNotFound
           (ErrNew "account 01ALICE does not have permission to view notification belong to account 01BOB")).
Proof. vm_compute. reflexivity. Qed.

(** ** The remaining handlers at sample inputs *)

Lemma X24_witness :
  fm_GTSModel follow_request_from_fedi = AFollowRequest request_to_locked_alice
  /\ exists r s',
       fediAPI_CreateFollowReq (calm "01NEW") sample_More
                               follow_request_from_fedi empty_wide
       = Some (r, s')
       /\ r = None
       /\ map made_call (journal s')
          = [ UtilIncrementFollowRequestsCount "01ALICE";
              DBPopulateFollowRequest "01REQUEST";
              DBPopulateFollowRequest "01REQUEST" ]
       /\ exists r0 w1,
            Notify (calm "01NEW") NotificationFollowRequest alice remote_bob ""
                   empty_world = Some (r0, w1)
            /\ notifications (inner s') = notifications w1.
Proof.
  split; [reflexivity |].
  destruct (X24_locked_accounts_decide_themselves (calm "01NEW") sample_More
              follow_request_from_fedi request_to_locked_alice empty_wide
              eq_refl) as [Hreturns Hdoes].
  destruct (Hreturns eq_refl) as (r & s' & Hrun & _).
  exists r, s'. split; [exact Hrun |].
  destruct (Hdoes r s' Hrun) as (Hr & Hjournal & rn & w1 & (r0 & Hnotify & _) & ->).
  split; [exact Hr |]. split; [exact Hjournal |].
  exists r0, w1. split; [exact Hnotify |].
  destruct rn; reflexivity.
Defined.


Example signup_is_announced_to_the_moderators :
  option_map (fun rs => (fst rs,
                         map notif_TargetAccountID (notifications (inner (snd rs))),
                         map made_call (journal (snd rs))))
    (clientAPI_CreateAccount (calm "01NEW") sample_More signup_from_client
                             empty_wide)
  = Some (None, ["01ALICE"],
          [ EmailUserPleaseConfirm "01USER"; EmailAdminNewSignup "01USER";
            DBPopulateAccount "01BOB"; DBPopulateUser "01USER";
            DBGetInstanceModerators ]).
Proof. vm_compute. reflexivity. Qed.

Example remote_vote_goes_to_its_origin :
  option_map (fun rs => (fst rs, map made_call (journal (snd rs))))
    (clientAPI_CreatePollVote (calm "01NEW") sample_More vote_from_client
                              empty_wide)
  = Some (None, [FedCreatePollVote "01POLL2" "01VOTE2"]).
Proof. vm_compute. reflexivity. Qed.
